(** * Whisplay display driver for pwnagotchi: a shallow embedding

    The development follows the two source files of the repository:

    - [whisplaydriver.py], class [WhisPlayBoard]: the constructor and the
      hardware detection ([__init__], [_detect_hardware_version]), the
      bring-up of the panel ([_reset_lcd], [_init_display]), the SPI
      transport ([_send_command], [_send_data]), the window protocol
      ([set_window]), the drawing primitives ([draw_pixel], [draw_line],
      [fill_screen], [draw_image]), the backlight ([set_backlight],
      [set_backlight_mode]), the RGB indicator ([set_rgb], [set_rgb_fade])
      and [cleanup];
    - [whisplay.py], class [Whisplay]: [initialize], [render], which scales
      and crops a canvas to the panel and packs it as RGB565, and [clear].

    Python integers are [Z]; Python floats are the rationals that binary64
    represents, every float operation being the exact operation followed by
    rounding to nearest, ties to even ([PyFloat.rnd], checked against the
    Standard Library's [SpecFloat] in [rnd_agrees_with_binary64]).  The
    division of integers raises OverflowError when its quotient is no
    finite float, and [time.sleep] when its pause does not fit a signed
    64-bit count of nanoseconds.  The methods of the driver are state
    transformers over the record [board], in a monad that keeps the state
    when an exception is raised, as Python does.  What the driver does to the hardware (GPIO writes, SPI transfers,
    PWM duty cycles, pauses) is appended to the log of the board; the calls
    that release hardware are kept with them in the calls of a [session].

    Layout: the embedding of the code; the vocabulary of the statements
    (expected traces, concrete boards and images); facts about rounding;
    then the properties, component by component: window addressing, drawing
    primitives, RGB565, backlight, RGB indicator and fade, render pipeline,
    fill and frame layout, lines, hardware detection, constructor and
    [initialize], backlight mode and [cleanup], direction of a fade. *)

From Stdlib Require Import Ascii String.
From Stdlib Require Import ZArith QArith Qround Qabs Qpower Qreduction.
From Stdlib Require Import List Bool Lia Lqa.
From Stdlib Require Import SpecFloat.
Import ListNotations.

Local Open Scope Z_scope.

(* ------------------------------------------------------------------ *)
(** ** Exceptions and the state monad of the driver *)

Inductive exn : Type :=
| ValueError
| ZeroDivisionError
| NameError
| AttributeError
| IndexError
| RuntimeError
| OverflowError.

Inductive outcome (A : Type) : Type :=
| Returned (a : A)
| Raised (e : exn).

Arguments Returned {A} a.
Arguments Raised {A} e.

(** A method of an object with state [S]: it returns or raises, and in both
    cases leaves a state behind (Python does not roll mutations back). *)
Definition M (S A : Type) : Type := S -> outcome A * S.

Definition ret {S A} (a : A) : M S A := fun s => (Returned a, s).

Definition raise {S A} (e : exn) : M S A := fun s => (Raised e, s).

Definition bind {S A B} (m : M S A) (k : A -> M S B) : M S B :=
  fun s =>
    match m s with
    | (Returned a, s') => k a s'
    | (Raised e, s') => (Raised e, s')
    end.

(** [try: m  except Exception: h] *)
Definition try_except {S A} (m : M S A) (h : exn -> M S A) : M S A :=
  fun s =>
    match m s with
    | (Returned a, s') => (Returned a, s')
    | (Raised e, s') => h e s'
    end.

(** Lifting a pure computation that may raise. *)
Definition lift {S A} (o : outcome A) : M S A := fun s => (o, s).

Declare Scope monad_scope.
Delimit Scope monad_scope with monad.
Notation "x <- m ;; k" := (bind m (fun x => k))
  (at level 61, m at next level, right associativity) : monad_scope.
Notation "m ;;; k" := (bind m (fun _ => k))
  (at level 61, right associativity) : monad_scope.

(** [for a in l: body a] *)
Fixpoint for_each {S A} (l : list A) (body : A -> M S unit) : M S unit :=
  match l with
  | [] => ret tt
  | a :: l' => bind (body a) (fun _ => for_each l' body)
  end.

(** The same sequencing for pure computations that may raise. *)
Definition obind {A B} (o : outcome A) (k : A -> outcome B) : outcome B :=
  match o with
  | Returned a => k a
  | Raised e => Raised e
  end.

(* ------------------------------------------------------------------ *)
(** ** Python built-ins used by the driver *)

(** [range(n)] *)
Definition range (n : Z) : list Z := map Z.of_nat (seq 0 (Z.to_nat n)).

(** [range(start, stop, step)] for a positive step: the values
    [start + k*step] below [stop]. *)
Definition range3 (start stop step : Z) : list Z :=
  map (fun k => start + Z.of_nat k * step)
      (seq 0 (Z.to_nat ((stop - start + step - 1) / step))).

(** [data[i:j]] for [0 <= i <= j]. *)
Definition slice {A} (data : list A) (i j : Z) : list A :=
  firstn (Z.to_nat (j - i)) (skipn (Z.to_nat i) data).

(** [len(data)] *)
Definition len {A} (data : list A) : Z := Z.of_nat (length data).

(** [max(0, min(255, v))] *)
Definition clamp255 (v : Z) : Z := Z.max 0 (Z.min 255 v).

(* ------------------------------------------------------------------ *)
(** ** Python floats *)

Module PyFloat.

(** A finite float is the rational it denotes. *)
Definition float : Type := Q.

(** [2^k] for any integer [k]. *)
Definition pow2 (k : Z) : Q := (2 ^ k)%Q.

(** Rounding a rational to the nearest integer, ties to the even one. *)
Definition rne (q : Q) : Z :=
  let f := Qfloor q in
  match Qcompare (q - inject_Z f) (1 # 2) with
  | Lt => f
  | Gt => f + 1
  | Eq => if Z.even f then f else f + 1
  end.

(** The binade of a nonzero rational: [2^e <= |q| < 2^(e+1)]. *)
Definition ilog2 (q : Q) : Z :=
  let e0 := Z.log2 (Z.abs (Qnum q)) - Z.log2 (Zpos (Qden q)) in
  if Qle_bool (pow2 e0) (Qabs q) then e0 else e0 - 1.

(** Exponent of the unit in the last place in binade [e]: 53 bits of
    precision, gradual underflow below [2^-1022]. *)
Definition fexp (e : Z) : Z := Z.max (e - 52) (-1074).

(** The multiple of [2^k] nearest to [q], ties to the even multiple. *)
Definition round_at (k : Z) (q : Q) : Q :=
  (inject_Z (rne (q * pow2 (- k))) * pow2 k)%Q.

(** Rounding to binary64, to nearest, ties to even.  The result is in
    lowest terms and depends on the value of [x] only.  The exponent is
    not bounded above here: the operations of Python that raise on a
    result of magnitude [2^1024] or more check it with [overflows] below
    (the division of integers), and the statements about fades keep their
    integers below [2^1000], where every sum and product of the driver is
    a finite float. *)
Definition rnd (x : Q) : float :=
  let q := Qred x in
  if Qeq_bool q 0 then 0%Q
  else Qred (round_at (fexp (ilog2 q)) q).

(** The binade of the value of a nonzero rational. *)
Definition binade (x : Q) : Z := ilog2 (Qred x).

(** [float(n)] for an integer [n]. *)
Definition of_int (n : Z) : float := rnd (inject_Z n).

(** A correctly rounded result that no finite float holds: its magnitude
    reached [2^1024]. *)
Definition overflows (q : Q) : bool := Qle_bool (pow2 1024) (Qabs q).

(** [a / b] on integers: the correctly rounded quotient, and an
    OverflowError when it is too large for a float. *)
Definition int_truediv (a b : Z) : outcome float :=
  if b =? 0 then Raised ZeroDivisionError
  else
    let q := rnd (inject_Z a / inject_Z b) in
    if overflows q then Raised OverflowError else Returned q.

(** [x / y] on floats. *)
Definition truediv (x y : float) : outcome float :=
  if Qeq_bool y 0 then Raised ZeroDivisionError
  else Returned (rnd (x / y)).

Definition mul (x y : float) : float := rnd (x * y).
Definition add (x y : float) : float := rnd (x + y).
Definition sub (x y : float) : float := rnd (x - y).

(** [x > y] *)
Definition gtb (x y : float) : bool := negb (Qle_bool x y).

(** [int(x)]: truncation toward zero. *)
Definition to_int (x : float) : Z := Z.quot (Qnum x) (Zpos (Qden x)).

(** [round(x)] of Python 3: nearest integer, ties to even.  The driver
    never calls it; it is here to state what the specification says. *)
Definition round (x : float) : Z := rne x.

End PyFloat.

Local Open Scope monad_scope.

(* ------------------------------------------------------------------ *)
(** ** The hardware seen by the driver *)

(** Logic levels of [RPi.GPIO]. *)
Inductive level : Type := LOW | HIGH.

(** What the driver does to the outside world, in the order it does it.
    The GPIO and SPI layers are the primitive transport of the driver: a
    call is recorded as it is made, with the arguments it was given. *)
Inductive event : Type :=
| GpioOutput (pin : Z) (v : level)            (* GPIO.output(pin, v) *)
| SpiXfer2 (data : list Z)                    (* spi.xfer2(data) *)
| SpiWritebytes2 (data : list Z)              (* spi.writebytes2(data) *)
| SpiWritebytes (data : list Z)               (* spi.writebytes(data) *)
| PwmStart (pin : Z) (dc : Q)                 (* pwm.start(dc) *)
| PwmChangeDutyCycle (pin : Z) (dc : Q)       (* pwm.ChangeDutyCycle(dc) *)
| Sleep (seconds : Q).                        (* time.sleep(seconds) *)

(** A [GPIO.PWM] object. *)
Record pwm : Type := mk_pwm {
  pwm_channel : Z;
  pwm_frequency : Z;
  pwm_dutycycle : Q
}.

(** ** class WhisPlayBoard *)

Definition LCD_WIDTH : Z := 240.
Definition LCD_HEIGHT : Z := 280.
Definition CornerHeight : Z := 20.
Definition DC_PIN : Z := 13.
Definition RST_PIN : Z := 7.
Definition LED_PIN : Z := 15.
Definition RED_PIN : Z := 22.
Definition GREEN_PIN : Z := 18.
Definition BLUE_PIN : Z := 16.
Definition BUTTON_PIN : Z := 11.

(** The attributes of a [WhisPlayBoard] that the modelled methods read or
    write, with the log of hardware calls made so far (oldest first).
    [_current_r], [_current_g] and [_current_b] are [None] while the
    attribute has never been assigned (the constructor assigns them only
    when the RGB pins could be set up).  Two fields describe the
    environment: whether [self.spi] offers [writebytes2], and whether
    [GPIO.PWM] grants a new PWM object on the backlight pin. *)
Record board : Type := mk_board {
  _gpio_initialized : bool;
  backlight_mode : bool;
  backlight_pwm : option pwm;
  red_pwm : option pwm;
  green_pwm : option pwm;
  blue_pwm : option pwm;
  _current_r : option Z;
  _current_g : option Z;
  _current_b : option Z;
  spi_has_writebytes2 : bool;
  gpio_pwm_granted : bool;
  log : list event
}.

Definition with_log (l : list event) (s : board) : board :=
  mk_board (_gpio_initialized s) (backlight_mode s) (backlight_pwm s)
           (red_pwm s) (green_pwm s) (blue_pwm s)
           (_current_r s) (_current_g s) (_current_b s)
           (spi_has_writebytes2 s) (gpio_pwm_granted s) l.

Definition with_backlight_pwm (p : option pwm) (s : board) : board :=
  mk_board (_gpio_initialized s) (backlight_mode s) p
           (red_pwm s) (green_pwm s) (blue_pwm s)
           (_current_r s) (_current_g s) (_current_b s)
           (spi_has_writebytes2 s) (gpio_pwm_granted s) (log s).

Definition with_red_pwm (p : option pwm) (s : board) : board :=
  mk_board (_gpio_initialized s) (backlight_mode s) (backlight_pwm s)
           p (green_pwm s) (blue_pwm s)
           (_current_r s) (_current_g s) (_current_b s)
           (spi_has_writebytes2 s) (gpio_pwm_granted s) (log s).

Definition with_green_pwm (p : option pwm) (s : board) : board :=
  mk_board (_gpio_initialized s) (backlight_mode s) (backlight_pwm s)
           (red_pwm s) p (blue_pwm s)
           (_current_r s) (_current_g s) (_current_b s)
           (spi_has_writebytes2 s) (gpio_pwm_granted s) (log s).

Definition with_blue_pwm (p : option pwm) (s : board) : board :=
  mk_board (_gpio_initialized s) (backlight_mode s) (backlight_pwm s)
           (red_pwm s) (green_pwm s) p
           (_current_r s) (_current_g s) (_current_b s)
           (spi_has_writebytes2 s) (gpio_pwm_granted s) (log s).

Definition with_current (r g b : option Z) (s : board) : board :=
  mk_board (_gpio_initialized s) (backlight_mode s) (backlight_pwm s)
           (red_pwm s) (green_pwm s) (blue_pwm s)
           r g b
           (spi_has_writebytes2 s) (gpio_pwm_granted s) (log s).

(** Reading and writing [self]. *)
Definition get : M board board := fun s => (Returned s, s).
Definition modify (f : board -> board) : M board unit :=
  fun s => (Returned tt, f s).

(** One hardware call. *)
Definition emit (e : event) : M board unit :=
  modify (fun s => with_log (log s ++ [e]) s).

Definition GPIO_output (pin : Z) (v : level) : M board unit :=
  emit (GpioOutput pin v).

(** [GPIO.PWM(pin, frequency)]: a RuntimeError when the library refuses. *)
Definition GPIO_PWM (pin frequency : Z) : M board pwm :=
  s <- get ;;
  if gpio_pwm_granted s then ret (mk_pwm pin frequency 0)
  else raise RuntimeError.

(** [pwm.start(dc)] and [pwm.ChangeDutyCycle(dc)]: RPi.GPIO rejects a duty
    cycle outside [0.0, 100.0] with a ValueError.  The object is returned
    with its new duty cycle; the caller keeps it in the attribute that
    refers to it. *)
Definition valid_dutycycle (dc : Q) : bool := Qle_bool 0 dc && Qle_bool dc 100.

Definition PWM_start (p : pwm) (dc : Q) : M board pwm :=
  if valid_dutycycle dc then
    emit (PwmStart (pwm_channel p) dc) ;;;
    ret (mk_pwm (pwm_channel p) (pwm_frequency p) dc)
  else raise ValueError.

Definition PWM_ChangeDutyCycle (p : pwm) (dc : Q) : M board pwm :=
  if valid_dutycycle dc then
    emit (PwmChangeDutyCycle (pwm_channel p) dc) ;;;
    ret (mk_pwm (pwm_channel p) (pwm_frequency p) dc)
  else raise ValueError.

(** [spi.writebytes2(data)]: an AttributeError on a spidev without it. *)
Definition spi_writebytes2 (data : list Z) : M board unit :=
  s <- get ;;
  if spi_has_writebytes2 s then emit (SpiWritebytes2 data)
  else raise AttributeError.

(** [time.sleep(seconds)].  CPython first turns the pause into a count
    of nanoseconds, the float product [seconds * 1e9], which has to fit a
    signed 64-bit integer: an OverflowError unless
    [-2^63 <= seconds * 1e9 < 2^63].  Only then is the sign looked at: a
    ValueError on a negative pause.  The sleep itself runs to a deadline,
    the monotonic clock plus the pause, and the operating system refuses
    (OSError) a deadline beyond [2^63] nanoseconds; the clock is not part
    of the board, so a pause within the machine's uptime of [2^63]
    nanoseconds is outside this model, and the statements about pauses
    keep well below it ([MAX_DURATION_MS]). *)
Definition sleep_overflows (seconds : Q) : bool :=
  let ns := PyFloat.mul seconds (PyFloat.of_int (10 ^ 9)) in
  negb (Qle_bool (- PyFloat.pow2 63) ns && negb (Qle_bool (PyFloat.pow2 63) ns)).

Definition time_sleep (seconds : Q) : M board unit :=
  if sleep_overflows seconds then raise OverflowError
  else if Qle_bool 0 seconds then emit (Sleep seconds)
  else raise ValueError.

(** Reading an attribute that may never have been assigned. *)
Definition attr {A} (o : option A) : M board A :=
  match o with
  | Some a => ret a
  | None => raise AttributeError
  end.

(* ------------------------------------------------------------------ *)
(** ** Transport *)

(** whisplaydriver.py, [_send_data]. *)
Definition _send_data (data : list Z) : M board unit :=
  GPIO_output DC_PIN HIGH ;;;
  try_except
    (spi_writebytes2 data)
    (fun e =>
       match e with
       | AttributeError =>
           let max_chunk := 4096 in
           for_each (range3 0 (len data) max_chunk)
                    (fun i => emit (SpiWritebytes (slice data i (i + max_chunk))))
       | _ => raise e
       end).

(** whisplaydriver.py, [_send_command]. *)
Definition _send_command (cmd : Z) (args : list Z) : M board unit :=
  GPIO_output DC_PIN LOW ;;;
  emit (SpiXfer2 [cmd]) ;;;
  match args with
  | [] => ret tt
  | _ :: _ =>
      GPIO_output DC_PIN HIGH ;;;
      _send_data args
  end.

(* ------------------------------------------------------------------ *)
(** ** Panel controller *)

(** whisplaydriver.py, [set_window]. *)
Definition set_window (x0 y0 x1 y1 use_horizontal : Z) : M board unit :=
  (if (use_horizontal =? 0) || (use_horizontal =? 1) then
     _send_command 0x2A
       [Z.shiftr x0 8; Z.land x0 0xFF; Z.shiftr x1 8; Z.land x1 0xFF] ;;;
     _send_command 0x2B
       [Z.shiftr (y0 + 20) 8; Z.land (y0 + 20) 0xFF;
        Z.shiftr (y1 + 20) 8; Z.land (y1 + 20) 0xFF]
   else if (use_horizontal =? 2) || (use_horizontal =? 3) then
     _send_command 0x2A
       [Z.shiftr (x0 + 20) 8; Z.land (x0 + 20) 0xFF;
        Z.shiftr (x1 + 20) 8; Z.land (x1 + 20) 0xFF] ;;;
     _send_command 0x2B
       [Z.shiftr y0 8; Z.land y0 0xFF; Z.shiftr y1 8; Z.land y1 0xFF]
   else ret tt) ;;;
  _send_command 0x2C [].

(** The two bytes of a 16-bit colour, high byte first. *)
Definition color_bytes (color : Z) : list Z :=
  [Z.land (Z.shiftr color 8) 0xFF; Z.land color 0xFF].

(** whisplaydriver.py, [draw_pixel]. *)
Definition draw_pixel (x y color : Z) : M board unit :=
  if (x >=? LCD_WIDTH) || (y >=? LCD_HEIGHT) then ret tt
  else
    set_window x y x y 0 ;;;
    _send_data (color_bytes color).

(** whisplaydriver.py, [draw_image]. *)
Definition draw_image (x y width height : Z) (pixel_data : list Z)
  : M board unit :=
  if (x + width >? LCD_WIDTH) || (y + height >? LCD_HEIGHT)
  then raise ValueError
  else
    set_window x y (x + width - 1) (y + height - 1) 0 ;;;
    _send_data pixel_data.

(* ------------------------------------------------------------------ *)
(** ** Lighting *)

(** whisplaydriver.py, [set_backlight]. *)
Definition set_backlight (brightness : Z) : M board unit :=
  self <- get ;;
  if negb (_gpio_initialized self) then ret tt
  else if backlight_mode self then
    ready <-
      match backlight_pwm self with
      | None =>
          try_except
            (p <- GPIO_PWM LED_PIN 1000 ;;
             modify (with_backlight_pwm (Some p)) ;;;
             p' <- PWM_start p 100 ;;
             modify (with_backlight_pwm (Some p')) ;;;
             ret true)
            (fun _ => ret false)
      | Some _ => ret true
      end ;;
    if ready then
      if (0 <=? brightness) && (brightness <=? 100) then
        try_except
          (let duty_cycle := 100 - brightness in
           self <- get ;;
           p <- attr (backlight_pwm self) ;;
           p' <- PWM_ChangeDutyCycle p (inject_Z duty_cycle) ;;
           modify (with_backlight_pwm (Some p')))
          (fun _ => ret tt)
      else ret tt
    else ret tt
  else
    try_except
      (if brightness =? 0 then GPIO_output LED_PIN HIGH
       else GPIO_output LED_PIN LOW)
      (fun _ => ret tt).

(** The duty cycle [100 - (v / 255 * 100)] of a channel value. *)
Definition channel_duty (v : Z) : outcome Q :=
  obind (PyFloat.int_truediv v 255) (fun q =>
  Returned (PyFloat.sub (PyFloat.of_int 100)
                        (PyFloat.mul q (PyFloat.of_int 100)))).

(** whisplaydriver.py, [set_rgb]. *)
Definition set_rgb (r g b : Z) : M board unit :=
  self <- get ;;
  match red_pwm self, green_pwm self, blue_pwm self with
  | Some rp, Some gp, Some bp =>
      try_except
        (dr <- lift (channel_duty r) ;;
         rp' <- PWM_ChangeDutyCycle rp dr ;;
         modify (with_red_pwm (Some rp')) ;;;
         dg <- lift (channel_duty g) ;;
         gp' <- PWM_ChangeDutyCycle gp dg ;;
         modify (with_green_pwm (Some gp')) ;;;
         db <- lift (channel_duty b) ;;
         bp' <- PWM_ChangeDutyCycle bp db ;;
         modify (with_blue_pwm (Some bp')) ;;;
         modify (with_current (Some r) (Some g) (Some b)))
        (fun _ => ret tt)
  | _, _, _ => ret tt
  end.

(** [int(current + i * step)] *)
Definition interim (current i : Z) (step : PyFloat.float) : Z :=
  PyFloat.to_int
    (PyFloat.add (PyFloat.of_int current) (PyFloat.mul (PyFloat.of_int i) step)).

(** One iteration of the loop of [set_rgb_fade]: the stored values are
    read again at every iteration, after [set_rgb] may have changed them. *)
Definition fade_iteration (r_step g_step b_step delay_ms : PyFloat.float)
           (i : Z) : M board unit :=
  self <- get ;;
  cr <- attr (_current_r self) ;;
  let r_interim := interim cr i r_step in
  cg <- attr (_current_g self) ;;
  let g_interim := interim cg i g_step in
  cb <- attr (_current_b self) ;;
  let b_interim := interim cb i b_step in
  set_rgb (clamp255 r_interim) (clamp255 g_interim) (clamp255 b_interim) ;;;
  seconds <- lift (PyFloat.truediv delay_ms (PyFloat.of_int 1000)) ;;
  time_sleep seconds.

(** whisplaydriver.py, [set_rgb_fade]. *)
Definition set_rgb_fade (r_target g_target b_target duration_ms : Z)
  : M board unit :=
  let steps := 20 in
  delay_ms <- lift (PyFloat.int_truediv duration_ms steps) ;;
  self <- get ;;
  cr <- attr (_current_r self) ;;
  r_step <- lift (PyFloat.int_truediv (r_target - cr) steps) ;;
  cg <- attr (_current_g self) ;;
  g_step <- lift (PyFloat.int_truediv (g_target - cg) steps) ;;
  cb <- attr (_current_b self) ;;
  b_step <- lift (PyFloat.int_truediv (b_target - cb) steps) ;;
  for_each (range (steps + 1))
           (fade_iteration r_step g_step b_step delay_ms).

(* ------------------------------------------------------------------ *)
(** ** Images (the part of PIL that [render] uses) *)

Definition rgb : Type := (Z * Z * Z)%type.

(** An RGB image: its size [(width, height)] and its pixels. *)
Record image : Type := mk_image {
  size : Z * Z;
  pixel : Z -> Z -> rgb
}.

(** [img.getpixel((x, y))] *)
Definition getpixel (img : image) (xy : Z * Z) : outcome rgb :=
  let '(x, y) := xy in
  let '(w, h) := size img in
  if (0 <=? x) && (x <? w) && (0 <=? y) && (y <? h)
  then Returned (pixel img x y)
  else Raised IndexError.

(** [img.crop((left, upper, right, lower))]: the result has the size of
    the box; what the box covers outside the image is black. *)
Definition crop (img : image) (box : Z * Z * Z * Z) : image :=
  let '(x0, y0, x1, y1) := box in
  let '(w, h) := size img in
  mk_image (x1 - x0, y1 - y0)
           (fun x y =>
              if (0 <=? x + x0) && (x + x0 <? w)
                 && (0 <=? y + y0) && (y + y0 <? h)
              then pixel img (x + x0) (y + y0)
              else (0, 0, 0)).

(** [img.convert('RGB')]: images are modelled in RGB already. *)
Definition convert_RGB (img : image) : image := img.

(** What [render] may be handed: a numpy array or a PIL image. *)
Inductive canvas : Type :=
| NdArray (rows : list (list rgb))
| PILImage (img : image).

(* ------------------------------------------------------------------ *)
(** ** class Whisplay: the render pipeline *)

(** whisplay.py, line 103: 8-bit channels to RGB565. *)
Definition rgb565 (r g b : Z) : Z :=
  Z.lor (Z.lor (Z.shiftl (Z.land r 0xF8) 8) (Z.shiftl (Z.land g 0xFC) 3))
        (Z.shiftr b 3).

(** whisplay.py, lines 69-93, the arithmetic: the size the image is
    resized to and the box that is cropped out of it. *)
Definition fit (original_width original_height screen_width screen_height : Z)
  : outcome ((Z * Z) * (Z * Z * Z * Z)) :=
  obind (PyFloat.int_truediv original_width original_height)
        (fun aspect_ratio =>
  obind (PyFloat.int_truediv screen_width screen_height)
        (fun screen_aspect_ratio =>
  if PyFloat.gtb aspect_ratio screen_aspect_ratio then
    let new_height := screen_height in
    let new_width :=
      PyFloat.to_int (PyFloat.mul (PyFloat.of_int new_height) aspect_ratio) in
    let offset_x := (new_width - screen_width) / 2 in
    Returned ((new_width, new_height),
              (offset_x, 0, offset_x + screen_width, screen_height))
  else
    let new_width := screen_width in
    obind (PyFloat.truediv (PyFloat.of_int new_width) aspect_ratio)
          (fun quotient =>
    let new_height := PyFloat.to_int quotient in
    let offset_y := (new_height - screen_height) / 2 in
    Returned ((new_width, new_height),
              (0, offset_y, screen_width, offset_y + screen_height))))).

(** whisplay.py, lines 96-104: the byte stream, rows outermost. *)
Fixpoint extend_each {A} (f : A -> outcome (list Z)) (l : list A)
         (acc : list Z) : outcome (list Z) :=
  match l with
  | [] => Returned acc
  | a :: l' => obind (f a) (fun bytes => extend_each f l' (acc ++ bytes))
  end.

Definition pack_pixel (cropped_img : image) (x y : Z) : outcome (list Z) :=
  obind (getpixel cropped_img (x, y)) (fun '(r, g, b) =>
  let v := rgb565 r g b in
  Returned [Z.land (Z.shiftr v 8) 0xFF; Z.land v 0xFF]).

Definition pack (cropped_img : image) (screen_width screen_height : Z)
  : outcome (list Z) :=
  extend_each
    (fun y => extend_each (fun x => pack_pixel cropped_img x y)
                          (range screen_width) [])
    (range screen_height) [].

(** The names whisplay.py binds at module level (lines 1-9): its imports
    and its class. *)
Definition module_names : list string :=
  ["logging"; "os"; "importlib"; "np"; "fonts"; "DisplayImpl";
   "Whisplay"]%string.

(** Reading a global name: a NameError when the module does not bind it. *)
Definition global_name {S} (name : string) : M S unit :=
  if existsb (String.eqb name) module_names then ret tt else raise NameError.

(** [Image.fromarray(canvas.astype('uint8'))] for an array of rows of
    pixels: the width is the length of the first row, the channels are
    taken modulo 256. *)
Definition fromarray (rows : list (list rgb)) : image :=
  mk_image (len (hd [] rows), len rows)
           (fun x y =>
              let '(r, g, b) :=
                nth (Z.to_nat x) (nth (Z.to_nat y) rows []) (0, 0, 0) in
              (r mod 256, g mod 256, b mod 256)).

Section Render.

(** [img.resize((w, h))]: the resampling of PIL is left open. *)
Variable resize : image -> Z * Z -> image.

(** whisplay.py, lines 69-93. *)
Definition scale_and_crop (img : image) (screen_width screen_height : Z)
  : outcome image :=
  let '(original_width, original_height) := size img in
  obind (fit original_width original_height screen_width screen_height)
        (fun '(new_size, box) => Returned (crop (resize img new_size) box)).

(** whisplay.py, [render]; [self._display] is the board.  The numpy
    branch looks the name [Image] up among the names of the module. *)
Definition render (c : canvas) : M board unit :=
  let screen_width := LCD_WIDTH in
  let screen_height := LCD_HEIGHT in
  img <- match c with
         | NdArray rows =>
             global_name "Image" ;;;
             ret (fromarray rows)
         | PILImage i => ret (convert_RGB i)
         end ;;
  cropped_img <- lift (scale_and_crop img screen_width screen_height) ;;
  pixel_data <- lift (pack cropped_img screen_width screen_height) ;;
  draw_image 0 0 screen_width screen_height pixel_data.

End Render.

(* ------------------------------------------------------------------ *)
(** ** Reading the log *)

(** The data bytes streamed to the panel, in order ([writebytes2] and
    [writebytes] payloads; command bytes go through [xfer2]). *)
Definition spi_payload (l : list event) : list Z :=
  flat_map (fun e =>
              match e with
              | SpiWritebytes2 d => d
              | SpiWritebytes d => d
              | _ => []
              end) l.

(** The SPI transfers of a log. *)
Definition is_spi (e : event) : bool :=
  match e with
  | SpiXfer2 _ | SpiWritebytes2 _ | SpiWritebytes _ => true
  | _ => false
  end.

Definition bus_writes (l : list event) : list event := filter is_spi l.

(** The duty cycles written to the PWM object of a pin. *)
Definition pwm_writes (pin : Z) (l : list event) : list Q :=
  flat_map (fun e =>
              match e with
              | PwmChangeDutyCycle p dc => if p =? pin then [dc] else []
              | _ => []
              end) l.

(** ** The traces the driver is expected to leave *)

(** [_send_data]: the select line, then one burst, or bursts of at most
    4096 bytes on a spidev without [writebytes2]. *)
Definition chunks (data : list Z) : list (list Z) :=
  map (fun i => slice data i (i + 4096)) (range3 0 (len data) 4096).

Definition send_data_events (writebytes2 : bool) (data : list Z) : list event :=
  GpioOutput DC_PIN HIGH ::
  (if writebytes2 then [SpiWritebytes2 data] else map SpiWritebytes (chunks data)).

(** [_send_command]: the command byte, then its arguments as data. *)
Definition send_command_events (writebytes2 : bool) (cmd : Z) (args : list Z)
  : list event :=
  GpioOutput DC_PIN LOW :: SpiXfer2 [cmd] ::
  match args with
  | [] => []
  | _ :: _ => GpioOutput DC_PIN HIGH :: send_data_events writebytes2 args
  end.

(** The window [(x0, y0, x1, y1)] in orientation 0: column address, row
    address shifted by 20 rows, memory write. *)
Definition window_events (writebytes2 : bool) (x0 y0 x1 y1 : Z) : list event :=
  send_command_events writebytes2 0x2A
    [Z.shiftr x0 8; Z.land x0 0xFF; Z.shiftr x1 8; Z.land x1 0xFF] ++
  send_command_events writebytes2 0x2B
    [Z.shiftr (y0 + 20) 8; Z.land (y0 + 20) 0xFF;
     Z.shiftr (y1 + 20) 8; Z.land (y1 + 20) 0xFF] ++
  send_command_events writebytes2 0x2C [].

(** The levels of the backlight line, as [set_backlight] comments them. *)
Definition BACKLIGHT_OFF : level := HIGH.
Definition BACKLIGHT_ON : level := LOW.

(** What one sample [(r, g, b)] of a fade leaves in the log when the three
    PWM objects accept it: three duty cycles and the pause. *)
Definition duty (v : Z) : Q :=
  match channel_duty v with
  | Returned d => d
  | Raised _ => 0
  end.

Definition sample_events (seconds : Q) (sample : Z * Z * Z) : list event :=
  let '(r, g, b) := sample in
  [PwmChangeDutyCycle RED_PIN (duty r);
   PwmChangeDutyCycle GREEN_PIN (duty g);
   PwmChangeDutyCycle BLUE_PIN (duty b);
   Sleep seconds].

(** Linear interpolation from a fixed start, as the specification words
    the fade: sample [i] of 0..20 is [int(start + i * (target - start)/20)],
    clamped. *)
Definition linear_sample (start target i : Z) : Z :=
  match PyFloat.int_truediv (target - start) 20 with
  | Returned step => clamp255 (interim start i step)
  | Raised _ => 0
  end.

Definition linear_fade (start target : Z) : list Z :=
  map (linear_sample start target) (range 21).

(** The top bits of the channels read back from a 16-bit colour. *)
Definition decode565 (v : Z) : rgb :=
  (Z.land (Z.shiftr v 8) 0xF8, Z.land (Z.shiftr v 3) 0xFC,
   Z.land (Z.shiftl v 3) 0xF8).

(** ** Concrete boards and images *)

(** The board as the constructor leaves it when every set-up step
    succeeded, before anything is drawn. *)
Definition board_ready : board :=
  mk_board true true None
           (Some (mk_pwm RED_PIN 100 0))
           (Some (mk_pwm GREEN_PIN 100 0))
           (Some (mk_pwm BLUE_PIN 100 0))
           (Some 0) (Some 0) (Some 0)
           true true [].

(** The same board on a Pi Zero: the backlight is a plain switch. *)
Definition board_switch : board :=
  mk_board true false None
           (Some (mk_pwm RED_PIN 100 0))
           (Some (mk_pwm GREEN_PIN 100 0))
           (Some (mk_pwm BLUE_PIN 100 0))
           (Some 0) (Some 0) (Some 0)
           true true [].

(** A board whose RGB pins could not be set up. *)
Definition board_no_rgb : board :=
  mk_board true true None None None None None None None true true [].

(** The three PWM objects of the indicator are those the constructor
    creates: [GPIO.PWM(RED_PIN, 100)] and its siblings. *)
Definition rgb_ready (s : board) : Prop :=
  (exists dr, red_pwm s = Some (mk_pwm RED_PIN 100 dr)) /\
  (exists dg, green_pwm s = Some (mk_pwm GREEN_PIN 100 dg)) /\
  (exists db, blue_pwm s = Some (mk_pwm BLUE_PIN 100 db)).

(** A test card of any size, and nearest-neighbour resampling. *)
Definition test_card (w h : Z) : image :=
  mk_image (w, h) (fun x y => (x mod 256, y mod 256, (x + y) mod 256)).

Definition resize_nearest (img : image) (new_size : Z * Z) : image :=
  let '(w, h) := size img in
  let '(nw, nh) := new_size in
  mk_image new_size (fun x y => pixel img (x * w / nw) (y * h / nh)).

(** Image sizes are C ints in PIL. *)
Definition pil_size (img : image) : Prop :=
  let '(w, h) := size img in w < 2 ^ 31 /\ h < 2 ^ 31.

(** A source image is non-degenerate when neither side is zero. *)
Definition non_degenerate (img : image) : Prop :=
  let '(w, h) := size img in 0 < w /\ 0 < h.

(** ** The states [set_rgb] and the fade loop leave *)

Definition set_dutycycle (p : pwm) (dc : Q) : pwm :=
  mk_pwm (pwm_channel p) (pwm_frequency p) dc.

(** The board after a [set_rgb(r, g, b)] that the three PWM objects [rp],
    [gp], [bp] accepted. *)
Definition rgb_applied (r g b : Z) (rp gp bp : pwm) (s : board) : board :=
  mk_board (_gpio_initialized s) (backlight_mode s) (backlight_pwm s)
           (Some (set_dutycycle rp (duty r)))
           (Some (set_dutycycle gp (duty g)))
           (Some (set_dutycycle bp (duty b)))
           (Some r) (Some g) (Some b)
           (spi_has_writebytes2 s) (gpio_pwm_granted s)
           (log s ++ [PwmChangeDutyCycle (pwm_channel rp) (duty r);
                      PwmChangeDutyCycle (pwm_channel gp) (duty g);
                      PwmChangeDutyCycle (pwm_channel bp) (duty b)]).

(** The samples the loop of [set_rgb_fade] hands to [set_rgb] when every
    call is accepted: sample [i] is computed from the values the previous
    sample stored, not from the values at the start. *)
Fixpoint running_samples (steps : PyFloat.float * PyFloat.float * PyFloat.float)
         (current : Z * Z * Z) (indices : list Z) : list (Z * Z * Z) :=
  match indices with
  | [] => []
  | i :: rest =>
      let '(r_step, g_step, b_step) := steps in
      let '(cr, cg, cb) := current in
      let sample := (clamp255 (interim cr i r_step),
                     clamp255 (interim cg i g_step),
                     clamp255 (interim cb i b_step)) in
      sample :: running_samples steps sample rest
  end.

(** [(target - current) / 20] *)
Definition fade_step (target current : Z) : PyFloat.float :=
  PyFloat.rnd (inject_Z (target - current) / inject_Z 20).

(** [duration_ms / 20 / 1000.0], the pause after each sample. *)
Definition fade_pause (duration_ms : Z) : Q :=
  PyFloat.rnd (PyFloat.rnd (inject_Z duration_ms / inject_Z 20)
               / PyFloat.of_int 1000).

(** The stored channel values, when all three are assigned. *)
Definition stored (s : board) : option (Z * Z * Z) :=
  match _current_r s, _current_g s, _current_b s with
  | Some r, Some g, Some b => Some (r, g, b)
  | _, _, _ => None
  end.

Fixpoint nondecreasing (l : list Z) : Prop :=
  match l with
  | a :: (b :: _) as t => a <= b /\ nondecreasing t
  | _ => True
  end.

Definition red (c : Z * Z * Z) : Z := fst (fst c).
Definition green (c : Z * Z * Z) : Z := snd (fst c).
Definition blue (c : Z * Z * Z) : Z := snd c.

(** The same value on the three channels. *)
Definition gray (v : Z) : Z * Z * Z := (v, v, v).

(** The channel values of the fade from black to white, and of the fade
    from black to (100, 100, 100), as the loop produces them. *)
Definition fade_0_255 : list Z := [0; 12; 37; 75; 126; 189] ++ repeat 255 15.

Definition fade_0_100 : list Z :=
  [0; 5; 15; 30; 50; 75; 105; 140; 180; 225] ++ repeat 255 11.

(** The channel value a duty cycle stands for:
    [round((100 - dc) * 255 / 100)]. *)
Definition channel_of_duty (dc : Q) : Z :=
  PyFloat.rne ((100 - dc) * 255 / 100).

(** [original_width / original_height] and [screen_width / screen_height]
    as [render] computes them. *)
Definition aspect (w h : Z) : PyFloat.float :=
  PyFloat.rnd (inject_Z w / inject_Z h).

Definition screen_aspect : PyFloat.float := aspect LCD_WIDTH LCD_HEIGHT.

(** The two bytes of a pixel and the byte stream of a whole frame, rows
    outermost, as the loops of [render] build it. *)
Definition pixel_bytes (c : rgb) : list Z :=
  let '(r, g, b) := c in color_bytes (rgb565 r g b).

Definition frame_bytes (img : image) (screen_width screen_height : Z) : list Z :=
  flat_map (fun y => flat_map (fun x => pixel_bytes (pixel img x y))
                              (range screen_width))
           (range screen_height).

(** ** binary64 as the Standard Library specifies it

    [SpecFloat] gives the IEEE 754 operations on sign, mantissa and
    exponent.  They serve as a check of [PyFloat.rnd]: the same operations,
    on the same operands, must denote the same rationals. *)

Definition binary64_of_int (n : Z) : spec_float :=
  binary_normalize 53 1024 n 0 false.

Definition binary64_value (f : spec_float) : option Q :=
  match f with
  | S754_zero _ => Some 0%Q
  | S754_finite s m e =>
      Some (Qred (inject_Z (if s then Z.neg m else Z.pos m) * PyFloat.pow2 e))
  | _ => None
  end.

Definition same_value (f : spec_float) (q : Q) : bool :=
  match binary64_value f with
  | Some p => Qeq_bool p q
  | None => false
  end.

(** [a / b], [280 * (a / b)], [240 / (a / b)] and [37 + a / b]. *)
Definition agree_on (a b : Z) : bool :=
  let x := SFdiv 53 1024 (binary64_of_int a) (binary64_of_int b) in
  let q := PyFloat.rnd (inject_Z a / inject_Z b) in
  same_value x q
  && same_value (SFmul 53 1024 (binary64_of_int 280) x)
                (PyFloat.mul (PyFloat.of_int 280) q)
  && same_value (SFadd 53 1024 (binary64_of_int 37) x)
                (PyFloat.add (PyFloat.of_int 37) q)
  && ((a =? 0)
      || same_value (SFdiv 53 1024 (binary64_of_int 240) x)
                    (PyFloat.rnd (PyFloat.of_int 240 / q))).

(** [100 - (v / 255 * 100)] *)
Definition agree_on_duty (v : Z) : bool :=
  same_value
    (SFsub 53 1024 (binary64_of_int 100)
           (SFmul 53 1024
                  (SFdiv 53 1024 (binary64_of_int v) (binary64_of_int 255))
                  (binary64_of_int 100)))
    (duty v).

Definition sample_sizes : list (Z * Z) :=
  [(400, 200); (100, 400); (1600, 900); (700, 1300); (240, 280); (6, 7);
   (241, 281); (1, 2147483647); (2147483647, 1); (-255, 20); (255, 20);
   (-1, 3); (100, 20); (1, 3); (2, 3); (1920, 1080); (250, 122)].

(** A method that returns after appending events to the log and touching
    nothing else; the events may depend on the spidev at hand. *)
Definition appends (m : M board unit) (evs : bool -> list event) : Prop :=
  forall s,
    m s = (Returned tt, with_log (log s ++ evs (spi_has_writebytes2 s)) s).

(* ------------------------------------------------------------------ *)
(** ** More of the panel controller and of class Whisplay *)

(** whisplaydriver.py, [fill_screen]. *)
Definition fill_screen (color : Z) : M board unit :=
  set_window 0 0 (LCD_WIDTH - 1) (LCD_HEIGHT - 1) 0 ;;;
  let high := Z.land (Z.shiftr color 8) 0xFF in
  let low := Z.land color 0xFF in
  let buffer :=
    fold_left (fun buffer _ => buffer ++ [high; low])
              (range (LCD_WIDTH * LCD_HEIGHT)) [] in
  _send_data buffer.

(** whisplay.py, [clear]; [self._display] is the board. *)
Definition clear : M board unit := fill_screen 0.

(** An image whose pixels are all black. *)
Definition all_black (img : image) : Prop :=
  forall x y, pixel img x y = (0, 0, 0).

(** A 16-bit value from its two bytes, high byte first. *)
Definition be16 (hi lo : Z) : Z := hi * 256 + lo.

(** A board behind an old spidev, without [writebytes2]. *)
Definition board_old_spidev : board :=
  mk_board true true None
           (Some (mk_pwm RED_PIN 100 0))
           (Some (mk_pwm GREEN_PIN 100 0))
           (Some (mk_pwm BLUE_PIN 100 0))
           (Some 0) (Some 0) (Some 0)
           false true [].

(** The offsets [set_window] adds to columns and rows in an orientation. *)
Definition column_offset (use_horizontal : Z) : Z :=
  if use_horizontal <=? 1 then 0 else 20.

Definition row_offset (use_horizontal : Z) : Z :=
  if use_horizontal <=? 1 then 20 else 0.

Definition is_byte (v : Z) : Prop := 0 <= v < 256.

(** whisplaydriver.py, [draw_line]: the loop.  Python's [while True] is
    run for at most [fuel] rounds; the result is [true] when the loop was
    left through [break]. *)
Fixpoint draw_line_loop (fuel : nat) (x0 y0 x1 y1 dx dy sx sy err color : Z)
  : M board bool :=
  match fuel with
  | O => ret false
  | S fuel' =>
      draw_pixel x0 y0 color ;;;
      if (x0 =? x1) && (y0 =? y1) then ret true
      else
        let e2 := 2 * err in
        let err_x := if e2 >? - dy then err - dy else err in
        let x0' := if e2 >? - dy then x0 + sx else x0 in
        let err_y := if e2 <? dx then err_x + dx else err_x in
        let y0' := if e2 <? dx then y0 + sy else y0 in
        draw_line_loop fuel' x0' y0' x1 y1 dx dy sx sy err_y color
  end.

(** whisplaydriver.py, [draw_line]. *)
Definition draw_line (fuel : nat) (x0 y0 x1 y1 color : Z) : M board bool :=
  let dx := Z.abs (x1 - x0) in
  let dy := Z.abs (y1 - y0) in
  let sx := if x0 <? x1 then 1 else -1 in
  let sy := if y0 <? y1 then 1 else -1 in
  let err := dx - dy in
  draw_line_loop fuel x0 y0 x1 y1 dx dy sx sy err color.

(** The points the loop hands to [draw_pixel], in order, and whether it
    reached its [break]. *)
Fixpoint line_points (fuel : nat) (x0 y0 x1 y1 dx dy sx sy err : Z)
  : list (Z * Z) * bool :=
  match fuel with
  | O => ([], false)
  | S fuel' =>
      if (x0 =? x1) && (y0 =? y1) then ([(x0, y0)], true)
      else
        let e2 := 2 * err in
        let err_x := if e2 >? - dy then err - dy else err in
        let x0' := if e2 >? - dy then x0 + sx else x0 in
        let err_y := if e2 <? dx then err_x + dx else err_x in
        let y0' := if e2 <? dx then y0 + sy else y0 in
        let rest := line_points fuel' x0' y0' x1 y1 dx dy sx sy err_y in
        ((x0, y0) :: fst rest, snd rest)
  end.

(** The board after the pixels of a list of points were drawn. *)
Definition draw_points (color : Z) (points : list (Z * Z)) (st : board) : board :=
  fold_left (fun s p => snd (draw_pixel (fst p) (snd p) color s)) points st.

(** A point within half a pixel of the segment from [(x0, y0)] to
    [(x1, y1)], measured along the minor axis. *)
Definition near_line (x0 y0 x1 y1 : Z) (p : Z * Z) : Prop :=
  2 * Z.abs ((snd p - y0) * (x1 - x0) - (fst p - x0) * (y1 - y0))
  <= Z.max (Z.abs (x1 - x0)) (Z.abs (y1 - y0)).

Definition in_box (x0 y0 x1 y1 : Z) (p : Z * Z) : Prop :=
  Z.min x0 x1 <= fst p <= Z.max x0 x1 /\
  Z.min y0 y1 <= snd p <= Z.max y0 y1.

(** Each point is a neighbour of the one before: one step at most on each
    axis, and not the same point. *)
Fixpoint connected (l : list (Z * Z)) : Prop :=
  match l with
  | p :: (q :: _) as t =>
      (Z.abs (fst q - fst p) <= 1 /\ Z.abs (snd q - snd p) <= 1 /\ p <> q)
      /\ connected t
  | _ => True
  end.

(** The state of the loop after [a] steps along x and [b] steps along y
    of a line with [dy <= dx], and of a line with [dx < dy]. *)
Definition on_track (X0 Y0 dx dy sx sy a b x y err : Z) : Prop :=
  0 <= a <= dx /\ 0 <= b <= dy /\
  x = X0 + sx * a /\ y = Y0 + sy * b /\
  err = dx - dy + (b * dx - a * dy).

Definition x_major_inv (dx dy a b : Z) : Prop :=
  dy - 2 * dx < 2 * (b * dx - a * dy) /\
  - dx <= 2 * (b * dx - a * dy) < dx.

Definition y_major_inv (dx dy a b : Z) : Prop :=
  2 * (b * dx - a * dy) < 2 * dy - dx /\
  - dy < 2 * (b * dx - a * dy) <= dy.

(** What a finished run of the loop looks like. *)
Definition good_run (X0 Y0 x1 y1 : Z) (start : Z * Z) (n : Z)
           (r : list (Z * Z) * bool) : Prop :=
  snd r = true /\
  len (fst r) = n /\
  hd_error (fst r) = Some start /\
  last (fst r) start = (x1, y1) /\
  Forall (near_line X0 Y0 x1 y1) (fst r) /\
  Forall (in_box X0 Y0 x1 y1) (fst r) /\
  connected (fst r).

(** Integers whose quotient by 20 is a finite float; Python raises an
    OverflowError on the division of larger ones. *)
Definition finite_int (n : Z) : Prop := Z.abs n < 2 ^ 1000.

(* ------------------------------------------------------------------ *)
(** ** Text (the part of [str] that the hardware detection uses) *)

(** [c.isspace()] for the characters below 256. *)
Definition isspace (c : ascii) : bool :=
  let n := N_of_ascii c in
  ((9 <=? n) && (n <=? 13) || (28 <=? n) && (n <=? 32)
   || (n =? 133) || (n =? 160))%N.

(** [s.startswith(prefix)] *)
Fixpoint startswith (s prefix : string) {struct prefix} : bool :=
  match prefix, s with
  | EmptyString, _ => true
  | String p prefix', String c s' => Ascii.eqb c p && startswith s' prefix'
  | String _ _, EmptyString => false
  end.

Fixpoint lstrip (s : string) : string :=
  match s with
  | EmptyString => EmptyString
  | String c s' => if isspace c then lstrip s' else s
  end.

Fixpoint rstrip (s : string) : string :=
  match s with
  | EmptyString => EmptyString
  | String c s' =>
      match rstrip s' with
      | EmptyString => if isspace c then EmptyString else String c EmptyString
      | t => String c t
      end
  end.

(** [s.strip()] *)
Definition strip (s : string) : string := rstrip (lstrip s).

(** [s.split(sep)] for a separator of one character. *)
Fixpoint split (sep : ascii) (s : string) : list string :=
  match s with
  | EmptyString => [EmptyString]
  | String c s' =>
      if Ascii.eqb c sep then EmptyString :: split sep s'
      else match split sep s' with
           | seg :: segs => String c seg :: segs
           | [] => [String c EmptyString]
           end
  end.

(** [needle in s] *)
Fixpoint contains (needle s : string) : bool :=
  startswith s needle
  || match s with
     | EmptyString => false
     | String _ s' => contains needle s'
     end.

(** [l[i]] *)
Definition index {A} (l : list A) (i : nat) : outcome A :=
  match nth_error l i with
  | Some a => Returned a
  | None => Raised IndexError
  end.

(** Truth value of a string. *)
Definition truthy (s : string) : bool :=
  match s with
  | EmptyString => false
  | String _ _ => true
  end.

(* ------------------------------------------------------------------ *)
(** ** Construction of the board *)

Definition with_backlight_mode (mode : bool) (s : board) : board :=
  mk_board (_gpio_initialized s) mode (backlight_pwm s)
           (red_pwm s) (green_pwm s) (blue_pwm s)
           (_current_r s) (_current_g s) (_current_b s)
           (spi_has_writebytes2 s) (gpio_pwm_granted s) (log s).

Definition with_gpio_initialized (v : bool) (s : board) : board :=
  mk_board v (backlight_mode s) (backlight_pwm s)
           (red_pwm s) (green_pwm s) (blue_pwm s)
           (_current_r s) (_current_g s) (_current_b s)
           (spi_has_writebytes2 s) (gpio_pwm_granted s) (log s).

(** whisplaydriver.py, [_detect_hardware_version].  [cpuinfo] is what
    [readlines()] returns for /proc/cpuinfo, each line with its line feed,
    or [None] when the file cannot be opened or read: that exception is
    caught by the same handler as those of the body.  The messages
    printed are left out. *)
Definition _detect_hardware_version (cpuinfo : option (list string))
  : M board unit :=
  match cpuinfo with
  | None => modify (with_backlight_mode true)
  | Some lines =>
      try_except
        (model_name <-
           match find (fun line => startswith line "Model") lines with
           | Some line =>
               field <- lift (index (split ":" (strip line)) 1) ;;
               ret (Some (strip field))
           | None => ret None
           end ;;
         match model_name with
         | Some name =>
             if truthy name then
               if contains "Zero" name && negb (contains "2" name)
               then modify (with_backlight_mode false)
               else modify (with_backlight_mode true)
             else modify (with_backlight_mode true)
         | None => modify (with_backlight_mode true)
         end)
        (fun _ => modify (with_backlight_mode true))
  end.

(** whisplaydriver.py, [_reset_lcd]. *)
Definition _reset_lcd : M board unit :=
  self <- get ;;
  if negb (_gpio_initialized self) then ret tt
  else
    try_except
      (GPIO_output RST_PIN HIGH ;;;
       time_sleep (PyFloat.rnd (1 # 10)) ;;;
       GPIO_output RST_PIN LOW ;;;
       time_sleep (PyFloat.rnd (1 # 10)) ;;;
       GPIO_output RST_PIN HIGH ;;;
       time_sleep (PyFloat.rnd (12 # 100)))
      (fun _ => ret tt).

(** The dictionary of [_init_display], with its default. *)
Definition direction_of (use_horizontal : Z) : Z :=
  if use_horizontal =? 0 then 0x00
  else if use_horizontal =? 1 then 0xC0
  else if use_horizontal =? 2 then 0x70
  else if use_horizontal =? 3 then 0xA0
  else 0x00.

(** whisplaydriver.py, [_init_display]. *)
Definition _init_display : M board unit :=
  _send_command 0x11 [] ;;;
  time_sleep (PyFloat.rnd (12 # 100)) ;;;
  let USE_HORIZONTAL := 1 in
  let direction := direction_of USE_HORIZONTAL in
  _send_command 0x36 [direction] ;;;
  _send_command 0x3A [0x05] ;;;
  _send_command 0xB2 [0x0C; 0x0C; 0x00; 0x33; 0x33] ;;;
  _send_command 0xB7 [0x35] ;;;
  _send_command 0xBB [0x32] ;;;
  _send_command 0xC2 [0x01] ;;;
  _send_command 0xC3 [0x15] ;;;
  _send_command 0xC4 [0x20] ;;;
  _send_command 0xC6 [0x0F] ;;;
  _send_command 0xD0 [0xA4; 0xA1] ;;;
  _send_command 0xE0 [0xD0; 0x08; 0x0E; 0x09; 0x09; 0x05; 0x31; 0x33;
                      0x48; 0x17; 0x14; 0x15; 0x31; 0x34] ;;;
  _send_command 0xE1 [0xD0; 0x08; 0x0E; 0x09; 0x09; 0x15; 0x31; 0x33;
                      0x48; 0x17; 0x14; 0x15; 0x31; 0x34] ;;;
  _send_command 0x21 [] ;;;
  _send_command 0x29 [].

(** What the constructor meets: how [GPIO.setmode] ends, whether the two
    [GPIO.setup] calls on output pins raise, and /proc/cpuinfo. *)
Record platform : Type := mk_platform {
  setmode_raises : option exn;
  lcd_setup_raises : bool;
  rgb_setup_raises : bool;
  cpuinfo : option (list string)
}.

Definition GPIO_setmode (p : platform) : M board unit :=
  match setmode_raises p with
  | None => ret tt
  | Some e => raise e
  end.

Definition GPIO_setup (raises : bool) : M board unit :=
  if raises then raise RuntimeError else ret tt.

(** whisplaydriver.py, [__init__], block by block.  First
    [GPIO.setmode]: a RuntimeError means that the mode was set before. *)
Definition init_gpio (p : platform) : M board unit :=
  modify (with_gpio_initialized false) ;;;
  try_except
    (GPIO_setmode p ;;;
     modify (with_gpio_initialized true))
    (fun e =>
       match e with
       | RuntimeError => modify (with_gpio_initialized true)
       | _ => modify (with_gpio_initialized false)
       end).

(** The pins of the panel, and the backlight line. *)
Definition init_lcd_pins (p : platform) : M board unit :=
  self <- get ;;
  (if _gpio_initialized self then
     try_except
       (GPIO_setup (lcd_setup_raises p))
       (fun _ => modify (with_gpio_initialized false))
   else ret tt) ;;;
  self <- get ;;
  if _gpio_initialized self then
    try_except (GPIO_output LED_PIN LOW) (fun _ => ret tt)
  else ret tt.

(** The pins of the RGB indicator. *)
Definition init_rgb_led (p : platform) : M board unit :=
  self <- get ;;
  if _gpio_initialized self then
    try_except
      (GPIO_setup (rgb_setup_raises p) ;;;
       rp <- GPIO_PWM RED_PIN 100 ;;
       modify (with_red_pwm (Some rp)) ;;;
       gp <- GPIO_PWM GREEN_PIN 100 ;;
       modify (with_green_pwm (Some gp)) ;;;
       bp <- GPIO_PWM BLUE_PIN 100 ;;
       modify (with_blue_pwm (Some bp)) ;;;
       modify (with_current (Some 0) (Some 0) (Some 0)) ;;;
       rp' <- PWM_start rp 0 ;;
       modify (with_red_pwm (Some rp')) ;;;
       gp' <- PWM_start gp 0 ;;
       modify (with_green_pwm (Some gp')) ;;;
       bp' <- PWM_start bp 0 ;;
       modify (with_blue_pwm (Some bp')))
      (fun _ =>
         modify (with_red_pwm None) ;;;
         modify (with_green_pwm None) ;;;
         modify (with_blue_pwm None))
  else
    modify (with_red_pwm None) ;;;
    modify (with_green_pwm None) ;;;
    modify (with_blue_pwm None).

(** The panel is brought up only when the GPIO could be set up. *)
Definition init_panel : M board unit :=
  self <- get ;;
  if _gpio_initialized self then
    try_except
      (set_backlight 0 ;;;
       _reset_lcd ;;;
       _init_display ;;;
       fill_screen 0)
      (fun _ => ret tt)
  else ret tt.

(** whisplaydriver.py, [__init__].  Left out: the button block, which
    assigns the two callbacks on every path and nothing else of the board;
    the SPI device, taken to open; [_detect_wm8960], which only prints; the
    attributes [previous_frame], [_offset_left] and [_offset_top], which no
    method reads. *)
Definition __init__ (p : platform) : M board unit :=
  init_gpio p ;;;
  init_lcd_pins p ;;;
  init_rgb_led p ;;;
  modify (with_backlight_pwm None) ;;;
  _detect_hardware_version (cpuinfo p) ;;;
  init_panel.

(** The board before the constructor has assigned anything, on a
    platform with or without [writebytes2] and PWM. *)
Definition unassigned (writebytes2 pwm_granted : bool) : board :=
  mk_board false true None None None None None None None
           writebytes2 pwm_granted [].

(** whisplay.py, [initialize], after its log messages. *)
Definition initialize (p : platform) : M board unit :=
  __init__ p ;;;
  set_rgb 0 0 0 ;;;
  set_backlight 50.

(** Vocabulary for lines of /proc/cpuinfo. *)
Definition blank (s : string) : Prop :=
  forallb isspace (list_ascii_of_string s) = true.

Definition no_colon (s : string) : Prop :=
  forallb (fun c => negb (Ascii.eqb c ":")) (list_ascii_of_string s) = true.

Definition trimmed (s : string) : Prop :=
  lstrip s = s /\ rstrip s = s /\ s <> EmptyString.

Definition no_model_line (lines : list string) : Prop :=
  forallb (fun line => negb (startswith line "Model")) lines = true.

(** The line [Model<key>:<pad><name><trail>]. *)
Definition model_line (key pad name trail : string) : string :=
  ("Model" ++ key ++ ":" ++ pad ++ name ++ trail)%string.

(** The Pi Zero and Zero W, as the detection reads the name. *)
Definition is_zero_1 (name : string) : bool :=
  contains "Zero" name && negb (contains "2" name).

(** ** What the constructor leaves *)

Definition setmode_ok (p : platform) : bool :=
  match setmode_raises p with
  | None | Some RuntimeError => true
  | Some _ => false
  end.

(** The GPIO is usable: the mode is set and the panel pins are outputs. *)
Definition gpio_ok (p : platform) : bool :=
  setmode_ok p && negb (lcd_setup_raises p).

(** The RGB indicator is usable. *)
Definition rgb_ok (p : platform) (pwm_granted : bool) : bool :=
  gpio_ok p && negb (rgb_setup_raises p) && pwm_granted.

(** The backlight mode the detection settles on. *)
Definition detected_mode (cpuinfo : option (list string)) : bool :=
  backlight_mode (snd (_detect_hardware_version cpuinfo (unassigned true true))).

(** The reset pulse. *)
Definition reset_events : list event :=
  [GpioOutput RST_PIN HIGH; Sleep (PyFloat.rnd (1 # 10));
   GpioOutput RST_PIN LOW; Sleep (PyFloat.rnd (1 # 10));
   GpioOutput RST_PIN HIGH; Sleep (PyFloat.rnd (12 # 100))].

(** The trace of [_init_display] and of [fill_screen]. *)
Definition init_display_events (writebytes2 : bool) : list event :=
  log (snd (_init_display (unassigned writebytes2 true))).

Definition fill_events (writebytes2 : bool) (color : Z) : list event :=
  window_events writebytes2 0 0 (LCD_WIDTH - 1) (LCD_HEIGHT - 1) ++
  send_data_events writebytes2
    (flat_map (fun _ : Z => color_bytes color) (range (LCD_WIDTH * LCD_HEIGHT))).

(** The bring-up of the panel after the backlight was switched off. *)
Definition panel_events (writebytes2 : bool) : list event :=
  reset_events ++ init_display_events writebytes2 ++ fill_events writebytes2 0.

(** [set_backlight(0)] on a board without its PWM object. *)
Definition backlight_off_events (mode pwm_granted : bool) : list event :=
  if mode then
    if pwm_granted then [PwmStart LED_PIN 100; PwmChangeDutyCycle LED_PIN 100]
    else []
  else [GpioOutput LED_PIN BACKLIGHT_OFF].

(** The board the constructor leaves on a platform. *)
Definition constructed (p : platform) (writebytes2 pwm_granted : bool) : board :=
  let mode := detected_mode (cpuinfo p) in
  let rgb := rgb_ok p pwm_granted in
  mk_board (gpio_ok p) mode
           (if gpio_ok p && mode && pwm_granted
            then Some (mk_pwm LED_PIN 1000 100) else None)
           (if rgb then Some (mk_pwm RED_PIN 100 0) else None)
           (if rgb then Some (mk_pwm GREEN_PIN 100 0) else None)
           (if rgb then Some (mk_pwm BLUE_PIN 100 0) else None)
           (if rgb then Some 0 else None)
           (if rgb then Some 0 else None)
           (if rgb then Some 0 else None)
           writebytes2 pwm_granted
           (if gpio_ok p then
              GpioOutput LED_PIN LOW ::
              (if rgb then [PwmStart RED_PIN 0; PwmStart GREEN_PIN 0;
                            PwmStart BLUE_PIN 0]
               else []) ++
              backlight_off_events mode pwm_granted ++
              panel_events writebytes2
            else []).

(** The command bytes of a log, and what was done to the backlight. *)
Definition commands (l : list event) : list Z :=
  flat_map (fun e => match e with SpiXfer2 d => d | _ => [] end) l.

Definition is_backlight (e : event) : bool :=
  match e with
  | GpioOutput pin _ | PwmStart pin _ | PwmChangeDutyCycle pin _ => pin =? LED_PIN
  | _ => false
  end.

(** [set_backlight(50)] on the board the constructor leaves. *)
Definition backlight_half_events (gpio mode pwm_granted : bool) : list event :=
  if gpio then
    if mode then
      if pwm_granted then [PwmChangeDutyCycle LED_PIN 50] else []
    else [GpioOutput LED_PIN BACKLIGHT_ON]
  else [].

(** [set_rgb(0, 0, 0)]: the three channels at duty cycle 100, the
    indicator dark. *)
Definition rgb_dark_events : list event :=
  [PwmChangeDutyCycle RED_PIN (duty 0); PwmChangeDutyCycle GREEN_PIN (duty 0);
   PwmChangeDutyCycle BLUE_PIN (duty 0)].

(** The board [initialize] leaves on a platform. *)
Definition initialized (p : platform) (writebytes2 pwm_granted : bool) : board :=
  let mode := detected_mode (cpuinfo p) in
  let rgb := rgb_ok p pwm_granted in
  mk_board (gpio_ok p) mode
           (if gpio_ok p && mode && pwm_granted
            then Some (mk_pwm LED_PIN 1000 50) else None)
           (if rgb then Some (mk_pwm RED_PIN 100 (duty 0)) else None)
           (if rgb then Some (mk_pwm GREEN_PIN 100 (duty 0)) else None)
           (if rgb then Some (mk_pwm BLUE_PIN 100 (duty 0)) else None)
           (if rgb then Some 0 else None)
           (if rgb then Some 0 else None)
           (if rgb then Some 0 else None)
           writebytes2 pwm_granted
           (log (constructed p writebytes2 pwm_granted) ++
            (if rgb then rgb_dark_events else []) ++
            backlight_half_events (gpio_ok p) mode pwm_granted).

(** The command bytes of the bring-up: configuration, display on, and
    one write to the whole window. *)
Definition bring_up_commands : list Z :=
  [0x11; 0x36; 0x3A; 0xB2; 0xB7; 0xBB; 0xC2; 0xC3; 0xC4; 0xC6; 0xD0;
   0xE0; 0xE1; 0x21; 0x29; 0x2A; 0x2B; 0x2C].

(* ------------------------------------------------------------------ *)
(** ** Releasing the hardware *)

(** The calls of a session: those of the log of the board, and the calls
    that release a PWM object or the SPI device. *)
Inductive call : Type :=
| Hw (e : event)
| PwmStop (pin : Z)                           (* pwm.stop() *)
| SpiClose                                    (* spi.close() *)
| GpioCleanup.                                (* GPIO.cleanup() *)

(** The board with all its calls, in the order they were made. *)
Record session : Type := mk_session {
  self_board : board;
  calls : list call
}.

(** A method of the board inside a session: what it appends to the log
    of the board is appended to the calls. *)
Definition on_board {A} (m : M board A) : M session A :=
  fun s =>
    let b := self_board s in
    let '(o, b') := m b in
    (o, mk_session b' (calls s ++ map Hw (skipn (length (log b)) (log b')))).

Definition emit_call (c : call) : M session unit :=
  fun s => (Returned tt, mk_session (self_board s) (calls s ++ [c])).

(** [p.stop()] on an attribute that may hold [None]: AttributeError then. *)
Definition PWM_stop (o : option pwm) : M session unit :=
  match o with
  | Some p => emit_call (PwmStop (pwm_channel p))
  | None => raise AttributeError
  end.

(** whisplaydriver.py, [set_backlight_mode]. *)
Definition set_backlight_mode (mode : bool) : M session unit :=
  self <- on_board get ;;
  if Bool.eqb mode (backlight_mode self) then ret tt
  else
    (if mode then
       p <- on_board (GPIO_PWM LED_PIN 1000) ;;
       on_board (modify (with_backlight_pwm (Some p))) ;;;
       p' <- on_board (PWM_start p 100) ;;
       on_board (modify (with_backlight_pwm (Some p')))
     else
       (match backlight_pwm self with
        | Some p =>
            PWM_stop (Some p) ;;;
            on_board (modify (with_backlight_pwm None))
        | None => ret tt
        end) ;;;
       on_board (GPIO_output LED_PIN HIGH)) ;;;
    on_board (modify (with_backlight_mode mode)).

(** whisplaydriver.py, [cleanup]. *)
Definition cleanup : M session unit :=
  self <- on_board get ;;
  (match backlight_pwm self with
   | Some p => PWM_stop (Some p)
   | None => ret tt
   end) ;;;
  emit_call SpiClose ;;;
  self <- on_board get ;;
  PWM_stop (red_pwm self) ;;;
  self <- on_board get ;;
  PWM_stop (green_pwm self) ;;;
  self <- on_board get ;;
  PWM_stop (blue_pwm self) ;;;
  emit_call GpioCleanup.

(** A session that starts on a board. *)
Definition session_of (b : board) : session := mk_session b (map Hw (log b)).

(** ** The direction of a fade *)

(** One channel of the samples of a fade. *)
Fixpoint channel_samples (step : PyFloat.float) (current : Z)
         (indices : list Z) : list Z :=
  match indices with
  | [] => []
  | i :: rest =>
      let sample := clamp255 (interim current i step) in
      sample :: channel_samples step sample rest
  end.

Fixpoint nonincreasing (l : list Z) : Prop :=
  match l with
  | a :: (b :: _) as t => b <= a /\ nonincreasing t
  | _ => True
  end.

(** A channel that starts at [current], is asked to go to [target], takes
    the values [samples] and ends at [final]: it never moves away from
    the target, and it does not stop short of it. *)
Definition fades_towards (current target : Z) (samples : list Z) (final : Z)
  : Prop :=
  (current <= target -> nondecreasing (current :: samples) /\ target <= final) /\
  (target <= current -> nonincreasing (current :: samples) /\ final <= target).

Definition channel_value (v : Z) : Prop := 0 <= v <= 255.

(** The duty cycle [100 - (v / 255 * 100)] as the formula gives it, the
    check of the division left aside. *)
Definition duty_formula (v : Z) : Q :=
  PyFloat.rnd (PyFloat.rnd 100
               - PyFloat.rnd (PyFloat.rnd (inject_Z v / 255) * PyFloat.rnd 100)).

(** [ChangeDutyCycle(100 - (v / 255 * 100))] raises nothing: the duty
    cycle can be computed and the PWM object takes it. *)
Definition no_duty_error (v : Z) : Prop :=
  exists d, channel_duty v = Returned d /\ valid_dutycycle d = true.

(** Durations whose pauses [time.sleep] takes: up to 10^12 ms.  The 21
    pauses of such a fade add up to about 10^9 seconds, which leaves the
    deadline of every sleep far within the 64-bit count of nanoseconds
    (about 9.2 * 10^9 seconds of monotonic clock). *)
Definition MAX_DURATION_MS : Z := 10 ^ 12.

(** The first duration whose pause [duration_ms / 20 / 1000.0] is no
    longer a signed 64-bit count of nanoseconds. *)
Definition SLEEP_OVERFLOW_MS : Z := 184467440737096.

(** A stored value that, when it was assigned at all, is an integer the
    float arithmetic of the fade takes. *)
Definition assigned_finite (o : option Z) : Prop :=
  match o with
  | Some c => finite_int c
  | None => True
  end.

(* ------------------------------------------------------------------ *)
(** ** Facts about binary64 rounding *)

Module PyFloatFacts.
Import PyFloat.

Local Open Scope Q_scope.

(** *** Powers of two *)

Lemma pow2_pos k : 0 < pow2 k.
Proof. apply Qpower_0_lt. reflexivity. Qed.

Lemma pow2_add a b : pow2 (a + b) == pow2 a * pow2 b.
Proof. apply Qpower_plus. discriminate. Qed.

Lemma pow2_inv k : pow2 (- k) * pow2 k == 1.
Proof.
  unfold pow2. rewrite Qpower_opp. 
  rewrite Qmult_comm. apply Qmult_inv_r.
  apply Qpower_not_0. discriminate.
Qed.

Lemma pow2_inject k : (0 <= k)%Z -> pow2 k == inject_Z (2 ^ k).
Proof. intros. unfold pow2. rewrite Zpower_Qpower by assumption. reflexivity. Qed.

Lemma pow2_le a b : (a <= b)%Z -> pow2 a <= pow2 b.
Proof. intros. apply Qpower_le_compat_l; [assumption | discriminate]. Qed.

Lemma pow2_lt a b : (a < b)%Z -> pow2 a < pow2 b.
Proof. intros. apply Qpower_lt_compat_l; [assumption | reflexivity]. Qed.

Lemma rne_comp x y : x == y -> rne x = rne y.
Proof.
  intros E. unfold rne.
  rewrite (Qfloor_comp _ _ E).
  assert (H : x - inject_Z (Qfloor y) == y - inject_Z (Qfloor y)) by (rewrite E; reflexivity).
  rewrite (Qcompare_comp _ _ H _ _ (Qeq_refl (1#2))). reflexivity.
Qed.

Lemma rne_bounds q : (Qfloor q <= rne q <= Qfloor q + 1)%Z.
Proof.
  unfold rne. destruct (Qcompare _ _); [destruct (Z.even _)| |]; lia.
Qed.

Lemma rne_Z n : rne (inject_Z n) = n.
Proof.
  unfold rne. rewrite Qfloor_Z.
  destruct (Qcompare_spec (inject_Z n - inject_Z n) (1 # 2)) as [H | H | H];
    [exfalso; lra | reflexivity | exfalso; lra].
Qed.

Lemma rne_mono x y : x <= y -> (rne x <= rne y)%Z.
Proof.
  intros L.
  pose proof (Qfloor_resp_le _ _ L) as F.
  destruct (Z.eq_dec (Qfloor x) (Qfloor y)) as [E | N].
  - unfold rne. rewrite <- E.
    destruct (Qcompare_spec (x - inject_Z (Qfloor x)) (1 # 2)) as [H1 | H1 | H1];
      destruct (Qcompare_spec (y - inject_Z (Qfloor x)) (1 # 2)) as [H2 | H2 | H2];
      try destruct (Z.even (Qfloor x)); try lia; exfalso; lra.
  - pose proof (rne_bounds x). pose proof (rne_bounds y). lia.
Qed.

Lemma Qfloor_unique x n :
  inject_Z n <= x < inject_Z n + 1 -> Qfloor x = n.
Proof.
  intros [Lo Hi].
  pose proof (Qfloor_le x) as A. pose proof (Qlt_floor x) as B.
  rewrite inject_Z_plus in B. change (inject_Z 1) with 1 in B.
  assert (C : inject_Z (Qfloor x) < inject_Z (n + 1)) by (rewrite inject_Z_plus; change (inject_Z 1) with 1; lra).
  assert (D : inject_Z n < inject_Z (Qfloor x + 1)) by (rewrite inject_Z_plus; change (inject_Z 1) with 1; lra).
  rewrite <- Zlt_Qlt in C, D. lia.
Qed.

Lemma rne_opp q : rne (- q) = (- rne q)%Z.
Proof.
  destruct (Qeq_dec q (inject_Z (Qfloor q))) as [E | N].
  - assert (E' : - q == inject_Z (- Qfloor q)) by (rewrite inject_Z_opp; lra).
    rewrite (rne_comp _ _ E'), (rne_comp _ _ E), !rne_Z. reflexivity.
  - assert (Hlo : inject_Z (Qfloor q) < q).
    { pose proof (Qfloor_le q). apply Qle_lteq in H. destruct H; [assumption|]. exfalso; apply N; symmetry; assumption. }
    assert (Hhi : q < inject_Z (Qfloor q + 1)) by apply Qlt_floor.
    assert (F : Qfloor (- q) = (- Qfloor q - 1)%Z).
    { apply Qfloor_unique. rewrite inject_Z_plus in Hhi.
      unfold Z.sub. rewrite !inject_Z_plus, !inject_Z_opp.
      change (inject_Z 1) with 1 in *. lra. }
    unfold rne. rewrite F.
    replace (Z.even (- Qfloor q - 1)) with (negb (Z.even (Qfloor q))).
    2:{ replace (- Qfloor q - 1)%Z with (- (Qfloor q + 1))%Z by lia.
        rewrite Z.even_opp. rewrite Z.even_add. simpl. destruct (Z.even (Qfloor q)); reflexivity. }
    assert (R : - q - inject_Z (- Qfloor q - 1) == 1 - (q - inject_Z (Qfloor q))).
    { unfold Z.sub. rewrite inject_Z_plus, !inject_Z_opp.
      change (inject_Z 1) with 1. ring. }
    destruct (Qcompare_spec (q - inject_Z (Qfloor q)) (1 # 2)) as [H1 | H1 | H1];
      destruct (Qcompare_spec (- q - inject_Z (- Qfloor q - 1)) (1 # 2)) as [H2 | H2 | H2];
      try (exfalso; lra); try destruct (Z.even (Qfloor q)); simpl; lia.
Qed.

Lemma Qabs_num_den q : Qabs q * inject_Z (Zpos (Qden q)) == inject_Z (Z.abs (Qnum q)).
Proof.
  destruct q as [n d]. unfold Qabs, Qeq, Qmult, inject_Z. simpl. lia.
Qed.

Lemma ilog2_spec q :
  0 < Qabs q -> pow2 (ilog2 q) <= Qabs q < pow2 (ilog2 q + 1).
Proof.
  intros Hq.
  pose proof (Qabs_num_den q) as E.
  set (n := Z.abs (Qnum q)) in *. set (d := Zpos (Qden q)) in *.
  assert (Hd : (0 < d)%Z) by (subst d; lia).
  assert (Hn : (0 < n)%Z).
  { assert (Pd : 0 < inject_Z d) by (change 0 with (inject_Z 0); rewrite <- Zlt_Qlt; assumption).
    destruct (Z_lt_le_dec 0 n) as [G | G]; [assumption|].
    exfalso. rewrite Zle_Qle in G. rewrite <- E in G. change (inject_Z 0) with 0 in G.
    assert (0 < Qabs q * inject_Z d) by (apply Qmult_lt_0_compat; assumption).
    lra. }
  pose proof (Z.log2_spec n Hn) as [Ln Un].
  pose proof (Z.log2_spec d Hd) as [Ld Ud].
  pose proof (Z.log2_nonneg n) as Nn. pose proof (Z.log2_nonneg d) as Nd.
  rewrite Zle_Qle in Ln, Ld. rewrite Zlt_Qlt in Un, Ud.
  rewrite <- pow2_inject in Ln, Un, Ld, Ud by lia.
  unfold ilog2. fold n. fold d.
  set (e0 := (Z.log2 n - Z.log2 d)%Z).
  assert (Up : Qabs q < pow2 (e0 + 1)).
  { apply Qmult_lt_r with (z := pow2 (Z.log2 d)); [apply pow2_pos|].
    rewrite <- pow2_add. replace (e0 + 1 + Z.log2 d)%Z with (Z.succ (Z.log2 n)) by (subst e0; lia).
    apply Qle_lt_trans with (y := inject_Z n); [|assumption].
    rewrite <- E. apply Qmult_le_l; assumption. }
  assert (Lo : pow2 (e0 - 1) < Qabs q).
  { apply Qmult_lt_r with (z := pow2 (Z.succ (Z.log2 d))); [apply pow2_pos|].
    rewrite <- pow2_add. replace (e0 - 1 + Z.succ (Z.log2 d))%Z with (Z.log2 n) by (subst e0; lia).
    apply Qle_lt_trans with (y := inject_Z n); [assumption|].
    rewrite <- E. apply Qmult_lt_l; assumption. }
  destruct (Qle_bool (pow2 e0) (Qabs q)) eqn:B.
  - apply Qle_bool_iff in B. split; assumption.
  - split; [apply Qlt_le_weak; assumption|].
    replace (e0 - 1 + 1)%Z with e0 by lia.
    apply Qnot_le_lt. intro C. apply Qle_bool_iff in C. congruence.
Qed.

Lemma pow2_lt_inv a b : pow2 a < pow2 b -> (a < b)%Z.
Proof.
  intros H. destruct (Z_lt_le_dec a b) as [L | L]; [assumption|].
  apply pow2_le in L. exfalso. lra.
Qed.

Lemma round_at_comp k x y : x == y -> round_at k x == round_at k y.
Proof.
  intros E. unfold round_at.
  assert (H : x * pow2 (- k) == y * pow2 (- k)) by (rewrite E; reflexivity).
  rewrite (rne_comp _ _ H). reflexivity.
Qed.

Lemma round_at_mono k x y : x <= y -> round_at k x <= round_at k y.
Proof.
  intros L. unfold round_at.
  apply Qmult_le_compat_r; [|apply Qlt_le_weak, pow2_pos].
  rewrite <- Zle_Qle. apply rne_mono.
  apply Qmult_le_compat_r; [assumption|apply Qlt_le_weak, pow2_pos].
Qed.

Lemma round_at_pow2 k j : (k <= j)%Z -> round_at k (pow2 j) == pow2 j.
Proof.
  intros L. unfold round_at.
  assert (H : pow2 j * pow2 (- k) == inject_Z (2 ^ (j - k))).
  { rewrite <- pow2_add. rewrite <- pow2_inject by lia. reflexivity. }
  rewrite (rne_comp _ _ H), rne_Z.
  rewrite <- pow2_inject by lia. rewrite <- pow2_add.
  replace (j - k + k)%Z with j by lia. reflexivity.
Qed.

Lemma round_at_0 k : round_at k 0 == 0.
Proof.
  unfold round_at.
  assert (H : 0 * pow2 (- k) == inject_Z 0) by (change (inject_Z 0) with 0; ring).
  rewrite (rne_comp _ _ H), rne_Z. change (inject_Z 0) with 0. ring.
Qed.

Lemma round_at_opp k x : round_at k (- x) == - round_at k x.
Proof.
  unfold round_at.
  assert (H : - x * pow2 (- k) == - (x * pow2 (- k))) by ring.
  rewrite (rne_comp _ _ H), rne_opp, inject_Z_opp. ring.
Qed.


Lemma binade_spec x :
  ~ x == 0 -> pow2 (binade x) <= Qabs x < pow2 (binade x + 1).
Proof.
  intros N. unfold binade.
  assert (A : Qabs (Qred x) == Qabs x) by (rewrite Qred_correct; reflexivity).
  rewrite <- A. apply ilog2_spec. rewrite A.
  pose proof (Qabs_nonneg x) as P. apply Qle_lteq in P. destruct P as [P | P]; [assumption|].
  exfalso. apply N. 
  destruct (Qabs_Qle_condition x 0) as [C _]. 
  destruct C as [C1 C2]; [rewrite <- P; apply Qle_refl|]. 
  apply Qle_antisym; [assumption|]. 
  change (- 0) with 0 in C1. assumption.
Qed.

Lemma rnd_zero x : x == 0 -> rnd x = 0.
Proof.
  intros E. unfold rnd.
  assert (H : Qeq_bool (Qred x) 0 = true).
  { apply Qeq_bool_iff. rewrite Qred_correct. assumption. }
  rewrite H. reflexivity.
Qed.

Lemma rnd_nonzero x : ~ x == 0 -> rnd x == round_at (fexp (binade x)) x.
Proof.
  intros N. unfold rnd.
  destruct (Qeq_bool (Qred x) 0) eqn:B.
  - exfalso. apply N. apply Qeq_bool_iff in B. rewrite Qred_correct in B. assumption.
  - rewrite Qred_correct. apply round_at_comp. apply Qred_correct.
Qed.

Lemma rnd_comp x y : x == y -> rnd x = rnd y.
Proof.
  intros E. unfold rnd. rewrite (Qred_complete _ _ E). reflexivity.
Qed.

Lemma rnd_nonneg x : 0 <= x -> 0 <= rnd x.
Proof.
  intros P. destruct (Qeq_dec x 0) as [E | N].
  - rewrite (rnd_zero _ E). apply Qle_refl.
  - rewrite (rnd_nonzero _ N). rewrite <- (round_at_0 (fexp (binade x))).
    apply round_at_mono. assumption.
Qed.

Lemma binade_mono x y : 0 < x -> x <= y -> (binade x <= binade y)%Z.
Proof.
  intros P L.
  assert (Nx : ~ x == 0) by (intro E; rewrite E in P; discriminate).
  assert (Ny : ~ y == 0) by (intro E; rewrite E in L; lra).
  pose proof (binade_spec x Nx) as [Lx _].
  pose proof (binade_spec y Ny) as [_ Uy].
  rewrite Qabs_pos in Lx by lra. rewrite Qabs_pos in Uy by lra.
  assert (H : pow2 (binade x) < pow2 (binade y + 1)) by lra.
  apply pow2_lt_inv in H. lia.
Qed.

Lemma rnd_mono_pos x y : 0 < x -> x <= y -> rnd x <= rnd y.
Proof.
  intros P L.
  assert (Nx : ~ x == 0) by (intro E; rewrite E in P; discriminate).
  assert (Ny : ~ y == 0) by (intro E; rewrite E in L; lra).
  rewrite (rnd_nonzero _ Nx), (rnd_nonzero _ Ny).
  pose proof (binade_mono x y P L) as Hb.
  destruct (Z.eq_dec (fexp (binade x)) (fexp (binade y))) as [E | N].
  - rewrite E. apply round_at_mono. assumption.
  - pose proof (binade_spec x Nx) as [_ Ux].
    pose proof (binade_spec y Ny) as [Ly _].
    rewrite Qabs_pos in Ux by lra. rewrite Qabs_pos in Ly by lra.
    assert (Hlt : (binade x < binade y)%Z) by (unfold fexp in N; lia).
    assert (Hx : x <= pow2 (binade y)).
    { apply Qle_trans with (y := pow2 (binade x + 1)); [lra|apply pow2_le; lia]. }
    apply Qle_trans with (y := pow2 (binade y)).
    + apply Qle_trans with (y := round_at (fexp (binade x)) (pow2 (binade y))).
      * apply round_at_mono. assumption.
      * rewrite round_at_pow2 by (unfold fexp in *; lia). apply Qle_refl.
    + apply Qle_trans with (y := round_at (fexp (binade y)) (pow2 (binade y))).
      * rewrite round_at_pow2 by (unfold fexp in *; lia). apply Qle_refl.
      * apply round_at_mono. assumption.
Qed.

Lemma ilog2_opp q : ilog2 (- q) = ilog2 q.
Proof.
  destruct q as [n d]. unfold ilog2, Qabs, Qopp. simpl.
  rewrite Z.abs_opp. reflexivity.
Qed.

Lemma rnd_opp x : rnd (- x) == - rnd x.
Proof.
  destruct (Qeq_dec x 0) as [E | N].
  - rewrite (rnd_zero x E). rewrite rnd_zero by (rewrite E; reflexivity). reflexivity.
  - assert (N' : ~ - x == 0) by (intro E; apply N; lra).
    rewrite (rnd_nonzero _ N), (rnd_nonzero _ N').
    unfold binade. rewrite Qred_opp, ilog2_opp. apply round_at_opp.
Qed.

Theorem rnd_mono x y : x <= y -> rnd x <= rnd y.
Proof.
  intros L.
  destruct (Qlt_le_dec 0 x) as [Px | Nx].
  - apply rnd_mono_pos; assumption.
  - destruct (Qlt_le_dec y 0) as [Ny | Py].
    + assert (H : rnd (- y) <= rnd (- x)) by (apply rnd_mono_pos; lra).
      rewrite !rnd_opp in H. lra.
    + apply Qle_trans with (y := 0).
      * assert (H : 0 <= rnd (- x)) by (apply rnd_nonneg; lra).
        rewrite rnd_opp in H. lra.
      * apply rnd_nonneg. assumption.
Qed.

(** On the quotients and products the driver forms, [rnd] and the
    operations of [SpecFloat] at precision 53 agree. *)
Lemma rnd_agrees_with_binary64 :
  forallb (fun p => agree_on (fst p) (snd p)) sample_sizes = true /\
  forallb agree_on_duty (range 256) = true.
Proof. split; vm_compute; reflexivity. Qed.

End PyFloatFacts.

(* ------------------------------------------------------------------ *)
(** ** Where the division of integers does not overflow *)

Lemma no_overflow (x : Q) :
  (- inject_Z (2 ^ 1001) <= x <= inject_Z (2 ^ 1001))%Q ->
  PyFloat.overflows (PyFloat.rnd x) = false.
Proof.
  intros [Lo Hi].
  apply PyFloatFacts.rnd_mono in Lo. apply PyFloatFacts.rnd_mono in Hi.
  assert (C1 : PyFloat.rnd (inject_Z (2 ^ 1001)) = inject_Z (2 ^ 1001))
    by (vm_compute; reflexivity).
  assert (C2 : PyFloat.rnd (- inject_Z (2 ^ 1001)) = (- inject_Z (2 ^ 1001))%Q)
    by (vm_compute; reflexivity).
  rewrite C1 in Hi. rewrite C2 in Lo.
  unfold PyFloat.overflows.
  destruct (Qle_bool (PyFloat.pow2 1024) (Qabs (PyFloat.rnd x))) eqn:B;
    [|reflexivity].
  exfalso. apply Qle_bool_iff in B.
  assert (A : (Qabs (PyFloat.rnd x) <= inject_Z (2 ^ 1001))%Q)
    by (apply Qabs_Qle_condition; split; assumption).
  rewrite (PyFloatFacts.pow2_inject 1024) in B by discriminate.
  pose proof (Qle_trans _ _ _ B A) as C.
  rewrite <- Zle_Qle in C. revert C. apply Z.lt_nge. reflexivity.
Qed.

Lemma int_truediv_returns (a b : Z) :
  0 < b -> Z.abs a <= 2 ^ 1001 ->
  PyFloat.int_truediv a b = Returned (PyFloat.rnd (inject_Z a / inject_Z b)).
Proof.
  intros Hb Ha. unfold PyFloat.int_truediv.
  assert (E : (b =? 0) = false) by (apply Z.eqb_neq; lia).
  rewrite E. cbv zeta.
  rewrite no_overflow; [reflexivity|].
  set (K := 2 ^ 1001) in *.
  assert (HK : 0 < K) by reflexivity.
  assert (Pb : (0 < inject_Z b)%Q)
    by (change 0%Q with (inject_Z 0); rewrite <- Zlt_Qlt; exact Hb).
  split.
  - apply Qle_shift_div_l; [exact Pb|].
    rewrite <- inject_Z_opp, <- inject_Z_mult, <- Zle_Qle. nia.
  - apply Qle_shift_div_r; [exact Pb|].
    rewrite <- inject_Z_mult, <- Zle_Qle. nia.
Qed.

(* ------------------------------------------------------------------ *)
(** ** Lists and ranges *)

Lemma firstn_add_skipn {A} (a b : nat) (l : list A) :
  firstn (a + b) l = firstn a l ++ firstn b (skipn a l).
Proof.
  revert l. induction a as [|a IH]; intros l; simpl.
  - reflexivity.
  - destruct l as [|h t]; simpl.
    + rewrite firstn_nil. reflexivity.
    + rewrite IH. reflexivity.
Qed.

Lemma concat_windows {A} (c n : nat) (l : list A) :
  concat (map (fun k => firstn c (skipn (k * c) l)) (seq 0 n)) = firstn (n * c) l.
Proof.
  induction n as [|n IH].
  - reflexivity.
  - rewrite seq_S, map_app, concat_app, IH. simpl.
    rewrite app_nil_r.
    replace (c + n * c)%nat with (n * c + c)%nat by lia.
    rewrite firstn_add_skipn. reflexivity.
Qed.

Lemma chunks_concat (data : list Z) : concat (chunks data) = data.
Proof.
  unfold chunks, range3, len. rewrite map_map.
  set (n := Z.to_nat ((Z.of_nat (length data) - 0 + 4096 - 1) / 4096)).
  rewrite (map_ext _ (fun k => firstn 4096 (skipn (k * 4096) data))).
  - rewrite concat_windows. apply firstn_all2.
    subst n.
    assert (H : Z.of_nat (length data)
                <= 4096 * ((Z.of_nat (length data) - 0 + 4096 - 1) / 4096)).
    { pose proof (Z.mul_div_le (Z.of_nat (length data) - 0 + 4096 - 1) 4096).
      pose proof (Z.mod_pos_bound (Z.of_nat (length data) - 0 + 4096 - 1) 4096).
      pose proof (Z.div_mod (Z.of_nat (length data) - 0 + 4096 - 1) 4096).
      lia. }
    assert (P : 0 <= (Z.of_nat (length data) - 0 + 4096 - 1) / 4096)
      by (apply Z.div_pos; lia).
    lia.
  - intros k. unfold slice.
    replace (0 + Z.of_nat k * 4096 + 4096 - (0 + Z.of_nat k * 4096)) with 4096 by lia.
    replace (Z.to_nat (0 + Z.of_nat k * 4096)) with (k * 4096)%nat by lia.
    reflexivity.
Qed.

Lemma range_length (n : Z) : length (range n) = Z.to_nat n.
Proof. unfold range. rewrite length_map, length_seq. reflexivity. Qed.

Lemma range_In (n z : Z) : 0 <= z < n -> In z (range n).
Proof.
  intros H. unfold range. apply in_map_iff. exists (Z.to_nat z).
  split; [lia|]. apply in_seq. lia.
Qed.

Lemma In_range (n z : Z) : In z (range n) -> 0 <= z < n.
Proof.
  unfold range. intros H. apply in_map_iff in H. destruct H as [k [E I]].
  apply in_seq in I. lia.
Qed.

(** A property checked on every element of [range n] holds below [n]. *)
Lemma range_forallb (n : Z) (P : Z -> bool) :
  forallb P (range n) = true -> forall z, 0 <= z < n -> P z = true.
Proof.
  intros H z Hz. rewrite forallb_forall in H. apply H, range_In, Hz.
Qed.

(* ------------------------------------------------------------------ *)
(** ** What the transport leaves in the log *)

Lemma with_log_same (s : board) : with_log (log s) s = s.
Proof. destruct s; reflexivity. Qed.

Lemma appends_ret : appends (ret tt) (fun _ => []).
Proof. intros s. unfold ret. rewrite app_nil_r, with_log_same. reflexivity. Qed.

Lemma appends_emit (e : event) : appends (emit e) (fun _ => [e]).
Proof. intros s. reflexivity. Qed.

Lemma appends_bind (m1 m2 : M board unit) (e1 e2 : bool -> list event) :
  appends m1 e1 -> appends m2 e2 ->
  appends (m1 ;;; m2) (fun w => e1 w ++ e2 w).
Proof.
  intros H1 H2 s. unfold bind. rewrite H1, H2. simpl.
  rewrite app_assoc. reflexivity.
Qed.

Lemma appends_ext (m : M board unit) (e e' : bool -> list event) :
  appends m e -> (forall w, e w = e' w) -> appends m e'.
Proof. intros H E s. rewrite H, E. reflexivity. Qed.

Lemma appends_for_each {A} (f : A -> event) (l : list A) :
  appends (for_each l (fun a => emit (f a))) (fun _ => map f l).
Proof.
  induction l as [|a l IH].
  - apply appends_ret.
  - simpl. eapply appends_ext.
    + apply appends_bind; [apply appends_emit | apply IH].
    + reflexivity.
Qed.

Lemma _send_data_appends (data : list Z) :
  appends (_send_data data) (fun w => send_data_events w data).
Proof.
  intros s. unfold _send_data, GPIO_output, try_except, spi_writebytes2, bind, get.
  simpl. destruct (spi_has_writebytes2 s) eqn:W.
  - simpl. rewrite <- app_assoc. reflexivity.
  - unfold raise.
    rewrite (appends_for_each (fun i => SpiWritebytes (slice data i (i + 4096)))).
    simpl. unfold send_data_events, chunks. rewrite map_map, <- app_assoc. reflexivity.
Qed.

Lemma _send_command_appends (cmd : Z) (args : list Z) :
  appends (_send_command cmd args) (fun w => send_command_events w cmd args).
Proof.
  unfold _send_command, GPIO_output, send_command_events.
  destruct args as [|a args].
  - eapply appends_ext.
    + apply appends_bind; [apply appends_emit|].
      apply appends_bind; [apply appends_emit | apply appends_ret].
    + reflexivity.
  - eapply appends_ext.
    + apply appends_bind; [apply appends_emit|].
      apply appends_bind; [apply appends_emit|].
      apply appends_bind; [apply appends_emit | apply _send_data_appends].
    + reflexivity.
Qed.

Lemma set_window_appends (x0 y0 x1 y1 : Z) :
  appends (set_window x0 y0 x1 y1 0) (fun w => window_events w x0 y0 x1 y1).
Proof.
  unfold set_window. change ((0 =? 0) || (0 =? 1)) with true. cbv iota.
  eapply appends_ext.
  - apply appends_bind; [|apply _send_command_appends].
    apply appends_bind; apply _send_command_appends.
  - intros w. unfold window_events. cbv beta.
    rewrite <- app_assoc. reflexivity.
Qed.

(** The payload of [_send_data] is its argument, whatever the burst size. *)
Lemma send_data_payload (w : bool) (data : list Z) :
  spi_payload (send_data_events w data) = data.
Proof.
  unfold send_data_events, spi_payload. destruct w; simpl.
  - apply app_nil_r.
  - rewrite flat_map_concat_map, map_map, map_id. apply chunks_concat.
Qed.

(* ------------------------------------------------------------------ *)
(** ** Window addressing *)

(** C10.  For an orientation outside 0, 1, 2, 3, [set_window] sends neither
    the column-address command (0x2A) nor the row-address command (0x2B):
    all it does is [_send_command(0x2C)] without arguments, that is, the
    select line low and the single command byte 0x2C. *)
Theorem set_window_unknown_orientation :
  forall x0 y0 x1 y1 use_horizontal st,
    use_horizontal <> 0 -> use_horizontal <> 1 ->
    use_horizontal <> 2 -> use_horizontal <> 3 ->
    set_window x0 y0 x1 y1 use_horizontal st = _send_command 0x2C [] st /\
    set_window x0 y0 x1 y1 use_horizontal st =
      (Returned tt,
       with_log (log st ++ [GpioOutput DC_PIN LOW; SpiXfer2 [0x2C]]) st).
Proof.
  intros x0 y0 x1 y1 u st H0 H1 H2 H3.
  assert (E : set_window x0 y0 x1 y1 u st = _send_command 0x2C [] st).
  { unfold set_window.
    apply Z.eqb_neq in H0, H1, H2, H3. rewrite H0, H1, H2, H3. simpl.
    unfold bind at 1. unfold ret. reflexivity. }
  split; [exact E|].
  rewrite E. rewrite (_send_command_appends 0x2C [] st). reflexivity.
Qed.

Lemma set_window_unknown_orientation_witness :
  set_window 0 0 239 279 4 board_ready = _send_command 0x2C [] board_ready /\
  set_window 0 0 239 279 4 board_ready =
    (Returned tt,
     with_log (log board_ready ++ [GpioOutput DC_PIN LOW; SpiXfer2 [0x2C]])
              board_ready).
Proof.
  apply (set_window_unknown_orientation 0 0 239 279 4 board_ready); lia.
Defined.

(* ------------------------------------------------------------------ *)
(** ** Drawing primitives *)

Lemma color_bytes_big_endian (color : Z) :
  0 <= color < 65536 ->
  exists hi lo,
    color_bytes color = [hi; lo] /\ 0 <= hi < 256 /\ 0 <= lo < 256 /\
    color = hi * 256 + lo.
Proof.
  intros H. exists (Z.land (Z.shiftr color 8) 0xFF), (Z.land color 0xFF).
  split; [reflexivity|].
  change 0xFF with (Z.ones 8).
  rewrite !Z.land_ones, Z.shiftr_div_pow2 by lia.
  change (2 ^ 8) with 256.
  pose proof (Z.div_mod color 256).
  pose proof (Z.mod_pos_bound color 256).
  assert (0 <= color / 256 < 256)
    by (split; [apply Z.div_pos; lia | apply Z.div_lt_upper_bound; lia]).
  rewrite (Z.mod_small (color / 256) 256) by lia.
  lia.
Qed.

(** C5, as the code has it.  [draw_pixel] tests the upper bounds only.
    When [x >= LCD_WIDTH] or [y >= LCD_HEIGHT] it returns without touching
    the board.  For every other [(x, y)], inside the panel or with a
    negative coordinate, it sets the 1x1 window at [(x, y)] and streams the
    two bytes of the colour, high byte first. *)
Theorem draw_pixel_upper_bounds :
  forall x y color st,
    (LCD_WIDTH <= x \/ LCD_HEIGHT <= y ->
     draw_pixel x y color st = (Returned tt, st)) /\
    (x < LCD_WIDTH /\ y < LCD_HEIGHT ->
     draw_pixel x y color st =
       (Returned tt,
        with_log (log st
                  ++ window_events (spi_has_writebytes2 st) x y x y
                  ++ send_data_events (spi_has_writebytes2 st) (color_bytes color))
                 st)) /\
    spi_payload (send_data_events (spi_has_writebytes2 st) (color_bytes color))
      = [Z.land (Z.shiftr color 8) 0xFF; Z.land color 0xFF] /\
    (0 <= color < 65536 ->
     Z.land (Z.shiftr color 8) 0xFF * 256 + Z.land color 0xFF = color).
Proof.
  intros x y color st. repeat split.
  - intros H. unfold draw_pixel.
    assert (E : (x >=? LCD_WIDTH) || (y >=? LCD_HEIGHT) = true).
    { apply orb_true_iff. rewrite !Z.geb_le. lia. }
    rewrite E. reflexivity.
  - intros [Hx Hy]. unfold draw_pixel.
    assert (E : (x >=? LCD_WIDTH) || (y >=? LCD_HEIGHT) = false).
    { apply orb_false_iff. rewrite !Z.geb_leb, !Z.leb_gt. lia. }
    rewrite E.
    apply (appends_bind _ _ _ _ (set_window_appends x y x y)
                        (_send_data_appends (color_bytes color))).
  - apply send_data_payload.
  - intros H. destruct (color_bytes_big_endian color H) as [hi [lo [E [_ [_ V]]]]].
    unfold color_bytes in E. injection E as E1 E2. rewrite E1, E2. lia.
Qed.

(** C5 as claimed fails for a negative coordinate: [draw_pixel(-1, 0, c)]
    is outside the panel, yet it writes to the bus, starting with the
    column-address command. *)
Lemma draw_pixel_negative_x_writes :
  ~ (0 <= -1 < LCD_WIDTH) /\
  bus_writes (log (snd (draw_pixel (-1) 0 0xF800 board_ready))) =
    [SpiXfer2 [0x2A]; SpiWritebytes2 [-1; 255; -1; 255];
     SpiXfer2 [0x2B]; SpiWritebytes2 [0; 20; 0; 20];
     SpiXfer2 [0x2C]; SpiWritebytes2 [0xF8; 0x00]] /\
  bus_writes (log (snd (draw_pixel (-1) 0 0xF800 board_ready)))
    <> bus_writes (log board_ready).
Proof.
  split; [lia|]. split; [reflexivity | discriminate].
Qed.

(** C4.  [draw_image] raises exactly when [x + width] exceeds the panel
    width or [y + height] the panel height, with a ValueError and the board
    untouched.  Otherwise it sets the window
    [(x, y, x + width - 1, y + height - 1)] and streams the buffer it was
    given: the data bytes on the bus are [pixel_data], unchanged. *)
Theorem draw_image_bounds :
  forall x y width height pixel_data st,
    ((exists e, fst (draw_image x y width height pixel_data st) = Raised e)
     <-> (x + width > LCD_WIDTH \/ y + height > LCD_HEIGHT)) /\
    (x + width > LCD_WIDTH \/ y + height > LCD_HEIGHT ->
     draw_image x y width height pixel_data st = (Raised ValueError, st)) /\
    (x + width <= LCD_WIDTH /\ y + height <= LCD_HEIGHT ->
     draw_image x y width height pixel_data st =
       (Returned tt,
        with_log (log st
                  ++ window_events (spi_has_writebytes2 st)
                                   x y (x + width - 1) (y + height - 1)
                  ++ send_data_events (spi_has_writebytes2 st) pixel_data)
                 st)) /\
    spi_payload (send_data_events (spi_has_writebytes2 st) pixel_data)
      = pixel_data.
Proof.
  intros x y width height pixel_data st.
  assert (Out : x + width > LCD_WIDTH \/ y + height > LCD_HEIGHT ->
                draw_image x y width height pixel_data st = (Raised ValueError, st)).
  { intros H. unfold draw_image.
    assert (E : (x + width >? LCD_WIDTH) || (y + height >? LCD_HEIGHT) = true).
    { apply orb_true_iff. rewrite !Z.gtb_gt. lia. }
    rewrite E. reflexivity. }
  assert (In : x + width <= LCD_WIDTH /\ y + height <= LCD_HEIGHT ->
               draw_image x y width height pixel_data st =
                 (Returned tt,
                  with_log (log st
                            ++ window_events (spi_has_writebytes2 st)
                                             x y (x + width - 1) (y + height - 1)
                            ++ send_data_events (spi_has_writebytes2 st) pixel_data)
                           st)).
  { intros [Hx Hy]. unfold draw_image.
    assert (E : (x + width >? LCD_WIDTH) || (y + height >? LCD_HEIGHT) = false).
    { apply orb_false_iff. rewrite !Z.gtb_ltb, !Z.ltb_ge. lia. }
    rewrite E.
    apply (appends_bind _ _ _ _
             (set_window_appends x y (x + width - 1) (y + height - 1))
             (_send_data_appends pixel_data)). }
  repeat split.
  - intros [e He].
    destruct (Z_gt_dec (x + width) LCD_WIDTH) as [G | G]; [left; exact G|].
    destruct (Z_gt_dec (y + height) LCD_HEIGHT) as [G' | G']; [right; exact G'|].
    rewrite In in He by lia. discriminate.
  - intros H. exists ValueError. rewrite (Out H). reflexivity.
  - exact Out.
  - exact In.
  - apply send_data_payload.
Qed.

(* ------------------------------------------------------------------ *)
(** ** RGB565 *)

Lemma lor_below_pow2 (a b n : Z) :
  0 <= a < 2 ^ n -> 0 <= b < 2 ^ n -> 0 <= Z.lor a b < 2 ^ n.
Proof.
  intros Ha Hb.
  assert (N : 0 <= Z.lor a b) by (apply Z.lor_nonneg; lia).
  split; [exact N|].
  destruct (Z.eq_dec (Z.lor a b) 0) as [E | E]; [lia|].
  destruct (Z.eq_dec a 0) as [A0 | A0]; [subst a; rewrite Z.lor_0_l; lia|].
  destruct (Z.eq_dec b 0) as [B0 | B0]; [subst b; rewrite Z.lor_0_r; lia|].
  apply Z.log2_lt_pow2; [lia|].
  rewrite Z.log2_lor by lia.
  assert (Z.log2 a < n) by (apply Z.log2_lt_pow2; lia).
  assert (Z.log2 b < n) by (apply Z.log2_lt_pow2; lia).
  lia.
Qed.

(** The red channel: five bits at positions 11..15. *)
Lemma red_bits (r : Z) :
  0 <= r <= 255 ->
  let a := Z.shiftl (Z.land r 0xF8) 8 in
  Z.land (Z.shiftr a 8) 0xF8 = Z.land r 0xF8 /\
  Z.land (Z.shiftr a 3) 0xFC = 0 /\
  Z.land (Z.shiftl a 3) 0xF8 = 0 /\
  Z.shiftl (Z.land (Z.land r 0xF8) 0xF8) 8 = a /\
  0 <= a < 65536.
Proof.
  intros H.
  pose proof (range_forallb 256
    (fun r => let a := Z.shiftl (Z.land r 0xF8) 8 in
              (Z.land (Z.shiftr a 8) 0xF8 =? Z.land r 0xF8)
              && (Z.land (Z.shiftr a 3) 0xFC =? 0)
              && (Z.land (Z.shiftl a 3) 0xF8 =? 0)
              && (Z.shiftl (Z.land (Z.land r 0xF8) 0xF8) 8 =? a)
              && (0 <=? a) && (a <? 65536))
    eq_refl r ltac:(lia)) as P.
  cbv zeta in P |- *.
  repeat (apply andb_true_iff in P; destruct P as [P ?]).
  repeat split;
    try (apply Z.eqb_eq; assumption);
    try (apply Z.leb_le; assumption);
    try (apply Z.ltb_lt; assumption).
Qed.

(** The green channel: six bits at positions 5..10. *)
Lemma green_bits (g : Z) :
  0 <= g <= 255 ->
  let a := Z.shiftl (Z.land g 0xFC) 3 in
  Z.land (Z.shiftr a 8) 0xF8 = 0 /\
  Z.land (Z.shiftr a 3) 0xFC = Z.land g 0xFC /\
  Z.land (Z.shiftl a 3) 0xF8 = 0 /\
  Z.shiftl (Z.land (Z.land g 0xFC) 0xFC) 3 = a /\
  0 <= a < 65536.
Proof.
  intros H.
  pose proof (range_forallb 256
    (fun g => let a := Z.shiftl (Z.land g 0xFC) 3 in
              (Z.land (Z.shiftr a 8) 0xF8 =? 0)
              && (Z.land (Z.shiftr a 3) 0xFC =? Z.land g 0xFC)
              && (Z.land (Z.shiftl a 3) 0xF8 =? 0)
              && (Z.shiftl (Z.land (Z.land g 0xFC) 0xFC) 3 =? a)
              && (0 <=? a) && (a <? 65536))
    eq_refl g ltac:(lia)) as P.
  cbv zeta in P |- *.
  repeat (apply andb_true_iff in P; destruct P as [P ?]).
  repeat split;
    try (apply Z.eqb_eq; assumption);
    try (apply Z.leb_le; assumption);
    try (apply Z.ltb_lt; assumption).
Qed.

(** The blue channel: five bits at positions 0..4. *)
Lemma blue_bits (b : Z) :
  0 <= b <= 255 ->
  let a := Z.shiftr b 3 in
  Z.land (Z.shiftr a 8) 0xF8 = 0 /\
  Z.land (Z.shiftr a 3) 0xFC = 0 /\
  Z.land (Z.shiftl a 3) 0xF8 = Z.land b 0xF8 /\
  Z.shiftr (Z.land b 0xF8) 3 = a /\
  0 <= a < 65536.
Proof.
  intros H.
  pose proof (range_forallb 256
    (fun b => let a := Z.shiftr b 3 in
              (Z.land (Z.shiftr a 8) 0xF8 =? 0)
              && (Z.land (Z.shiftr a 3) 0xFC =? 0)
              && (Z.land (Z.shiftl a 3) 0xF8 =? Z.land b 0xF8)
              && (Z.shiftr (Z.land b 0xF8) 3 =? a)
              && (0 <=? a) && (a <? 65536))
    eq_refl b ltac:(lia)) as P.
  cbv zeta in P |- *.
  repeat (apply andb_true_iff in P; destruct P as [P ?]).
  repeat split;
    try (apply Z.eqb_eq; assumption);
    try (apply Z.leb_le; assumption);
    try (apply Z.ltb_lt; assumption).
Qed.

(** C3.  For channels in 0..255, reading the top bits back from the
    RGB565 value gives [r & 0xF8], [g & 0xFC], [b & 0xF8]; encoding these
    again gives the same 16-bit value. *)
Theorem rgb565_roundtrip :
  forall r g b,
    0 <= r <= 255 -> 0 <= g <= 255 -> 0 <= b <= 255 ->
    decode565 (rgb565 r g b) = (Z.land r 0xF8, Z.land g 0xFC, Z.land b 0xF8) /\
    rgb565 (Z.land r 0xF8) (Z.land g 0xFC) (Z.land b 0xF8) = rgb565 r g b /\
    0 <= rgb565 r g b < 65536.
Proof.
  intros r g b Hr Hg Hb.
  destruct (red_bits r Hr) as [R1 [R2 [R3 [R4 R5]]]].
  destruct (green_bits g Hg) as [G1 [G2 [G3 [G4 G5]]]].
  destruct (blue_bits b Hb) as [B1 [B2 [B3 [B4 B5]]]].
  cbv zeta in *.
  repeat split.
  - unfold decode565, rgb565.
    rewrite !Z.shiftr_lor, !Z.shiftl_lor, !Z.land_lor_distr_l.
    rewrite R1, R2, R3, G1, G2, G3, B1, B2, B3.
    rewrite !Z.lor_0_r, !Z.lor_0_l. reflexivity.
  - unfold rgb565. rewrite R4, G4, B4. reflexivity.
  - unfold rgb565. apply Z.lor_nonneg. split; [apply Z.lor_nonneg|]; lia.
  - unfold rgb565. change 65536 with (2 ^ 16) in *.
    apply lor_below_pow2; [apply lor_below_pow2|]; assumption.
Qed.

Lemma rgb565_roundtrip_witness :
  decode565 (rgb565 255 130 7) = (Z.land 255 0xF8, Z.land 130 0xFC, Z.land 7 0xF8) /\
  rgb565 (Z.land 255 0xF8) (Z.land 130 0xFC) (Z.land 7 0xF8) = rgb565 255 130 7 /\
  0 <= rgb565 255 130 7 < 65536.
Proof.
  apply (rgb565_roundtrip 255 130 7); lia.
Defined.

(* ------------------------------------------------------------------ *)
(** ** Backlight *)

Arguments valid_dutycycle : simpl never.

Lemma valid_dutycycle_int (d : Z) :
  0 <= d <= 100 -> valid_dutycycle (inject_Z d) = true.
Proof.
  intros H. unfold valid_dutycycle. apply andb_true_iff. split.
  - apply Qle_bool_iff. change 0%Q with (inject_Z 0). rewrite <- Zle_Qle. lia.
  - apply Qle_bool_iff. change 100%Q with (inject_Z 100). rewrite <- Zle_Qle. lia.
Qed.

(** C8.  With the GPIO set up and a brightness in 0..100: in PWM mode
    (the PWM object exists already, or GPIO grants one, which is started at
    100), [set_backlight] ends by setting the duty cycle [100 - brightness],
    and that is the duty cycle the object then holds; in switch mode it
    writes the backlight line once, to the off level for brightness 0 and
    to the on level for any other brightness. *)
Theorem set_backlight_levels :
  forall brightness st,
    0 <= brightness <= 100 ->
    _gpio_initialized st = true ->
    (backlight_mode st = true ->
     backlight_pwm st <> None \/ gpio_pwm_granted st = true ->
     exists p,
       set_backlight brightness st =
         (Returned tt,
          with_backlight_pwm (Some p)
            (with_log
               (log st
                ++ match backlight_pwm st with
                   | None => [PwmStart LED_PIN 100]
                   | Some _ => []
                   end
                ++ [PwmChangeDutyCycle (pwm_channel p) (inject_Z (100 - brightness))])
               st)) /\
       pwm_dutycycle p = inject_Z (100 - brightness) /\
       pwm_channel p = match backlight_pwm st with
                       | None => LED_PIN
                       | Some p0 => pwm_channel p0
                       end) /\
    (backlight_mode st = false ->
     set_backlight brightness st =
       (Returned tt,
        with_log (log st ++ [GpioOutput LED_PIN
                               (if brightness =? 0 then BACKLIGHT_OFF
                                else BACKLIGHT_ON)])
                 st)).
Proof.
  intros b st Hb Hinit.
  assert (Hrange : (0 <=? b) && (b <=? 100) = true)
    by (apply andb_true_iff; rewrite !Z.leb_le; lia).
  assert (Hdc : valid_dutycycle (inject_Z (100 - b)) = true)
    by (apply valid_dutycycle_int; lia).
  destruct st as [gi bm bp rp gp blp cr cg cb w2 granted l].
  simpl in Hinit. subst gi. split.
  - simpl. intros Hmode Hpwm. subst bm.
    destruct bp as [p0|].
    + exists (mk_pwm (pwm_channel p0) (pwm_frequency p0) (inject_Z (100 - b))).
      unfold set_backlight, bind, get, try_except, attr, ret, modify,
        PWM_ChangeDutyCycle, emit.
      cbn -[Z.sub valid_dutycycle Z.leb].
      rewrite Hrange. cbn -[Z.sub valid_dutycycle Z.leb]. rewrite Hdc.
      repeat split.
    + destruct Hpwm as [Hpwm | Hpwm]; [congruence|]. subst granted.
      exists (mk_pwm LED_PIN 1000 (inject_Z (100 - b))).
      unfold set_backlight, bind, get, try_except, attr, ret, modify,
        GPIO_PWM, PWM_start, PWM_ChangeDutyCycle, emit.
      cbn -[Z.sub valid_dutycycle Z.leb].
      change (valid_dutycycle 100) with true.
      cbn -[Z.sub valid_dutycycle Z.leb].
      rewrite Hrange. cbn -[Z.sub valid_dutycycle Z.leb]. rewrite Hdc.
      cbn -[Z.sub]. rewrite <- app_assoc. repeat split.
  - simpl. intros Hmode. subst bm.
    unfold set_backlight, bind, get, try_except, GPIO_output, emit, modify. simpl.
    destruct (b =? 0); reflexivity.
Qed.

Lemma set_backlight_levels_witness :
  (exists p,
      set_backlight 30 board_ready =
        (Returned tt,
         with_backlight_pwm (Some p)
           (with_log
              (log board_ready
               ++ match backlight_pwm board_ready with
                  | None => [PwmStart LED_PIN 100]
                  | Some _ => []
                  end
               ++ [PwmChangeDutyCycle (pwm_channel p) (inject_Z (100 - 30))])
              board_ready)) /\
      pwm_dutycycle p = inject_Z (100 - 30) /\
      pwm_channel p = match backlight_pwm board_ready with
                      | None => LED_PIN
                      | Some p0 => pwm_channel p0
                      end) /\
  set_backlight 0 board_switch =
    (Returned tt,
     with_log (log board_switch ++ [GpioOutput LED_PIN BACKLIGHT_OFF])
              board_switch).
Proof.
  split.
  - apply (proj1 (set_backlight_levels 30 board_ready ltac:(lia) eq_refl)).
    + reflexivity.
    + right. reflexivity.
  - apply (proj2 (set_backlight_levels 0 board_switch ltac:(lia) eq_refl)).
    reflexivity.
Defined.

(* ------------------------------------------------------------------ *)
(** ** RGB indicator: the duty cycle of a channel value *)

Arguments duty : simpl never.

(** The division by 255 either overflows or the formula applies. *)
Lemma channel_duty_cases (v : Z) :
  channel_duty v = Raised OverflowError \/
  channel_duty v = Returned (duty_formula v).
Proof.
  unfold channel_duty, PyFloat.int_truediv.
  change (255 =? 0) with false. cbv iota zeta.
  destruct (PyFloat.overflows _); [left | right]; reflexivity.
Qed.

(** A larger channel value never gets a larger duty cycle. *)
Lemma duty_antitone (v w : Z) : v <= w -> (duty_formula w <= duty_formula v)%Q.
Proof.
  intros H. unfold duty_formula.
  apply PyFloatFacts.rnd_mono.
  assert (Q1 : (inject_Z v / 255 <= inject_Z w / 255)%Q).
  { apply Qmult_le_compat_r; [rewrite <- Zle_Qle; exact H | discriminate]. }
  apply PyFloatFacts.rnd_mono in Q1.
  assert (P100 : (0 <= PyFloat.rnd 100)%Q) by (apply PyFloatFacts.rnd_nonneg; discriminate).
  assert (Q2 : (PyFloat.rnd (inject_Z v / 255) * PyFloat.rnd 100
                <= PyFloat.rnd (inject_Z w / 255) * PyFloat.rnd 100)%Q)
    by (apply Qmult_le_compat_r; assumption).
  apply PyFloatFacts.rnd_mono in Q2.
  lra.
Qed.

(** The PWM objects accept the formula exactly on the channel values
    0..255. *)
Lemma valid_formula_iff (v : Z) :
  valid_dutycycle (duty_formula v) = true <-> 0 <= v <= 255.
Proof.
  unfold valid_dutycycle. rewrite andb_true_iff, !Qle_bool_iff.
  split.
  - intros [Lo Hi].
    destruct (Z_lt_le_dec v 0) as [N | N].
    + exfalso. pose proof (duty_antitone v (-1) ltac:(lia)) as A.
      assert (B : (100 < duty_formula (-1))%Q) by (vm_compute; reflexivity).
      lra.
    + destruct (Z_lt_le_dec 255 v) as [G | G]; [|lia].
      exfalso. pose proof (duty_antitone 256 v ltac:(lia)) as A.
      assert (B : (duty_formula 256 < 0)%Q) by (vm_compute; reflexivity).
      lra.
  - intros [Lo Hi].
    pose proof (duty_antitone 0 v Lo) as A.
    pose proof (duty_antitone v 255 Hi) as B.
    assert (C : duty_formula 0 = 100%Q) by (vm_compute; reflexivity).
    assert (D : duty_formula 255 = 0%Q) by (vm_compute; reflexivity).
    rewrite C in A. rewrite D in B. split; assumption.
Qed.

(** On the channel values the division does not overflow. *)
Lemma channel_duty_byte (v : Z) :
  0 <= v <= 255 -> channel_duty v = Returned (duty_formula v).
Proof.
  intros H.
  pose proof (range_forallb 256
                (fun v => negb (PyFloat.overflows
                                  (PyFloat.rnd (inject_Z v / inject_Z 255))))
                ltac:(vm_compute; reflexivity) v ltac:(lia)) as B.
  cbv beta in B. apply negb_true_iff in B.
  unfold channel_duty, PyFloat.int_truediv.
  change (255 =? 0) with false. cbv iota zeta.
  rewrite B. reflexivity.
Qed.

Lemma duty_byte (v : Z) : 0 <= v <= 255 -> duty v = duty_formula v.
Proof. intros H. unfold duty. rewrite (channel_duty_byte v H). reflexivity. Qed.

Lemma channel_duty_duty (v : Z) :
  0 <= v <= 255 -> channel_duty v = Returned (duty v).
Proof.
  intros H. rewrite (duty_byte v H). apply channel_duty_byte, H.
Qed.

Lemma valid_duty_byte (v : Z) :
  0 <= v <= 255 -> valid_dutycycle (duty v) = true.
Proof.
  intros H. rewrite (duty_byte v H). apply valid_formula_iff, H.
Qed.

(** No duty-cycle error: exactly the channel values 0..255. *)
Lemma no_duty_error_iff (v : Z) : no_duty_error v <-> 0 <= v <= 255.
Proof.
  split.
  - intros [d [E V]].
    destruct (channel_duty_cases v) as [C | C]; rewrite C in E; [discriminate|].
    injection E as <-. apply valid_formula_iff, V.
  - intros H. exists (duty v). split;
      [apply channel_duty_duty, H | apply valid_duty_byte, H].
Qed.

(* ------------------------------------------------------------------ *)
(** ** RGB indicator: [set_rgb] *)

Ltac board_simpl :=
  cbn [with_log with_backlight_pwm with_red_pwm with_green_pwm with_blue_pwm
       with_current _gpio_initialized backlight_mode backlight_pwm red_pwm
       green_pwm blue_pwm _current_r _current_g _current_b
       spi_has_writebytes2 gpio_pwm_granted log] in *.

Lemma PWM_ChangeDutyCycle_accepts (p : pwm) (dc : Q) (s : board) :
  valid_dutycycle dc = true ->
  PWM_ChangeDutyCycle p dc s =
    (Returned (set_dutycycle p dc),
     with_log (log s ++ [PwmChangeDutyCycle (pwm_channel p) dc]) s).
Proof.
  intros V. unfold PWM_ChangeDutyCycle. rewrite V. reflexivity.
Qed.

Lemma set_rgb_accepted (r g b : Z) (st : board) (rp gp bp : pwm) :
  red_pwm st = Some rp -> green_pwm st = Some gp -> blue_pwm st = Some bp ->
  0 <= r <= 255 -> 0 <= g <= 255 -> 0 <= b <= 255 ->
  set_rgb r g b st = (Returned tt, rgb_applied r g b rp gp bp st).
Proof.
  intros Hr Hg Hb Rr Rg Rb.
  pose proof (valid_duty_byte r Rr) as Vr.
  pose proof (valid_duty_byte g Rg) as Vg.
  pose proof (valid_duty_byte b Rb) as Vb.
  destruct st as [gi bm blp rp0 gp0 bp0 cr cg cb w2 granted l].
  board_simpl. subst rp0 gp0 bp0.
  unfold set_rgb. unfold bind at 1. unfold get. board_simpl.
  unfold try_except.
  unfold bind at 1. unfold lift at 1. rewrite (channel_duty_duty r Rr).
  unfold bind at 1. rewrite (PWM_ChangeDutyCycle_accepts rp (duty r) _ Vr).
  board_simpl.
  unfold bind at 1. unfold modify at 1. board_simpl.
  unfold bind at 1. unfold lift at 1. rewrite (channel_duty_duty g Rg).
  unfold bind at 1. rewrite (PWM_ChangeDutyCycle_accepts gp (duty g) _ Vg).
  board_simpl.
  unfold bind at 1. unfold modify at 1. board_simpl.
  unfold bind at 1. unfold lift at 1. rewrite (channel_duty_duty b Rb).
  unfold bind at 1. rewrite (PWM_ChangeDutyCycle_accepts bp (duty b) _ Vb).
  board_simpl.
  unfold bind at 1. unfold modify at 1. board_simpl.
  unfold modify. board_simpl.
  unfold rgb_applied. board_simpl.
  rewrite <- !app_assoc. reflexivity.
Qed.

Lemma set_rgb_absent (r g b : Z) (st : board) :
  red_pwm st = None \/ green_pwm st = None \/ blue_pwm st = None ->
  set_rgb r g b st = (Returned tt, st).
Proof.
  intros H. unfold set_rgb, bind, get.
  destruct (red_pwm st), (green_pwm st), (blue_pwm st);
    try reflexivity; destruct H as [H | [H | H]]; discriminate.
Qed.

(* ------------------------------------------------------------------ *)
(** ** RGB indicator: the loop of [set_rgb_fade] *)

Lemma clamp255_range (v : Z) : 0 <= clamp255 v <= 255.
Proof. unfold clamp255. lia. Qed.

Lemma clamp255_valid (v : Z) : valid_dutycycle (duty (clamp255 v)) = true.
Proof. exact (valid_duty_byte (clamp255 v) (clamp255_range v)). Qed.

Lemma fade_iteration_run (rs gs bs delay : PyFloat.float) (secs : Q) (i : Z)
      (st : board) (rp gp bp : pwm) (cr cg cb : Z) :
  red_pwm st = Some rp -> green_pwm st = Some gp -> blue_pwm st = Some bp ->
  _current_r st = Some cr -> _current_g st = Some cg -> _current_b st = Some cb ->
  PyFloat.truediv delay (PyFloat.of_int 1000) = Returned secs ->
  sleep_overflows secs = false ->
  Qle_bool 0 secs = true ->
  fade_iteration rs gs bs delay i st =
    (Returned tt,
     let st1 := rgb_applied (clamp255 (interim cr i rs))
                            (clamp255 (interim cg i gs))
                            (clamp255 (interim cb i bs)) rp gp bp st in
     with_log (log st1 ++ [Sleep secs]) st1).
Proof.
  intros Hr Hg Hb Cr Cg Cb Hs Ho Hp.
  unfold fade_iteration, bind, get. rewrite Cr, Cg, Cb.
  unfold attr, ret.
  rewrite (set_rgb_accepted _ _ _ st rp gp bp Hr Hg Hb
             (clamp255_range _) (clamp255_range _) (clamp255_range _)).
  unfold lift. rewrite Hs. unfold time_sleep. rewrite Ho, Hp. reflexivity.
Qed.

Lemma running_samples_last (steps : PyFloat.float * PyFloat.float * PyFloat.float)
      (indices : list Z) :
  forall cur i,
    last (running_samples steps cur (i :: indices)) cur =
    let '(rs, gs, bs) := steps in
    let '(cr, cg, cb) := cur in
    let sample := (clamp255 (interim cr i rs), clamp255 (interim cg i gs),
                   clamp255 (interim cb i bs)) in
    last (running_samples steps sample indices) sample.
Proof.
  intros [[cr cg] cb] i. destruct steps as [[rs gs] bs].
  cbn [running_samples]. cbv zeta.
  destruct indices as [|j rest]; [reflexivity|].
  set (sample := (clamp255 (interim cr i rs), clamp255 (interim cg i gs),
                  clamp255 (interim cb i bs))).
  generalize (running_samples (rs, gs, bs) sample (j :: rest)).
  intros l. revert sample. 
  assert (G : forall (l : list (Z * Z * Z)) a d d', l <> [] -> last (a :: l) d = last l d').
  { clear. induction l as [|x l IH]; intros a d d' N; [congruence|].
    destruct l as [|y l]; [reflexivity|].
    change (last (a :: x :: y :: l) d) with (last (x :: y :: l) d).
    change (last (x :: y :: l) d') with (last (y :: l) d').
    apply IH. discriminate. }
  intros sample. destruct l as [|x l]; [reflexivity|].
  apply G. discriminate.
Qed.

Lemma stored_fields (s : board) (cr cg cb : Z) :
  stored s = Some (cr, cg, cb) ->
  _current_r s = Some cr /\ _current_g s = Some cg /\ _current_b s = Some cb.
Proof.
  unfold stored.
  destruct (_current_r s), (_current_g s), (_current_b s); try discriminate.
  intros E. injection E as -> -> ->. repeat split.
Qed.

(** The loop invariant: with the three PWM objects in place, every
    iteration is accepted, leaves the sample in the stored values and adds
    its four events to the log. *)
Lemma fade_loop (rs gs bs delay : PyFloat.float) (secs : Q) :
  PyFloat.truediv delay (PyFloat.of_int 1000) = Returned secs ->
  sleep_overflows secs = false ->
  Qle_bool 0 secs = true ->
  forall indices st cur,
    rgb_ready st -> stored st = Some cur ->
    exists st',
      for_each indices (fade_iteration rs gs bs delay) st = (Returned tt, st') /\
      rgb_ready st' /\
      stored st' = Some (last (running_samples (rs, gs, bs) cur indices) cur) /\
      log st' = log st ++ flat_map (sample_events secs)
                                   (running_samples (rs, gs, bs) cur indices).
Proof.
  intros Hs Ho Hp. induction indices as [|i rest IH]; intros st cur Hready Hcur.
  - exists st. split; [reflexivity|]. split; [assumption|].
    split; [assumption|]. simpl. symmetry. apply app_nil_r.
  - destruct cur as [[cr cg] cb].
    destruct (stored_fields _ _ _ _ Hcur) as [Cr [Cg Cb]].
    destruct Hready as [[dr Hr] [[dg Hg] [db Hb]]].
    pose proof (fade_iteration_run rs gs bs delay secs i st _ _ _ cr cg cb
                  Hr Hg Hb Cr Cg Cb Hs Ho Hp) as Run.
    cbv zeta in Run.
    set (r := clamp255 (interim cr i rs)) in *.
    set (g := clamp255 (interim cg i gs)) in *.
    set (b := clamp255 (interim cb i bs)) in *.
    set (st1 := rgb_applied r g b (mk_pwm RED_PIN 100 dr)
                            (mk_pwm GREEN_PIN 100 dg) (mk_pwm BLUE_PIN 100 db) st) in *.
    set (st2 := with_log (log st1 ++ [Sleep secs]) st1) in *.
    assert (Hready2 : rgb_ready st2).
    { unfold rgb_ready, st2, st1, rgb_applied, set_dutycycle. board_simpl.
      repeat split; eexists; reflexivity. }
    assert (Hcur2 : stored st2 = Some (r, g, b)) by reflexivity.
    destruct (IH st2 (r, g, b) Hready2 Hcur2) as [st' [Run' [Hready' [Hcur' Hlog']]]].
    exists st'. split; [|split; [|split]].
    + cbn [for_each]. unfold bind. rewrite Run. exact Run'.
    + exact Hready'.
    + rewrite running_samples_last. exact Hcur'.
    + rewrite Hlog'. cbn [running_samples flat_map]. fold r g b.
      unfold st2, st1, rgb_applied. board_simpl.
      unfold sample_events. cbn [pwm_channel].
      rewrite <- !app_assoc. reflexivity.
Qed.

(** The pause grows with the duration. *)
Lemma fade_pause_mono (d d' : Z) :
  d <= d' -> (fade_pause d <= fade_pause d')%Q.
Proof.
  intros H. unfold fade_pause.
  apply PyFloatFacts.rnd_mono.
  assert (B : PyFloat.of_int 1000 = 1000%Q) by (vm_compute; reflexivity).
  rewrite B.
  apply Qmult_le_compat_r; [|discriminate].
  apply PyFloatFacts.rnd_mono.
  apply Qmult_le_compat_r; [rewrite <- Zle_Qle; exact H | discriminate].
Qed.

Lemma sleep_overflows_false (x : Q) :
  sleep_overflows x = false <->
  (- PyFloat.pow2 63 <= PyFloat.rnd (x * PyFloat.of_int (10 ^ 9)) /\
   PyFloat.rnd (x * PyFloat.of_int (10 ^ 9)) < PyFloat.pow2 63)%Q.
Proof.
  unfold sleep_overflows, PyFloat.mul. cbv zeta.
  rewrite negb_false_iff, andb_true_iff, negb_true_iff, Qle_bool_iff.
  split; intros [L U]; (split; [exact L|]).
  - apply Qnot_le_lt. intros C. apply Qle_bool_iff in C. congruence.
  - destruct (Qle_bool _ _) eqn:B; [|reflexivity].
    apply Qle_bool_iff in B. exfalso. apply (Qlt_not_le _ _ U B).
Qed.

Lemma nanoseconds_mono (x y : Q) :
  (x <= y)%Q ->
  (PyFloat.rnd (x * PyFloat.of_int (10 ^ 9))
   <= PyFloat.rnd (y * PyFloat.of_int (10 ^ 9)))%Q.
Proof.
  intros H.
  assert (P : (0 <= PyFloat.of_int (10 ^ 9))%Q) by (vm_compute; discriminate).
  apply PyFloatFacts.rnd_mono, Qmult_le_compat_r; assumption.
Qed.

Lemma sleep_fits (lo hi x : Q) :
  (lo <= x <= hi)%Q ->
  sleep_overflows lo = false -> sleep_overflows hi = false ->
  sleep_overflows x = false.
Proof.
  intros [L U] Hlo Hhi.
  apply sleep_overflows_false in Hlo, Hhi. apply sleep_overflows_false.
  pose proof (nanoseconds_mono _ _ L) as L'.
  pose proof (nanoseconds_mono _ _ U) as U'.
  destruct Hlo as [Hlo _]. destruct Hhi as [_ Hhi].
  split; [eapply Qle_trans; [exact Hlo | exact L']
         | eapply Qle_lt_trans; [exact U' | exact Hhi]].
Qed.

(** A pause below one that overflows on the negative side overflows. *)
Lemma sleep_below (x lo : Q) :
  (x <= lo)%Q ->
  (PyFloat.rnd (lo * PyFloat.of_int (10 ^ 9)) < - PyFloat.pow2 63)%Q ->
  sleep_overflows x = true.
Proof.
  intros L Hlo.
  destruct (sleep_overflows x) eqn:B; [reflexivity|].
  apply sleep_overflows_false in B. destruct B as [B _].
  pose proof (nanoseconds_mono _ _ L) as L'.
  exfalso. apply (Qlt_not_le _ _ Hlo). eapply Qle_trans; eassumption.
Qed.

(** The pause of a fade: [duration_ms / 20 / 1000.0], taken by
    [time.sleep] for the durations up to [MAX_DURATION_MS]. *)
Lemma fade_pause_run (duration_ms : Z) :
  0 <= duration_ms <= MAX_DURATION_MS ->
  PyFloat.int_truediv duration_ms 20
  = Returned (PyFloat.rnd (inject_Z duration_ms / inject_Z 20)) /\
  PyFloat.truediv (PyFloat.rnd (inject_Z duration_ms / inject_Z 20))
                  (PyFloat.of_int 1000) = Returned (fade_pause duration_ms) /\
  sleep_overflows (fade_pause duration_ms) = false /\
  Qle_bool 0 (fade_pause duration_ms) = true.
Proof.
  intros H.
  assert (Z0 : fade_pause 0 = 0%Q) by (vm_compute; reflexivity).
  pose proof (fade_pause_mono 0 duration_ms ltac:(lia)) as Lo.
  pose proof (fade_pause_mono duration_ms MAX_DURATION_MS ltac:(lia)) as Hi.
  split; [|split; [|split]].
  - apply int_truediv_returns; [lia|].
    assert (MAX_DURATION_MS <= 2 ^ 1001) by (vm_compute; discriminate). lia.
  - unfold PyFloat.truediv.
    assert (E : Qeq_bool (PyFloat.of_int 1000) 0 = false) by (vm_compute; reflexivity).
    rewrite E. reflexivity.
  - apply (sleep_fits (fade_pause 0) (fade_pause MAX_DURATION_MS));
      [split; assumption | vm_compute; reflexivity | vm_compute; reflexivity].
  - apply Qle_bool_iff. rewrite <- Z0. exact Lo.
Qed.

Lemma finite_difference (t c : Z) :
  finite_int t -> finite_int c -> Z.abs (t - c) <= 2 ^ 1001.
Proof.
  unfold finite_int. change (2 ^ 1001) with (2 * 2 ^ 1000).
  generalize (2 ^ 1000). intros K Ht Hc. lia.
Qed.

(** What [set_rgb_fade] does on a board whose indicator is set up: 21
    samples, each computed from the values the previous one stored. *)
Lemma set_rgb_fade_run (r_target g_target b_target duration_ms : Z)
      (st : board) (cr cg cb : Z) :
  rgb_ready st -> stored st = Some (cr, cg, cb) ->
  finite_int cr -> finite_int cg -> finite_int cb ->
  finite_int r_target -> finite_int g_target -> finite_int b_target ->
  0 <= duration_ms <= MAX_DURATION_MS ->
  let samples :=
    running_samples (fade_step r_target cr, fade_step g_target cg,
                     fade_step b_target cb) (cr, cg, cb) (range 21) in
  exists st',
    set_rgb_fade r_target g_target b_target duration_ms st = (Returned tt, st') /\
    rgb_ready st' /\
    stored st' = Some (last samples (cr, cg, cb)) /\
    log st' = log st ++ flat_map (sample_events (fade_pause duration_ms)) samples.
Proof.
  intros Hready Hcur Fr Fg Fb Ftr Ftg Ftb Hd samples.
  destruct (stored_fields _ _ _ _ Hcur) as [Cr [Cg Cb]].
  destruct (fade_pause_run duration_ms Hd) as [Hdiv [Hs [Ho Hp]]].
  destruct (fade_loop (fade_step r_target cr) (fade_step g_target cg)
                      (fade_step b_target cb) _ _ Hs Ho Hp
                      (range 21) st (cr, cg, cb) Hready Hcur)
    as [st' [Run [Hready' [Hcur' Hlog']]]].
  exists st'. split; [|split; [|split]]; try eassumption.
  unfold set_rgb_fade. cbv zeta.
  unfold bind at 1. unfold lift at 1. rewrite Hdiv.
  unfold bind at 1. unfold get.
  unfold bind at 1. rewrite Cr. unfold attr at 1. unfold ret at 1.
  unfold bind at 1. unfold lift at 1.
  rewrite (int_truediv_returns (r_target - cr) 20 eq_refl
             (finite_difference _ _ Ftr Fr)).
  unfold bind at 1. rewrite Cg. unfold attr at 1. unfold ret at 1.
  unfold bind at 1. unfold lift at 1.
  rewrite (int_truediv_returns (g_target - cg) 20 eq_refl
             (finite_difference _ _ Ftg Fg)).
  unfold bind at 1. rewrite Cb. unfold attr at 1. unfold ret at 1.
  unfold bind at 1. unfold lift at 1.
  rewrite (int_truediv_returns (b_target - cb) 20 eq_refl
             (finite_difference _ _ Ftb Fb)).
  exact Run.
Qed.

(** Channel values and short durations are within all these bounds. *)
Lemma channel_finite (v : Z) : 0 <= v <= 255 -> finite_int v.
Proof.
  intros H. unfold finite_int.
  assert (256 < 2 ^ 1000) by reflexivity. lia.
Qed.

Lemma short_duration : 0 <= 100 <= MAX_DURATION_MS.
Proof. split; discriminate. Qed.

(** The duty cycles of the channel values 0..255 are pairwise distinct: a
    duty cycle in the log names one channel value. *)
Lemma channel_of_duty_duty (v : Z) :
  0 <= v <= 255 -> channel_of_duty (duty v) = v.
Proof.
  intros H.
  apply Z.eqb_eq.
  apply (range_forallb 256 (fun v => channel_of_duty (duty v) =? v)); [|lia].
  vm_compute. reflexivity.
Qed.

Lemma interim_zero (c : Z) (step : PyFloat.float) :
  0 <= c <= 255 -> interim c 0 step = c.
Proof.
  intros H. unfold interim, PyFloat.add, PyFloat.mul.
  assert (Z0 : PyFloat.rnd (PyFloat.of_int 0 * step) = 0%Q).
  { apply PyFloatFacts.rnd_zero.
    assert (E : PyFloat.of_int 0 = 0%Q) by (vm_compute; reflexivity).
    rewrite E. ring. }
  rewrite Z0.
  rewrite (PyFloatFacts.rnd_comp (PyFloat.of_int c + 0) (PyFloat.of_int c))
    by ring.
  apply Z.eqb_eq.
  apply (range_forallb 256
           (fun c => PyFloat.to_int (PyFloat.rnd (PyFloat.of_int c)) =? c));
    [|lia].
  vm_compute. reflexivity.
Qed.

Lemma clamp255_id (v : Z) : 0 <= v <= 255 -> clamp255 v = v.
Proof. unfold clamp255. lia. Qed.

(** Sample 0 of a fade is the stored values themselves. *)
Lemma running_samples_head (steps : PyFloat.float * PyFloat.float * PyFloat.float)
      (r g b : Z) (rest : list Z) :
  0 <= r <= 255 -> 0 <= g <= 255 -> 0 <= b <= 255 ->
  hd_error (running_samples steps (r, g, b) (0 :: rest)) = Some (r, g, b).
Proof.
  intros Hr Hg Hb. destruct steps as [[rs gs] bs].
  cbn [running_samples hd_error].
  rewrite !interim_zero, !clamp255_id by assumption. reflexivity.
Qed.

(* ------------------------------------------------------------------ *)
(** ** RGB indicator: the claims *)

(** C9.  On a board whose three PWM objects are in place, a [set_rgb(r, g,
    b)] that raises no duty-cycle error returns with the stored values equal
    to [(r, g, b)], and a fade that follows takes its steps
    [(target - stored) / 20] and its first sample from these values; the
    fade is followed to its end for the targets below [2^1000] in
    magnitude and the durations from 0 to [MAX_DURATION_MS]; these bounds
    keep clear of the OverflowError that Python's division raises on
    integers beyond the floats and [time.sleep] on a pause of [2^63]
    nanoseconds or more.  When a PWM
    object is missing, [set_rgb] returns at once and leaves the board,
    stored values included, as it was. *)
Theorem set_rgb_stores :
  forall r g b st,
    (rgb_ready st ->
     no_duty_error r -> no_duty_error g -> no_duty_error b ->
     exists st',
       set_rgb r g b st = (Returned tt, st') /\
       stored st' = Some (r, g, b) /\
       _current_r st' = Some r /\ _current_g st' = Some g /\
       _current_b st' = Some b /\
       forall r_target g_target b_target duration_ms,
         finite_int r_target -> finite_int g_target -> finite_int b_target ->
         0 <= duration_ms <= MAX_DURATION_MS ->
         let samples :=
           running_samples (fade_step r_target r, fade_step g_target g,
                            fade_step b_target b) (r, g, b) (range 21) in
         hd_error samples = Some (r, g, b) /\
         exists st'',
           set_rgb_fade r_target g_target b_target duration_ms st'
             = (Returned tt, st'') /\
           log st'' = log st' ++ flat_map (sample_events (fade_pause duration_ms))
                                          samples) /\
    (red_pwm st = None \/ green_pwm st = None \/ blue_pwm st = None ->
     set_rgb r g b st = (Returned tt, st) /\
     stored (snd (set_rgb r g b st)) = stored st).
Proof.
  intros r g b st. split.
  - intros Hready Vr Vg Vb.
    apply no_duty_error_iff in Vr, Vg, Vb.
    pose proof Hready as [[dr Hr] [[dg Hg] [db Hb]]].
    exists (rgb_applied r g b (mk_pwm RED_PIN 100 dr) (mk_pwm GREEN_PIN 100 dg)
                        (mk_pwm BLUE_PIN 100 db) st).
    split; [apply set_rgb_accepted; assumption|].
    split; [reflexivity|]. split; [reflexivity|].
    split; [reflexivity|]. split; [reflexivity|].
    intros rt gt bt d Frt Fgt Fbt Hd samples.
    split.
    + apply running_samples_head; assumption.
    + assert (Hready' : rgb_ready (rgb_applied r g b (mk_pwm RED_PIN 100 dr)
                                     (mk_pwm GREEN_PIN 100 dg)
                                     (mk_pwm BLUE_PIN 100 db) st)).
      { unfold rgb_ready, rgb_applied, set_dutycycle. board_simpl.
        repeat split; eexists; reflexivity. }
      destruct (set_rgb_fade_run rt gt bt d _ r g b Hready' eq_refl
                  (channel_finite r Vr) (channel_finite g Vg)
                  (channel_finite b Vb) Frt Fgt Fbt Hd)
        as [st'' [Run [_ [_ Hlog]]]].
      exists st''. split; assumption.
  - intros Habs. rewrite (set_rgb_absent r g b st Habs). split; reflexivity.
Qed.

Lemma set_rgb_stores_witness :
  (exists st',
      set_rgb 255 128 0 board_ready = (Returned tt, st') /\
      stored st' = Some (255, 128, 0) /\
      _current_r st' = Some 255 /\ _current_g st' = Some 128 /\
      _current_b st' = Some 0 /\
      forall r_target g_target b_target duration_ms,
        finite_int r_target -> finite_int g_target -> finite_int b_target ->
        0 <= duration_ms <= MAX_DURATION_MS ->
        let samples :=
          running_samples (fade_step r_target 255, fade_step g_target 128,
                           fade_step b_target 0) (255, 128, 0) (range 21) in
        hd_error samples = Some (255, 128, 0) /\
        exists st'',
          set_rgb_fade r_target g_target b_target duration_ms st'
            = (Returned tt, st'') /\
          log st'' = log st' ++ flat_map (sample_events (fade_pause duration_ms))
                                         samples) /\
  (set_rgb 255 128 0 board_no_rgb = (Returned tt, board_no_rgb) /\
   stored (snd (set_rgb 255 128 0 board_no_rgb)) = stored board_no_rgb).
Proof.
  split.
  - apply (proj1 (set_rgb_stores 255 128 0 board_ready)).
    + unfold rgb_ready, board_ready. cbn.
      repeat split; eexists; reflexivity.
    + eexists. split; vm_compute; reflexivity.
    + eexists. split; vm_compute; reflexivity.
    + eexists. split; vm_compute; reflexivity.
  - apply (proj2 (set_rgb_stores 255 128 0 board_no_rgb)).
    left. reflexivity.
Defined.

(** C7.  From stored values (0, 0, 0), [set_rgb_fade(255, 255, 255, 100)]
    applies 21 samples, one per loop index 0..20; their channel values are
    0, 12, 37, 75, 126, 189 and then 255 fifteen times, the same on the
    three channels: a non-decreasing sequence that ends at (255, 255, 255),
    which is also what the board then stores. *)
Theorem fade_black_to_white :
  forall st,
    rgb_ready st -> stored st = Some (0, 0, 0) ->
    exists st',
      set_rgb_fade 255 255 255 100 st = (Returned tt, st') /\
      log st' = log st ++ flat_map (sample_events (fade_pause 100))
                                   (map gray fade_0_255) /\
      length (map gray fade_0_255) = length (range (20 + 1)) /\
      length fade_0_255 = 21%nat /\
      nondecreasing fade_0_255 /\
      last (map gray fade_0_255) (0, 0, 0) = (255, 255, 255) /\
      stored st' = Some (255, 255, 255).
Proof.
  intros st Hready Hcur.
  destruct (set_rgb_fade_run 255 255 255 100 st 0 0 0 Hready Hcur
              (channel_finite 0 ltac:(lia)) (channel_finite 0 ltac:(lia))
              (channel_finite 0 ltac:(lia)) (channel_finite 255 ltac:(lia))
              (channel_finite 255 ltac:(lia)) (channel_finite 255 ltac:(lia))
              short_duration)
    as [st' [Run [_ [Hst Hlog]]]].
  assert (E : running_samples (fade_step 255 0, fade_step 255 0, fade_step 255 0)
                              (0, 0, 0) (range 21) = map gray fade_0_255)
    by (vm_compute; reflexivity).
  rewrite E in Hst, Hlog.
  exists st'. split; [exact Run|]. split; [exact Hlog|].
  split; [reflexivity|]. split; [reflexivity|].
  split; [cbn; lia|]. split; [reflexivity|].
  exact Hst.
Qed.

Lemma fade_black_to_white_witness :
  exists st',
    set_rgb_fade 255 255 255 100 board_ready = (Returned tt, st') /\
    log st' = log board_ready ++ flat_map (sample_events (fade_pause 100))
                                          (map gray fade_0_255) /\
    length (map gray fade_0_255) = length (range (20 + 1)) /\
    length fade_0_255 = 21%nat /\
    nondecreasing fade_0_255 /\
    last (map gray fade_0_255) (0, 0, 0) = (255, 255, 255) /\
    stored st' = Some (255, 255, 255).
Proof.
  apply (fade_black_to_white board_ready).
  - unfold rgb_ready, board_ready. cbn. repeat split; eexists; reflexivity.
  - reflexivity.
Defined.

(** C6, where the code departs from it.  The loop adds [i * step] to the
    values stored by the previous sample, not to the values stored when
    the fade started.  From (0, 0, 0) to (100, 100, 100) the samples are
    0, 5, 15, 30, 50, 75, 105, 140, 180, 225, then 255 eleven times; linear
    interpolation from the start gives 0, 5, 10, ..., 100.  The fade ends
    with (255, 255, 255) stored, not the target. *)
Theorem set_rgb_fade_accumulates :
  exists st',
    set_rgb_fade 100 100 100 100 board_ready = (Returned tt, st') /\
    log st' = flat_map (sample_events (fade_pause 100)) (map gray fade_0_100) /\
    pwm_writes RED_PIN (log st') = map duty fade_0_100 /\
    linear_fade 0 100 =
      [0; 5; 10; 15; 20; 25; 30; 35; 40; 45; 50;
       55; 60; 65; 70; 75; 80; 85; 90; 95; 100] /\
    fade_0_100 <> linear_fade 0 100 /\
    stored st' = Some (255, 255, 255).
Proof.
  assert (Hready : rgb_ready board_ready).
  { unfold rgb_ready, board_ready. cbn. repeat split; eexists; reflexivity. }
  destruct (set_rgb_fade_run 100 100 100 100 board_ready 0 0 0 Hready eq_refl
              (channel_finite 0 ltac:(lia)) (channel_finite 0 ltac:(lia))
              (channel_finite 0 ltac:(lia)) (channel_finite 100 ltac:(lia))
              (channel_finite 100 ltac:(lia)) (channel_finite 100 ltac:(lia))
              short_duration)
    as [st' [Run [_ [Hst Hlog]]]].
  assert (E : running_samples (fade_step 100 0, fade_step 100 0, fade_step 100 0)
                              (0, 0, 0) (range 21) = map gray fade_0_100)
    by (vm_compute; reflexivity).
  rewrite E in Hst, Hlog. cbn [log board_ready app] in Hlog.
  exists st'. split; [exact Run|]. split; [exact Hlog|].
  split; [rewrite Hlog; vm_compute; reflexivity|].
  split; [vm_compute; reflexivity|].
  split; [vm_compute; discriminate|].
  exact Hst.
Qed.

(* ------------------------------------------------------------------ *)
(** ** Render pipeline: the arithmetic of [fit] *)

Lemma to_int_ge (x : Q) (n : Z) :
  0 <= n -> (inject_Z n <= x)%Q -> n <= PyFloat.to_int x.
Proof.
  intros Hn H. destruct x as [a b]. unfold PyFloat.to_int. cbn [Qnum Qden].
  unfold Qle in H. cbn [Qnum Qden inject_Z] in H.
  assert (Ha : 0 <= a) by nia.
  rewrite Z.quot_div_nonneg by lia.
  apply Z.div_le_lower_bound; lia.
Qed.

Lemma int_truediv_aspect (w h : Z) :
  0 < h -> Z.abs w < 2 ^ 31 ->
  PyFloat.int_truediv w h = Returned (aspect w h).
Proof.
  intros Hh Hw. apply int_truediv_returns; [exact Hh|].
  assert (2 ^ 31 <= 2 ^ 1001) by (vm_compute; discriminate). lia.
Qed.

Lemma inject_Z_pos (z : Z) : 0 < z -> (0 < inject_Z z)%Q.
Proof. intros H. change 0%Q with (inject_Z 0). rewrite <- Zlt_Qlt. exact H. Qed.

(** For sizes PIL can hold the quotient does not underflow. *)
Lemma aspect_positive (w h : Z) :
  0 < w -> 0 < h < 2 ^ 31 -> (0 < aspect w h)%Q.
Proof.
  intros Hw Hh. unfold aspect.
  assert (L : (1 # 2147483648 <= inject_Z w / inject_Z h)%Q).
  { apply Qle_shift_div_l; [apply inject_Z_pos; lia|].
    unfold Qle, Qmult, inject_Z. cbn [Qnum Qden]. lia. }
  apply PyFloatFacts.rnd_mono in L.
  assert (E : PyFloat.rnd (1 # 2147483648) = (1 # 2147483648)%Q)
    by (vm_compute; reflexivity).
  rewrite E in L.
  apply Qlt_le_trans with (y := (1 # 2147483648)%Q); [reflexivity | exact L].
Qed.

(** The float comparison of [render] decides the exact comparison of the
    two ratios. *)
Lemma wider_iff (w h : Z) :
  0 < w -> 0 < h < 2 ^ 31 ->
  PyFloat.gtb (aspect w h) screen_aspect = true
  <-> LCD_HEIGHT * w > LCD_WIDTH * h.
Proof.
  intros Hw Hh. unfold PyFloat.gtb, screen_aspect, LCD_WIDTH, LCD_HEIGHT.
  assert (Ph : (0 < inject_Z h)%Q) by (apply inject_Z_pos; lia).
  assert (Bh : (inject_Z h <= 2147483648)%Q).
  { change 2147483648%Q with (inject_Z 2147483648). rewrite <- Zle_Qle. lia. }
  rewrite negb_true_iff. split.
  - intros G.
    destruct (Z_gt_le_dec (280 * w) (240 * h)) as [C | C]; [exact C|].
    exfalso.
    assert (L : (inject_Z w / inject_Z h <= inject_Z 240 / inject_Z 280)%Q).
    { apply Qle_shift_div_r; [exact Ph|].
      assert (Q1 : (inject_Z (280 * w) <= inject_Z (240 * h))%Q)
        by (rewrite <- Zle_Qle; exact C).
      rewrite !inject_Z_mult in Q1.
      change (inject_Z 280) with 280%Q in *.
      change (inject_Z 240) with 240%Q in *.
      unfold Qdiv. change (/ 280)%Q with (1 # 280)%Q. lra. }
    apply PyFloatFacts.rnd_mono in L. apply Qle_bool_iff in L.
    unfold aspect in G. congruence.
  - intros C.
    assert (L : ((6 # 7) + (1 # 1099511627776) <= inject_Z w / inject_Z h)%Q).
    { apply Qle_shift_div_l; [exact Ph|].
      assert (Q1 : (inject_Z (240 * h + 1) <= inject_Z (280 * w))%Q)
        by (rewrite <- Zle_Qle; lia).
      rewrite inject_Z_plus, !inject_Z_mult in Q1.
      change (inject_Z 280) with 280%Q in *.
      change (inject_Z 240) with 240%Q in *.
      change (inject_Z 1) with 1%Q in *.
      lra. }
    apply PyFloatFacts.rnd_mono in L.
    assert (E : (PyFloat.rnd (inject_Z 240 / inject_Z 280)
                 < PyFloat.rnd ((6 # 7) + (1 # 1099511627776)))%Q)
      by (vm_compute; reflexivity).
    destruct (Qle_bool (aspect w h) (aspect 240 280)) eqn:B; [|reflexivity].
    exfalso. apply Qle_bool_iff in B. unfold aspect in B. lra.
Qed.

(** Scaled to the panel height, a wider image is at least as wide as the
    panel. *)
Lemma wider_new_width (w h : Z) :
  0 < w -> 0 < h < 2 ^ 31 -> LCD_HEIGHT * w > LCD_WIDTH * h ->
  LCD_WIDTH <= PyFloat.to_int (PyFloat.mul (PyFloat.of_int LCD_HEIGHT) (aspect w h)).
Proof.
  intros Hw Hh C. unfold LCD_WIDTH, LCD_HEIGHT in *.
  assert (Ph : (0 < inject_Z h)%Q) by (apply inject_Z_pos; lia).
  assert (L : (6 # 7 <= inject_Z w / inject_Z h)%Q).
  { apply Qle_shift_div_l; [exact Ph|].
    assert (Q1 : (inject_Z (240 * h) <= inject_Z (280 * w))%Q)
      by (rewrite <- Zle_Qle; lia).
    rewrite !inject_Z_mult in Q1.
    change (inject_Z 280) with 280%Q in *.
    change (inject_Z 240) with 240%Q in *.
    lra. }
  apply PyFloatFacts.rnd_mono in L. fold (aspect w h) in L.
  apply to_int_ge; [lia|].
  unfold PyFloat.mul.
  assert (E280 : PyFloat.of_int 280 = 280%Q) by (vm_compute; reflexivity).
  rewrite E280.
  assert (M : (280 * PyFloat.rnd (6 # 7) <= 280 * aspect w h)%Q) by lra.
  apply PyFloatFacts.rnd_mono in M.
  assert (E : PyFloat.rnd (280 * PyFloat.rnd (6 # 7)) = inject_Z 240)
    by (vm_compute; reflexivity).
  rewrite E in M. exact M.
Qed.

(** Scaled to the panel width, an image that is not wider is at least as
    tall as the panel. *)
Lemma taller_new_height (w h : Z) :
  0 < w -> 0 < h < 2 ^ 31 -> LCD_HEIGHT * w <= LCD_WIDTH * h ->
  exists q,
    PyFloat.truediv (PyFloat.of_int LCD_WIDTH) (aspect w h) = Returned q /\
    LCD_HEIGHT <= PyFloat.to_int q.
Proof.
  intros Hw Hh C. unfold LCD_WIDTH, LCD_HEIGHT in *.
  pose proof (aspect_positive w h Hw Hh) as Pa.
  assert (Ph : (0 < inject_Z h)%Q) by (apply inject_Z_pos; lia).
  assert (L : (inject_Z w / inject_Z h <= 6 # 7)%Q).
  { apply Qle_shift_div_r; [exact Ph|].
    assert (Q1 : (inject_Z (280 * w) <= inject_Z (240 * h))%Q)
      by (rewrite <- Zle_Qle; lia).
    rewrite !inject_Z_mult in Q1.
    change (inject_Z 280) with 280%Q in *.
    change (inject_Z 240) with 240%Q in *.
    lra. }
  apply PyFloatFacts.rnd_mono in L. fold (aspect w h) in L.
  exists (PyFloat.rnd (PyFloat.of_int 240 / aspect w h)). split.
  - unfold PyFloat.truediv.
    destruct (Qeq_bool (aspect w h) 0) eqn:Z0; [|reflexivity].
    exfalso. apply Qeq_bool_iff in Z0. lra.
  - apply to_int_ge; [lia|].
    assert (E240 : PyFloat.of_int 240 = 240%Q) by (vm_compute; reflexivity).
    rewrite E240.
    assert (P0 : (0 < PyFloat.rnd (6 # 7))%Q) by (vm_compute; reflexivity).
    assert (M : (240 / PyFloat.rnd (6 # 7) <= 240 / aspect w h)%Q).
    { apply Qle_shift_div_l; [exact Pa|].
      apply Qle_trans with (y := (240 / PyFloat.rnd (6 # 7) * PyFloat.rnd (6 # 7))%Q).
      - apply Qmult_le_l; [|exact L].
        apply Qlt_shift_div_l; [exact P0|]. rewrite Qmult_0_l. reflexivity.
      - unfold Qdiv. rewrite <- Qmult_assoc, (Qmult_comm (/ _)), Qmult_inv_r.
        + rewrite Qmult_1_r. apply Qle_refl.
        + intro Z0. lra. }
    apply PyFloatFacts.rnd_mono in M.
    assert (E : PyFloat.rnd (240 / PyFloat.rnd (6 # 7)) = inject_Z 280)
      by (vm_compute; reflexivity).
    rewrite E in M. exact M.
Qed.

Lemma center_offset (n p : Z) :
  p <= n ->
  0 <= (n - p) / 2 /\
  (n - p) / 2 <= n - ((n - p) / 2 + p) /\
  n - ((n - p) / 2 + p) <= (n - p) / 2 + 1.
Proof.
  intros H.
  pose proof (Z.div_mod (n - p) 2 ltac:(lia)).
  pose proof (Z.mod_pos_bound (n - p) 2 ltac:(lia)).
  lia.
Qed.

(** The two branches of [fit], for sizes PIL can hold.  The branch is
    decided by the exact comparison of [w/h] with [240/280]; the scaled
    side is the float product or quotient cut to an integer by [int]. *)
Lemma fit_branches (w h : Z) :
  0 < w < 2 ^ 31 -> 0 < h < 2 ^ 31 ->
  (LCD_HEIGHT * w > LCD_WIDTH * h ->
   exists new_width offset_x,
     fit w h LCD_WIDTH LCD_HEIGHT =
       Returned ((new_width, LCD_HEIGHT),
                 (offset_x, 0, offset_x + LCD_WIDTH, LCD_HEIGHT)) /\
     new_width = PyFloat.to_int
                   (PyFloat.mul (PyFloat.of_int LCD_HEIGHT) (aspect w h)) /\
     offset_x = (new_width - LCD_WIDTH) / 2 /\
     LCD_WIDTH <= new_width /\
     0 <= offset_x /\
     offset_x <= new_width - (offset_x + LCD_WIDTH) /\
     new_width - (offset_x + LCD_WIDTH) <= offset_x + 1) /\
  (LCD_HEIGHT * w <= LCD_WIDTH * h ->
   exists quotient new_height offset_y,
     PyFloat.truediv (PyFloat.of_int LCD_WIDTH) (aspect w h) = Returned quotient /\
     fit w h LCD_WIDTH LCD_HEIGHT =
       Returned ((LCD_WIDTH, new_height),
                 (0, offset_y, LCD_WIDTH, offset_y + LCD_HEIGHT)) /\
     new_height = PyFloat.to_int quotient /\
     offset_y = (new_height - LCD_HEIGHT) / 2 /\
     LCD_HEIGHT <= new_height /\
     0 <= offset_y /\
     offset_y <= new_height - (offset_y + LCD_HEIGHT) /\
     new_height - (offset_y + LCD_HEIGHT) <= offset_y + 1).
Proof.
  intros Hw Hh.
  assert (Fit : fit w h LCD_WIDTH LCD_HEIGHT =
                if PyFloat.gtb (aspect w h) screen_aspect then
                  let new_width :=
                    PyFloat.to_int
                      (PyFloat.mul (PyFloat.of_int LCD_HEIGHT) (aspect w h)) in
                  Returned ((new_width, LCD_HEIGHT),
                            ((new_width - LCD_WIDTH) / 2, 0,
                             (new_width - LCD_WIDTH) / 2 + LCD_WIDTH, LCD_HEIGHT))
                else
                  obind (PyFloat.truediv (PyFloat.of_int LCD_WIDTH) (aspect w h))
                        (fun quotient =>
                           let new_height := PyFloat.to_int quotient in
                           Returned ((LCD_WIDTH, new_height),
                                     (0, (new_height - LCD_HEIGHT) / 2, LCD_WIDTH,
                                      (new_height - LCD_HEIGHT) / 2 + LCD_HEIGHT)))).
  { unfold fit. rewrite int_truediv_aspect by lia.
    rewrite (int_truediv_aspect LCD_WIDTH LCD_HEIGHT) by reflexivity.
    reflexivity. }
  split.
  - intros C.
    pose proof (proj2 (wider_iff w h ltac:(lia) Hh) C) as G.
    rewrite G in Fit. cbv zeta in Fit.
    pose proof (wider_new_width w h ltac:(lia) Hh C) as Wd.
    eexists. eexists. split; [exact Fit|].
    split; [reflexivity|]. split; [reflexivity|]. split; [exact Wd|].
    apply center_offset. exact Wd.
  - intros C.
    assert (G : PyFloat.gtb (aspect w h) screen_aspect = false).
    { destruct (PyFloat.gtb (aspect w h) screen_aspect) eqn:B; [|reflexivity].
      apply (wider_iff w h ltac:(lia) Hh) in B. lia. }
    rewrite G in Fit.
    destruct (taller_new_height w h ltac:(lia) Hh C) as [q [Hq Ht]].
    rewrite Hq in Fit. cbn [obind] in Fit. cbv zeta in Fit.
    exists q. eexists. eexists. split; [exact Hq|]. split; [exact Fit|].
    split; [reflexivity|]. split; [reflexivity|]. split; [exact Ht|].
    apply center_offset. exact Ht.
Qed.

(* ------------------------------------------------------------------ *)
(** ** Render pipeline: scaling and cropping *)

(** C2, as the code has it.  For a non-degenerate source image: when
    [srcW/srcH > panelW/panelH], the image is resized to the panel height
    and to the width [int(panelH * aspect)], the product cut toward zero,
    and the crop keeps the [panelW] columns that start at column
    [floor((resizedW - panelW) / 2)], which cuts that many columns on the
    left and as many or one more on the right.  Otherwise, equal ratios
    included, it is resized to the panel width and to the height
    [int(panelW / aspect)], and the crop keeps the [panelH] rows that start
    at row [floor((resizedH - panelH) / 2)]. *)
Theorem scale_and_crop_geometry :
  forall (resize : image -> Z * Z -> image) (img : image),
    non_degenerate img -> pil_size img ->
    let w := fst (size img) in
    let h := snd (size img) in
    (LCD_HEIGHT * w > LCD_WIDTH * h ->
     exists new_width offset_x,
       scale_and_crop resize img LCD_WIDTH LCD_HEIGHT =
         Returned (crop (resize img (new_width, LCD_HEIGHT))
                        (offset_x, 0, offset_x + LCD_WIDTH, LCD_HEIGHT)) /\
       new_width = PyFloat.to_int
                     (PyFloat.mul (PyFloat.of_int LCD_HEIGHT) (aspect w h)) /\
       offset_x = (new_width - LCD_WIDTH) / 2 /\
       LCD_WIDTH <= new_width /\
       0 <= offset_x /\
       offset_x <= new_width - (offset_x + LCD_WIDTH) /\
       new_width - (offset_x + LCD_WIDTH) <= offset_x + 1) /\
    (LCD_HEIGHT * w <= LCD_WIDTH * h ->
     exists quotient new_height offset_y,
       PyFloat.truediv (PyFloat.of_int LCD_WIDTH) (aspect w h) = Returned quotient /\
       scale_and_crop resize img LCD_WIDTH LCD_HEIGHT =
         Returned (crop (resize img (LCD_WIDTH, new_height))
                        (0, offset_y, LCD_WIDTH, offset_y + LCD_HEIGHT)) /\
       new_height = PyFloat.to_int quotient /\
       offset_y = (new_height - LCD_HEIGHT) / 2 /\
       LCD_HEIGHT <= new_height /\
       0 <= offset_y /\
       offset_y <= new_height - (offset_y + LCD_HEIGHT) /\
       new_height - (offset_y + LCD_HEIGHT) <= offset_y + 1).
Proof.
  intros resize img Hnd Hpil w h.
  unfold non_degenerate, pil_size in *. subst w h.
  unfold scale_and_crop.
  destruct (size img) as [w h]. cbn [fst snd].
  destruct (fit_branches w h ltac:(lia) ltac:(lia)) as [Wide Tall].
  split.
  - intros C. destruct (Wide C) as [nw [off [Fit Rest]]].
    exists nw, off. rewrite Fit. split; [reflexivity | exact Rest].
  - intros C. destruct (Tall C) as [q [nh [off [Hq [Fit Rest]]]]].
    exists q, nh, off. rewrite Fit. split; [exact Hq|].
    split; [reflexivity | exact Rest].
Qed.

Lemma scale_and_crop_geometry_witness :
  (LCD_HEIGHT * 400 > LCD_WIDTH * 200 ->
   exists new_width offset_x,
     scale_and_crop resize_nearest (test_card 400 200) LCD_WIDTH LCD_HEIGHT =
       Returned (crop (resize_nearest (test_card 400 200) (new_width, LCD_HEIGHT))
                      (offset_x, 0, offset_x + LCD_WIDTH, LCD_HEIGHT)) /\
     new_width = PyFloat.to_int
                   (PyFloat.mul (PyFloat.of_int LCD_HEIGHT) (aspect 400 200)) /\
     offset_x = (new_width - LCD_WIDTH) / 2 /\
     LCD_WIDTH <= new_width /\
     0 <= offset_x /\
     offset_x <= new_width - (offset_x + LCD_WIDTH) /\
     new_width - (offset_x + LCD_WIDTH) <= offset_x + 1) /\
  (LCD_HEIGHT * 400 <= LCD_WIDTH * 200 ->
   exists quotient new_height offset_y,
     PyFloat.truediv (PyFloat.of_int LCD_WIDTH) (aspect 400 200) = Returned quotient /\
     scale_and_crop resize_nearest (test_card 400 200) LCD_WIDTH LCD_HEIGHT =
       Returned (crop (resize_nearest (test_card 400 200) (LCD_WIDTH, new_height))
                      (0, offset_y, LCD_WIDTH, offset_y + LCD_HEIGHT)) /\
     new_height = PyFloat.to_int quotient /\
     offset_y = (new_height - LCD_HEIGHT) / 2 /\
     LCD_HEIGHT <= new_height /\
     0 <= offset_y /\
     offset_y <= new_height - (offset_y + LCD_HEIGHT) /\
     new_height - (offset_y + LCD_HEIGHT) <= offset_y + 1).
Proof.
  apply (scale_and_crop_geometry resize_nearest (test_card 400 200)).
  - unfold non_degenerate, test_card. cbn. lia.
  - unfold pil_size, test_card. cbn. lia.
Defined.

(** C2 as claimed fails where it says [round].  A 1600x900 image is
    resized to [int(280 * 1600/900) = 497] columns, not to the nearest
    integer 498, and 128 columns are cut on the left, 129 on the right.
    A 700x1300 image is resized to [int(240 / (700/1300)) = 445] rows, not
    446. *)
Lemma fit_truncates_1600_900 :
  fit 1600 900 LCD_WIDTH LCD_HEIGHT =
    Returned ((497, 280), (128, 0, 368, 280)) /\
  PyFloat.round (PyFloat.mul (PyFloat.of_int LCD_HEIGHT) (aspect 1600 900)) = 498 /\
  497 - 368 = 129 /\
  fit 700 1300 LCD_WIDTH LCD_HEIGHT =
    Returned ((240, 445), (0, 82, 240, 362)) /\
  obind (PyFloat.truediv (PyFloat.of_int LCD_WIDTH) (aspect 700 1300))
        (fun q => Returned (PyFloat.round q)) = Returned 446.
Proof.
  repeat split; vm_compute; reflexivity.
Qed.

(** The scenarios of the specification. *)
Lemma fit_scenarios :
  fit 400 200 LCD_WIDTH LCD_HEIGHT = Returned ((560, 280), (160, 0, 400, 280)) /\
  fit 100 400 LCD_WIDTH LCD_HEIGHT = Returned ((240, 960), (0, 340, 240, 620)) /\
  fit 240 280 LCD_WIDTH LCD_HEIGHT = Returned ((240, 280), (0, 0, 240, 280)) /\
  fit 0 5 LCD_WIDTH LCD_HEIGHT = Raised ZeroDivisionError /\
  fit 5 0 LCD_WIDTH LCD_HEIGHT = Raised ZeroDivisionError.
Proof.
  repeat split; vm_compute; reflexivity.
Qed.

(* ------------------------------------------------------------------ *)
(** ** Render pipeline: packing and blitting *)

Lemma extend_each_flat_map {A} (f : A -> outcome (list Z)) (g : A -> list Z)
      (l : list A) :
  (forall a, In a l -> f a = Returned (g a)) ->
  forall acc, extend_each f l acc = Returned (acc ++ flat_map g l).
Proof.
  induction l as [|a l IH]; intros H acc.
  - simpl. rewrite app_nil_r. reflexivity.
  - cbn [extend_each flat_map]. rewrite (H a (or_introl eq_refl)).
    cbn [obind]. rewrite IH by (intros b Hb; apply H; right; exact Hb).
    rewrite app_assoc. reflexivity.
Qed.

Lemma pack_pixel_in_range (img : image) (W H x y : Z) :
  size img = (W, H) -> 0 <= x < W -> 0 <= y < H ->
  pack_pixel img x y = Returned (pixel_bytes (pixel img x y)).
Proof.
  intros Hs Hx Hy. unfold pack_pixel, getpixel. rewrite Hs.
  assert (E : (0 <=? x) && (x <? W) && (0 <=? y) && (y <? H) = true).
  { rewrite !andb_true_iff, !Z.leb_le, !Z.ltb_lt. lia. }
  rewrite E. cbn [obind]. unfold pixel_bytes.
  destruct (pixel img x y) as [[r g] b]. reflexivity.
Qed.

(** On an image of the panel's size the loops never leave the image: the
    stream is the frame, two bytes per pixel. *)
Lemma pack_frame (img : image) (W H : Z) :
  size img = (W, H) -> pack img W H = Returned (frame_bytes img W H).
Proof.
  intros Hs. unfold pack, frame_bytes.
  rewrite (extend_each_flat_map _
             (fun y => flat_map (fun x => pixel_bytes (pixel img x y)) (range W))).
  - reflexivity.
  - intros y Hy. apply In_range in Hy.
    rewrite (extend_each_flat_map _ (fun x => pixel_bytes (pixel img x y))).
    + reflexivity.
    + intros x Hx. apply In_range in Hx.
      apply (pack_pixel_in_range img W H); assumption.
Qed.

Lemma flat_map_length_const {A B} (f : A -> list B) (n : nat) (l : list A) :
  (forall a, length (f a) = n) -> length (flat_map f l) = (n * length l)%nat.
Proof.
  intros H. induction l as [|a l IH]; simpl.
  - lia.
  - rewrite length_app, H, IH. lia.
Qed.

Lemma frame_bytes_length (img : image) (W H : Z) :
  0 <= W -> 0 <= H ->
  length (frame_bytes img W H) = Z.to_nat (W * H * 2).
Proof.
  intros HW HH. unfold frame_bytes.
  rewrite (flat_map_length_const _ (2 * Z.to_nat W)).
  - rewrite range_length. lia.
  - intros y. rewrite (flat_map_length_const _ 2).
    + rewrite range_length. reflexivity.
    + intros x. unfold pixel_bytes. destruct (pixel img x y) as [[r g] b].
      reflexivity.
Qed.

Lemma crop_size (img : image) (x0 y0 x1 y1 : Z) :
  size (crop img (x0, y0, x1, y1)) = (x1 - x0, y1 - y0).
Proof. unfold crop. destruct (size img). reflexivity. Qed.

Lemma draw_image_accepted (x y width height : Z) (pixel_data : list Z)
      (st : board) :
  x + width <= LCD_WIDTH -> y + height <= LCD_HEIGHT ->
  draw_image x y width height pixel_data st =
    (Returned tt,
     with_log (log st
               ++ window_events (spi_has_writebytes2 st)
                                x y (x + width - 1) (y + height - 1)
               ++ send_data_events (spi_has_writebytes2 st) pixel_data)
              st).
Proof.
  intros Hx Hy. unfold draw_image.
  assert (E : (x + width >? LCD_WIDTH) || (y + height >? LCD_HEIGHT) = false).
  { apply orb_false_iff. rewrite !Z.gtb_ltb, !Z.ltb_ge. lia. }
  rewrite E.
  apply (appends_bind _ _ _ _
           (set_window_appends x y (x + width - 1) (y + height - 1))
           (_send_data_appends pixel_data)).
Qed.

Lemma scale_and_crop_panel_size (resize : image -> Z * Z -> image) (img : image) :
  non_degenerate img -> pil_size img ->
  exists cropped,
    scale_and_crop resize img LCD_WIDTH LCD_HEIGHT = Returned cropped /\
    size cropped = (LCD_WIDTH, LCD_HEIGHT).
Proof.
  intros Hnd Hpil.
  unfold non_degenerate, pil_size in *. unfold scale_and_crop.
  destruct (size img) as [w h].
  destruct (fit_branches w h ltac:(lia) ltac:(lia)) as [Wide Tall].
  destruct (Z_gt_le_dec (LCD_HEIGHT * w) (LCD_WIDTH * h)) as [C | C].
  - destruct (Wide C) as [nw [off [E _]]]. rewrite E. cbn [obind].
    eexists. split; [reflexivity|]. rewrite crop_size. f_equal; lia.
  - destruct (Tall C) as [q [nh [off [_ [E _]]]]]. rewrite E. cbn [obind].
    eexists. split; [reflexivity|]. rewrite crop_size. f_equal; lia.
Qed.

(** [render] on a PIL image with non-zero sides: the frame of the cropped
    image goes to [draw_image(0, 0, 240, 280, ...)] unchanged. *)
Lemma render_pil_run :
  forall (resize : image -> Z * Z -> image) (img : image) (st : board),
    non_degenerate img -> pil_size img ->
    exists cropped pixel_data,
      scale_and_crop resize img LCD_WIDTH LCD_HEIGHT = Returned cropped /\
      pack cropped LCD_WIDTH LCD_HEIGHT = Returned pixel_data /\
      pixel_data = frame_bytes cropped LCD_WIDTH LCD_HEIGHT /\
      len pixel_data = LCD_WIDTH * LCD_HEIGHT * 2 /\
      len pixel_data = 134400 /\
      render resize (PILImage img) st
        = draw_image 0 0 LCD_WIDTH LCD_HEIGHT pixel_data st /\
      render resize (PILImage img) st =
        (Returned tt,
         with_log (log st
                   ++ window_events (spi_has_writebytes2 st)
                                    0 0 (LCD_WIDTH - 1) (LCD_HEIGHT - 1)
                   ++ send_data_events (spi_has_writebytes2 st) pixel_data)
                  st) /\
      spi_payload (send_data_events (spi_has_writebytes2 st) pixel_data)
        = pixel_data.
Proof.
  intros resize img st Hnd Hpil.
  destruct (scale_and_crop_panel_size resize img Hnd Hpil) as [cropped [Hc Hs]].
  pose proof (pack_frame cropped LCD_WIDTH LCD_HEIGHT Hs) as Hp.
  pose proof (frame_bytes_length cropped LCD_WIDTH LCD_HEIGHT
                ltac:(discriminate) ltac:(discriminate)) as Hl.
  exists cropped, (frame_bytes cropped LCD_WIDTH LCD_HEIGHT).
  assert (R : render resize (PILImage img) st =
              draw_image 0 0 LCD_WIDTH LCD_HEIGHT
                         (frame_bytes cropped LCD_WIDTH LCD_HEIGHT) st).
  { unfold render. unfold bind at 1. unfold ret at 1. unfold convert_RGB.
    unfold bind at 1. unfold lift at 1. rewrite Hc.
    unfold bind at 1. unfold lift at 1. rewrite Hp. reflexivity. }
  split; [exact Hc|]. split; [exact Hp|]. split; [reflexivity|].
  assert (Hlen : len (frame_bytes cropped LCD_WIDTH LCD_HEIGHT)
                 = LCD_WIDTH * LCD_HEIGHT * 2).
  { unfold len. rewrite Hl. apply Z2Nat.id. discriminate. }
  split; [exact Hlen|]. split; [exact Hlen|]. split; [exact R|].
  split.
  - rewrite R.
    apply (draw_image_accepted 0 0 LCD_WIDTH LCD_HEIGHT);
      unfold LCD_WIDTH, LCD_HEIGHT; lia.
  - apply send_data_payload.
Qed.

(** [Image] is not among the names whisplay.py binds. *)
Lemma render_ndarray_run (resize : image -> Z * Z -> image)
      (rows : list (list rgb)) (st : board) :
  render resize (NdArray rows) st = (Raised NameError, st).
Proof.
  unfold render. cbv zeta.
  unfold bind at 1. unfold bind at 1. unfold global_name.
  assert (E : existsb (String.eqb "Image") module_names = false)
    by (vm_compute; reflexivity).
  rewrite E. reflexivity.
Qed.

(** C1.  [render] does not produce the stream for every source image.  A
    canvas that is a numpy array takes the branch
    [Image.fromarray(canvas.astype('uint8'))], and whisplay.py binds no
    name [Image]: [render] raises NameError there, whatever the size of
    the array, and nothing reaches the panel.  For a canvas that is a PIL
    image with non-zero width and height (and sides that fit PIL's C
    ints) the claim holds: [render] returns, and the byte stream it builds
    has length [240 * 280 * 2] whatever the size of the source: it is the
    frame of the cropped image, two bytes per pixel.  [render] hands it to
    [draw_image(0, 0, 240, 280, ...)], which sets the full window and
    streams it unchanged. *)
Theorem render_stream_length :
  forall (resize : image -> Z * Z -> image) (st : board),
    (forall rows : list (list rgb),
        render resize (NdArray rows) st = (Raised NameError, st)) /\
    (forall img : image,
        non_degenerate img -> pil_size img ->
        exists cropped pixel_data,
          scale_and_crop resize img LCD_WIDTH LCD_HEIGHT = Returned cropped /\
          pack cropped LCD_WIDTH LCD_HEIGHT = Returned pixel_data /\
          pixel_data = frame_bytes cropped LCD_WIDTH LCD_HEIGHT /\
          len pixel_data = LCD_WIDTH * LCD_HEIGHT * 2 /\
          len pixel_data = 134400 /\
          render resize (PILImage img) st
            = draw_image 0 0 LCD_WIDTH LCD_HEIGHT pixel_data st /\
          render resize (PILImage img) st =
            (Returned tt,
             with_log (log st
                       ++ window_events (spi_has_writebytes2 st)
                                        0 0 (LCD_WIDTH - 1) (LCD_HEIGHT - 1)
                       ++ send_data_events (spi_has_writebytes2 st) pixel_data)
                      st) /\
          spi_payload (send_data_events (spi_has_writebytes2 st) pixel_data)
            = pixel_data).
Proof.
  intros resize st. split.
  - intros rows. apply render_ndarray_run.
  - intros img Hnd Hpil. apply render_pil_run; assumption.
Qed.

Lemma render_stream_length_witness :
  render resize_nearest (NdArray (repeat (repeat (255, 255, 255) 240) 280))
         board_ready
  = (Raised NameError, board_ready) /\
  exists cropped pixel_data,
    scale_and_crop resize_nearest (test_card 1600 900) LCD_WIDTH LCD_HEIGHT
      = Returned cropped /\
    pack cropped LCD_WIDTH LCD_HEIGHT = Returned pixel_data /\
    pixel_data = frame_bytes cropped LCD_WIDTH LCD_HEIGHT /\
    len pixel_data = LCD_WIDTH * LCD_HEIGHT * 2 /\
    len pixel_data = 134400 /\
    render resize_nearest (PILImage (test_card 1600 900)) board_ready
      = draw_image 0 0 LCD_WIDTH LCD_HEIGHT pixel_data board_ready /\
    render resize_nearest (PILImage (test_card 1600 900)) board_ready =
      (Returned tt,
       with_log (log board_ready
                 ++ window_events (spi_has_writebytes2 board_ready)
                                  0 0 (LCD_WIDTH - 1) (LCD_HEIGHT - 1)
                 ++ send_data_events (spi_has_writebytes2 board_ready) pixel_data)
                board_ready) /\
    spi_payload (send_data_events (spi_has_writebytes2 board_ready) pixel_data)
      = pixel_data.
Proof.
  destruct (render_stream_length resize_nearest board_ready) as [Nd Pil].
  split; [apply Nd|].
  apply (Pil (test_card 1600 900)).
  - unfold non_degenerate, test_card. cbn. lia.
  - unfold pil_size, test_card. cbn. lia.
Defined.

(* ------------------------------------------------------------------ *)
(** ** RGB indicator: every fade *)

(** X2.  What a fade does on a board whose indicator is set up, for the
    stored values and targets below [2^1000] in magnitude and the
    durations from 0 to [MAX_DURATION_MS] (bounds that keep clear of the
    OverflowError of Python's division on integers beyond the floats and
    of [time.sleep] on a pause of [2^63] nanoseconds or more): it returns
    after 21 samples,
    each followed by the pause; sample [i] is
    [clamp(int(previous + i * step))] with [step = (target - stored) / 20]
    fixed at the start and [previous] the sample before (the stored values
    for sample 0); the last sample is what the board stores at the end. *)
Theorem set_rgb_fade_samples :
  forall r_target g_target b_target duration_ms st cr cg cb,
    rgb_ready st -> stored st = Some (cr, cg, cb) ->
    finite_int cr -> finite_int cg -> finite_int cb ->
    finite_int r_target -> finite_int g_target -> finite_int b_target ->
    0 <= duration_ms <= MAX_DURATION_MS ->
    let samples :=
      running_samples (fade_step r_target cr, fade_step g_target cg,
                       fade_step b_target cb) (cr, cg, cb) (range (20 + 1)) in
    exists st',
      set_rgb_fade r_target g_target b_target duration_ms st = (Returned tt, st') /\
      log st' = log st ++ flat_map (sample_events (fade_pause duration_ms)) samples /\
      stored st' = Some (last samples (cr, cg, cb)).
Proof.
  intros rt gt bt d st cr cg cb Hready Hcur Fr Fg Fb Frt Fgt Fbt Hd samples.
  destruct (set_rgb_fade_run rt gt bt d st cr cg cb Hready Hcur
              Fr Fg Fb Frt Fgt Fbt Hd)
    as [st' [Run [_ [Hst Hlog]]]].
  exists st'. split; [exact Run|]. split; [exact Hlog | exact Hst].
Qed.

Lemma set_rgb_fade_samples_witness :
  exists st',
    set_rgb_fade 10 200 0 400 board_ready = (Returned tt, st') /\
    log st' = log board_ready
              ++ flat_map (sample_events (fade_pause 400))
                          (running_samples (fade_step 10 0, fade_step 200 0,
                                            fade_step 0 0) (0, 0, 0)
                                           (range (20 + 1))) /\
    stored st' = Some (last (running_samples (fade_step 10 0, fade_step 200 0,
                                              fade_step 0 0) (0, 0, 0)
                                             (range (20 + 1)))
                            (0, 0, 0)).
Proof.
  apply (set_rgb_fade_samples 10 200 0 400 board_ready 0 0 0);
    try reflexivity.
  - unfold rgb_ready, board_ready. cbn. repeat split; eexists; reflexivity.
  - split; discriminate.
Defined.

(* ------------------------------------------------------------------ *)
(** ** Filling the screen *)

Lemma fold_left_extend {A B} (c : list B) (l : list A) (acc : list B) :
  fold_left (fun buffer _ => buffer ++ c) l acc = acc ++ flat_map (fun _ => c) l.
Proof.
  revert acc. induction l as [|a l IH]; intros acc; simpl.
  - symmetry. apply app_nil_r.
  - rewrite IH, <- app_assoc. reflexivity.
Qed.

(** Element [k * n + j] of a list made of blocks of [n] elements is
    element [j] of block [k]. *)
Lemma nth_flat_map_block {A B} (f : A -> list B) (n : nat) (l : list A)
      (k j : nat) (a : A) (d : B) :
  (forall a, length (f a) = n) -> (k < length l)%nat -> (j < n)%nat ->
  nth (k * n + j) (flat_map f l) d = nth j (f (nth k l a)) d.
Proof.
  intros Hn. revert k. induction l as [|x l IH]; intros k Hk Hj.
  - simpl in Hk. lia.
  - destruct k as [|k].
    + simpl. rewrite app_nth1 by (rewrite Hn; exact Hj). reflexivity.
    + cbn [flat_map nth]. rewrite app_nth2 by (rewrite Hn; lia).
      rewrite Hn. replace (S k * n + j - n)%nat with (k * n + j)%nat by lia.
      apply IH; [simpl in Hk; lia | exact Hj].
Qed.

Lemma range_nth (n : Z) (k : nat) :
  (k < Z.to_nat n)%nat -> nth k (range n) 0 = Z.of_nat k.
Proof.
  intros H. unfold range.
  change 0 with (Z.of_nat 0). rewrite map_nth, seq_nth by exact H. reflexivity.
Qed.

Lemma byte_range (v : Z) : 0 <= Z.land v 0xFF < 256.
Proof.
  change 0xFF with (Z.ones 8). rewrite Z.land_ones by lia.
  apply Z.mod_pos_bound. reflexivity.
Qed.

(** X3.  [fill_screen(color)] sets the window of the whole panel once and
    streams [240 * 280] times the two bytes of the colour, high byte first:
    134400 bytes, each a byte whatever integer [color] is. *)
Theorem fill_screen_frame :
  forall color st,
    exists buffer,
      fill_screen color st =
        (Returned tt,
         with_log (log st
                   ++ window_events (spi_has_writebytes2 st)
                                    0 0 (LCD_WIDTH - 1) (LCD_HEIGHT - 1)
                   ++ send_data_events (spi_has_writebytes2 st) buffer)
                  st) /\
      spi_payload (send_data_events (spi_has_writebytes2 st) buffer) = buffer /\
      len buffer = LCD_WIDTH * LCD_HEIGHT * 2 /\
      (forall i, 0 <= i < LCD_WIDTH * LCD_HEIGHT ->
                 nth (Z.to_nat (2 * i)) buffer (-1) = Z.land (Z.shiftr color 8) 0xFF /\
                 nth (Z.to_nat (2 * i + 1)) buffer (-1) = Z.land color 0xFF) /\
      0 <= Z.land (Z.shiftr color 8) 0xFF < 256 /\
      0 <= Z.land color 0xFF < 256.
Proof.
  intros color st.
  set (high := Z.land (Z.shiftr color 8) 0xFF).
  set (low := Z.land color 0xFF).
  exists (flat_map (fun _ : Z => [high; low]) (range (LCD_WIDTH * LCD_HEIGHT))).
  split; [|split; [|split; [|split; [|split]]]].
  - unfold fill_screen. cbv zeta. fold high. fold low.
    rewrite fold_left_extend. cbn [app].
    apply (appends_bind _ _ _ _
             (set_window_appends 0 0 (LCD_WIDTH - 1) (LCD_HEIGHT - 1))
             (_send_data_appends _)).
  - apply send_data_payload.
  - unfold len. rewrite (flat_map_length_const _ 2) by reflexivity.
    rewrite range_length. unfold LCD_WIDTH, LCD_HEIGHT. lia.
  - intros i Hi.
    assert (Hk : (Z.to_nat i < length (range (LCD_WIDTH * LCD_HEIGHT)))%nat)
      by (rewrite range_length; lia).
    split.
    + replace (Z.to_nat (2 * i)) with (Z.to_nat i * 2 + 0)%nat by lia.
      rewrite (nth_flat_map_block _ 2 _ _ _ 0) by (try reflexivity; lia).
      reflexivity.
    + replace (Z.to_nat (2 * i + 1)) with (Z.to_nat i * 2 + 1)%nat by lia.
      rewrite (nth_flat_map_block _ 2 _ _ _ 0) by (try reflexivity; lia).
      reflexivity.
  - subst high. apply byte_range.
  - subst low. apply byte_range.
Qed.

(* ------------------------------------------------------------------ *)
(** ** Render pipeline: the frame that is sent *)

(** [render] on a PIL image is the blit of the frame of the cropped
    image. *)
Lemma render_blits_frame (resize : image -> Z * Z -> image) (img : image)
      (st : board) :
  non_degenerate img -> pil_size img ->
  exists new_size box,
    render resize (PILImage img) st =
      draw_image 0 0 LCD_WIDTH LCD_HEIGHT
                 (frame_bytes (crop (resize img new_size) box)
                              LCD_WIDTH LCD_HEIGHT) st /\
    size (crop (resize img new_size) box) = (LCD_WIDTH, LCD_HEIGHT).
Proof.
  intros Hnd Hpil.
  destruct (scale_and_crop_panel_size resize img Hnd Hpil) as [cropped [Hc Hs]].
  assert (Shape : exists new_size box, cropped = crop (resize img new_size) box).
  { unfold scale_and_crop in Hc. destruct (size img) as [w h].
    destruct (fit w h LCD_WIDTH LCD_HEIGHT) as [[sz box]|e]; [|discriminate].
    cbn [obind] in Hc. injection Hc as <-. exists sz, box. reflexivity. }
  destruct Shape as [sz [box ->]].
  exists sz, box. split; [|exact Hs].
  unfold render. unfold bind at 1. unfold ret at 1. unfold convert_RGB.
  unfold bind at 1. unfold lift at 1. rewrite Hc.
  unfold bind at 1. unfold lift at 1.
  rewrite (pack_frame _ LCD_WIDTH LCD_HEIGHT Hs). reflexivity.
Qed.

Lemma crop_black (img : image) (box : Z * Z * Z * Z) :
  all_black img -> all_black (crop img box).
Proof.
  intros H x y. destruct box as [[[x0 y0] x1] y1]. unfold crop.
  destruct (size img) as [w h]. cbn [pixel].
  destruct ((0 <=? x + x0) && (x + x0 <? w) && (0 <=? y + y0) && (y + y0 <? h));
    [apply H | reflexivity].
Qed.

Lemma flat_map_const_repeat {A B} (c : list B) (l : list A) :
  flat_map (fun _ => c) l = concat (repeat c (length l)).
Proof.
  induction l as [|a l IH]; simpl; [reflexivity | rewrite IH; reflexivity].
Qed.

Lemma concat_repeat_mul {B} (c : list B) (a b : nat) :
  concat (repeat (concat (repeat c a)) b) = concat (repeat c (b * a)).
Proof.
  induction b as [|b IH]; simpl.
  - reflexivity.
  - rewrite IH, repeat_app, concat_app. reflexivity.
Qed.

Lemma frame_bytes_black (img : image) (W H : Z) :
  0 <= W -> 0 <= H -> all_black img ->
  frame_bytes img W H = flat_map (fun _ : Z => [0; 0]) (range (W * H)).
Proof.
  intros HW HH Hb. unfold frame_bytes.
  rewrite (flat_map_ext _ (fun _ : Z => flat_map (fun _ : Z => [0; 0]) (range W))).
  - rewrite !flat_map_const_repeat, !range_length, concat_repeat_mul.
    rewrite Z2Nat.inj_mul by assumption.
    rewrite Nat.mul_comm. reflexivity.
  - intros y. apply flat_map_ext. intros x. rewrite Hb. reflexivity.
Qed.

(** X4.  Rendering an all-black image leaves exactly the trace of
    [clear()], provided resizing a black image gives a black image: the
    crop pads with black, every pixel packs to two zero bytes, and the blit
    of that frame is the fill with colour 0. *)
Theorem render_black_is_clear :
  forall (resize : image -> Z * Z -> image) (img : image) (st : board),
    (forall i new_size, all_black i -> all_black (resize i new_size)) ->
    non_degenerate img -> pil_size img -> all_black img ->
    render resize (PILImage img) st = clear st.
Proof.
  intros resize img st Hres Hnd Hpil Hb.
  destruct (render_blits_frame resize img st Hnd Hpil) as [sz [box [R _]]].
  rewrite R.
  rewrite frame_bytes_black
    by (try discriminate; apply crop_black, Hres, Hb).
  unfold clear, fill_screen, draw_image. cbv zeta.
  change ((0 + LCD_WIDTH >? LCD_WIDTH) || (0 + LCD_HEIGHT >? LCD_HEIGHT))
    with false. cbv iota.
  rewrite fold_left_extend. cbn [app].
  change (0 + LCD_WIDTH - 1) with (LCD_WIDTH - 1).
  change (0 + LCD_HEIGHT - 1) with (LCD_HEIGHT - 1).
  change (Z.land (Z.shiftr 0 8) 0xFF) with 0.
  change (Z.land 0 0xFF) with 0.
  reflexivity.
Qed.

Lemma resize_nearest_black (i : image) (new_size : Z * Z) :
  all_black i -> all_black (resize_nearest i new_size).
Proof.
  intros H x y. unfold resize_nearest.
  destruct (size i) as [w h]. destruct new_size as [nw nh].
  cbn [pixel]. apply H.
Qed.

Lemma render_black_is_clear_witness :
  render resize_nearest (PILImage (mk_image (320, 200) (fun _ _ => (0, 0, 0))))
         board_ready
  = clear board_ready.
Proof.
  apply (render_black_is_clear resize_nearest
           (mk_image (320, 200) (fun _ _ => (0, 0, 0))) board_ready).
  - exact resize_nearest_black.
  - unfold non_degenerate. cbn. lia.
  - unfold pil_size. cbn. lia.
  - intros x y. reflexivity.
Defined.

(** X5.  The stream of [render] is row-major, two bytes per pixel, high
    byte first: pixel [(x, y)] of the cropped image is at bytes
    [2 * (y * 240 + x)] and [2 * (y * 240 + x) + 1], and the two bytes
    put together are its RGB565 value. *)
Theorem pack_row_major :
  forall (cropped : image) (x y : Z),
    size cropped = (LCD_WIDTH, LCD_HEIGHT) ->
    0 <= x < LCD_WIDTH -> 0 <= y < LCD_HEIGHT ->
    exists pixel_data r g b,
      pack cropped LCD_WIDTH LCD_HEIGHT = Returned pixel_data /\
      pixel cropped x y = (r, g, b) /\
      nth (Z.to_nat (2 * (y * LCD_WIDTH + x))) pixel_data (-1)
        = Z.land (Z.shiftr (rgb565 r g b) 8) 0xFF /\
      nth (Z.to_nat (2 * (y * LCD_WIDTH + x) + 1)) pixel_data (-1)
        = Z.land (rgb565 r g b) 0xFF /\
      (0 <= r <= 255 -> 0 <= g <= 255 -> 0 <= b <= 255 ->
       be16 (nth (Z.to_nat (2 * (y * LCD_WIDTH + x))) pixel_data (-1))
            (nth (Z.to_nat (2 * (y * LCD_WIDTH + x) + 1)) pixel_data (-1))
       = rgb565 r g b).
Proof.
  intros cropped x y Hs Hx Hy.
  destruct (pixel cropped x y) as [[r g] b] eqn:Hp.
  exists (frame_bytes cropped LCD_WIDTH LCD_HEIGHT), r, g, b.
  assert (Row : forall y0, length (flat_map (fun x0 => pixel_bytes (pixel cropped x0 y0))
                                            (range LCD_WIDTH))
                           = (2 * Z.to_nat LCD_WIDTH)%nat).
  { intros y0. rewrite (flat_map_length_const _ 2).
    - rewrite range_length. reflexivity.
    - intros x0. unfold pixel_bytes.
      destruct (pixel cropped x0 y0) as [[r0 g0] b0]. reflexivity. }
  assert (Px : forall x0 y0, length (pixel_bytes (pixel cropped x0 y0)) = 2%nat).
  { intros x0 y0. unfold pixel_bytes.
    destruct (pixel cropped x0 y0) as [[r0 g0] b0]. reflexivity. }
  assert (At : forall j, (j < 2)%nat ->
             nth (Z.to_nat y * (2 * Z.to_nat LCD_WIDTH) + (Z.to_nat x * 2 + j))
                 (frame_bytes cropped LCD_WIDTH LCD_HEIGHT) (-1)
             = nth j (color_bytes (rgb565 r g b)) (-1)).
  { intros j Hj. unfold frame_bytes.
    rewrite (nth_flat_map_block _ (2 * Z.to_nat LCD_WIDTH) _ _ _ 0 (-1) Row)
      by (try rewrite range_length; unfold LCD_WIDTH, LCD_HEIGHT in *; lia).
    rewrite range_nth by (unfold LCD_HEIGHT in *; lia).
    rewrite (nth_flat_map_block _ 2 _ _ _ 0 (-1) (fun x0 => Px x0 _))
      by (try rewrite range_length; unfold LCD_WIDTH in *; lia).
    rewrite range_nth by (unfold LCD_WIDTH in *; lia).
    rewrite !Z2Nat.id by lia. rewrite Hp. reflexivity. }
  assert (I0 : Z.to_nat (2 * (y * LCD_WIDTH + x))
               = (Z.to_nat y * (2 * Z.to_nat LCD_WIDTH) + (Z.to_nat x * 2 + 0))%nat)
    by (unfold LCD_WIDTH in *; lia).
  assert (I1 : Z.to_nat (2 * (y * LCD_WIDTH + x) + 1)
               = (Z.to_nat y * (2 * Z.to_nat LCD_WIDTH) + (Z.to_nat x * 2 + 1))%nat)
    by (unfold LCD_WIDTH in *; lia).
  rewrite I0, I1, !At by lia.
  split; [apply pack_frame; exact Hs|]. split; [reflexivity|].
  split; [reflexivity|]. split; [reflexivity|].
  intros Hr Hg Hb. cbn [color_bytes nth]. unfold be16.
  assert (V : 0 <= rgb565 r g b < 65536).
  { unfold rgb565. change 65536 with (2 ^ 16).
    destruct (red_bits r Hr) as [_ [_ [_ [_ R5]]]].
    destruct (green_bits g Hg) as [_ [_ [_ [_ G5]]]].
    destruct (blue_bits b Hb) as [_ [_ [_ [_ B5]]]].
    cbv zeta in *. change 65536 with (2 ^ 16) in *.
    apply lor_below_pow2; [apply lor_below_pow2|]; assumption. }
  destruct (color_bytes_big_endian _ V) as [hi [lo [E [_ [_ D]]]]].
  unfold color_bytes in E. injection E as E1 E2. rewrite E1, E2. lia.
Qed.

Lemma pack_row_major_witness :
  exists pixel_data r g b,
    pack (crop (test_card 400 300) (50, 10, 290, 290)) LCD_WIDTH LCD_HEIGHT
      = Returned pixel_data /\
    pixel (crop (test_card 400 300) (50, 10, 290, 290)) 7 3 = (r, g, b) /\
    nth (Z.to_nat (2 * (3 * LCD_WIDTH + 7))) pixel_data (-1)
      = Z.land (Z.shiftr (rgb565 r g b) 8) 0xFF /\
    nth (Z.to_nat (2 * (3 * LCD_WIDTH + 7) + 1)) pixel_data (-1)
      = Z.land (rgb565 r g b) 0xFF /\
    (0 <= r <= 255 -> 0 <= g <= 255 -> 0 <= b <= 255 ->
     be16 (nth (Z.to_nat (2 * (3 * LCD_WIDTH + 7))) pixel_data (-1))
          (nth (Z.to_nat (2 * (3 * LCD_WIDTH + 7) + 1)) pixel_data (-1))
     = rgb565 r g b).
Proof.
  apply (pack_row_major (crop (test_card 400 300) (50, 10, 290, 290)) 7 3).
  - reflexivity.
  - unfold LCD_WIDTH. lia.
  - unfold LCD_HEIGHT. lia.
Defined.

(* ------------------------------------------------------------------ *)
(** ** Window addressing: the address bytes *)

Lemma be16_split (v : Z) :
  0 <= v < 65536 ->
  is_byte (Z.shiftr v 8) /\ is_byte (Z.land v 0xFF) /\
  be16 (Z.shiftr v 8) (Z.land v 0xFF) = v.
Proof.
  intros H. unfold is_byte, be16.
  change 0xFF with (Z.ones 8). rewrite Z.land_ones, Z.shiftr_div_pow2 by lia.
  change (2 ^ 8) with 256.
  pose proof (Z.div_mod v 256 ltac:(lia)).
  pose proof (Z.mod_pos_bound v 256 ltac:(lia)).
  assert (0 <= v / 256 < 256)
    by (split; [apply Z.div_pos; lia | apply Z.div_lt_upper_bound; lia]).
  lia.
Qed.

(** X6.  In the orientations 0..3 the window is sent as three commands:
    0x2A with four bytes, 0x2B with four bytes, 0x2C with none.  For window
    coordinates that stay in 16 bits the eight arguments are bytes, and
    read high byte first they are the columns [x0, x1] and the rows
    [y0, y1], shifted by 20 on the rows in orientations 0 and 1 and on the
    columns in orientations 2 and 3. *)
Theorem set_window_address_bytes :
  forall x0 y0 x1 y1 use_horizontal st,
    0 <= use_horizontal <= 3 ->
    0 <= x0 < 65516 -> 0 <= x1 < 65516 -> 0 <= y0 < 65516 -> 0 <= y1 < 65516 ->
    exists c0 c1 c2 c3 r0 r1 r2 r3,
      set_window x0 y0 x1 y1 use_horizontal st =
        (Returned tt,
         with_log (log st
                   ++ send_command_events (spi_has_writebytes2 st) 0x2A [c0; c1; c2; c3]
                   ++ send_command_events (spi_has_writebytes2 st) 0x2B [r0; r1; r2; r3]
                   ++ send_command_events (spi_has_writebytes2 st) 0x2C [])
                  st) /\
      Forall is_byte [c0; c1; c2; c3; r0; r1; r2; r3] /\
      be16 c0 c1 = x0 + column_offset use_horizontal /\
      be16 c2 c3 = x1 + column_offset use_horizontal /\
      be16 r0 r1 = y0 + row_offset use_horizontal /\
      be16 r2 r3 = y1 + row_offset use_horizontal.
Proof.
  intros x0 y0 x1 y1 u st Hu Hx0 Hx1 Hy0 Hy1.
  assert (App : forall a b c d,
             appends
               ((_send_command 0x2A [Z.shiftr a 8; Z.land a 0xFF; Z.shiftr b 8; Z.land b 0xFF] ;;;
                 _send_command 0x2B [Z.shiftr c 8; Z.land c 0xFF; Z.shiftr d 8; Z.land d 0xFF]) ;;;
                _send_command 0x2C [])
               (fun w =>
                  send_command_events w 0x2A
                    [Z.shiftr a 8; Z.land a 0xFF; Z.shiftr b 8; Z.land b 0xFF]
                  ++ send_command_events w 0x2B
                       [Z.shiftr c 8; Z.land c 0xFF; Z.shiftr d 8; Z.land d 0xFF]
                  ++ send_command_events w 0x2C [])).
  { intros a b c d. eapply appends_ext.
    - apply appends_bind; [|apply _send_command_appends].
      apply appends_bind; apply _send_command_appends.
    - intros w. cbv beta. rewrite <- app_assoc. reflexivity. }
  destruct (Z_le_gt_dec u 1) as [L | G].
  - assert (E : (u =? 0) || (u =? 1) = true)
      by (apply orb_true_iff; rewrite !Z.eqb_eq; lia).
    assert (C : column_offset u = 0)
      by (unfold column_offset; apply Z.leb_le in L; rewrite L; reflexivity).
    assert (R : row_offset u = 20)
      by (unfold row_offset; apply Z.leb_le in L; rewrite L; reflexivity).
    rewrite C, R, !Z.add_0_r.
    destruct (be16_split x0 ltac:(lia)) as [A1 [A2 A3]].
    destruct (be16_split x1 ltac:(lia)) as [B1 [B2 B3]].
    destruct (be16_split (y0 + 20) ltac:(lia)) as [C1 [C2 C3]].
    destruct (be16_split (y1 + 20) ltac:(lia)) as [D1 [D2 D3]].
    exists (Z.shiftr x0 8), (Z.land x0 0xFF), (Z.shiftr x1 8), (Z.land x1 0xFF),
      (Z.shiftr (y0 + 20) 8), (Z.land (y0 + 20) 0xFF),
      (Z.shiftr (y1 + 20) 8), (Z.land (y1 + 20) 0xFF).
    split.
    + unfold set_window. rewrite E. cbv iota.
      exact (App x0 x1 (y0 + 20) (y1 + 20) st).
    + split; [repeat (apply Forall_cons; [assumption|]); apply Forall_nil|].
      repeat split; assumption.
  - assert (E : (u =? 0) || (u =? 1) = false)
      by (apply orb_false_iff; rewrite !Z.eqb_neq; lia).
    assert (E' : (u =? 2) || (u =? 3) = true)
      by (apply orb_true_iff; rewrite !Z.eqb_eq; lia).
    assert (C : column_offset u = 20).
    { unfold column_offset. destruct (u <=? 1) eqn:B; [|reflexivity].
      apply Z.leb_le in B. lia. }
    assert (R : row_offset u = 0).
    { unfold row_offset. destruct (u <=? 1) eqn:B; [|reflexivity].
      apply Z.leb_le in B. lia. }
    rewrite C, R, !Z.add_0_r.
    destruct (be16_split (x0 + 20) ltac:(lia)) as [A1 [A2 A3]].
    destruct (be16_split (x1 + 20) ltac:(lia)) as [B1 [B2 B3]].
    destruct (be16_split y0 ltac:(lia)) as [C1 [C2 C3]].
    destruct (be16_split y1 ltac:(lia)) as [D1 [D2 D3]].
    exists (Z.shiftr (x0 + 20) 8), (Z.land (x0 + 20) 0xFF),
      (Z.shiftr (x1 + 20) 8), (Z.land (x1 + 20) 0xFF),
      (Z.shiftr y0 8), (Z.land y0 0xFF), (Z.shiftr y1 8), (Z.land y1 0xFF).
    split.
    + unfold set_window. rewrite E, E'. cbv iota.
      exact (App (x0 + 20) (x1 + 20) y0 y1 st).
    + split; [repeat (apply Forall_cons; [assumption|]); apply Forall_nil|].
      repeat split; assumption.
Qed.

Lemma set_window_address_bytes_witness :
  exists c0 c1 c2 c3 r0 r1 r2 r3,
    set_window 0 0 239 279 0 board_ready =
      (Returned tt,
       with_log (log board_ready
                 ++ send_command_events (spi_has_writebytes2 board_ready) 0x2A [c0; c1; c2; c3]
                 ++ send_command_events (spi_has_writebytes2 board_ready) 0x2B [r0; r1; r2; r3]
                 ++ send_command_events (spi_has_writebytes2 board_ready) 0x2C [])
                board_ready) /\
    Forall is_byte [c0; c1; c2; c3; r0; r1; r2; r3] /\
    be16 c0 c1 = 0 + column_offset 0 /\
    be16 c2 c3 = 239 + column_offset 0 /\
    be16 r0 r1 = 0 + row_offset 0 /\
    be16 r2 r3 = 279 + row_offset 0.
Proof.
  apply (set_window_address_bytes 0 0 239 279 0 board_ready); lia.
Defined.

(* ------------------------------------------------------------------ *)
(** ** Transport: bursts *)

Lemma chunks_bounds (data : list Z) :
  Forall (fun burst => (0 < length burst <= 4096)%nat) (chunks data) /\
  len (chunks data) = (len data + 4095) / 4096.
Proof.
  unfold chunks, range3, len. rewrite map_map. split.
  - apply Forall_forall. intros burst Hin.
    apply in_map_iff in Hin. destruct Hin as [k [E Hk]]. apply in_seq in Hk.
    subst burst. unfold slice.
    replace (0 + Z.of_nat k * 4096 + 4096 - (0 + Z.of_nat k * 4096)) with 4096 by lia.
    replace (Z.to_nat (0 + Z.of_nat k * 4096)) with (k * 4096)%nat by lia.
    rewrite length_firstn, length_skipn.
    assert (B : Z.of_nat k < (Z.of_nat (length data) - 0 + 4096 - 1) / 4096) by lia.
    assert (Z.of_nat k * 4096 < Z.of_nat (length data)).
    { pose proof (Z.mul_div_le (Z.of_nat (length data) - 0 + 4096 - 1) 4096 ltac:(lia)).
      nia. }
    lia.
  - rewrite length_map, length_seq.
    rewrite Z2Nat.id by (apply Z.div_pos; lia).
    f_equal. lia.
Qed.

(** X7.  On a spidev without [writebytes2], [_send_data] raises the select
    line and writes the data in bursts: each burst holds between 1 and 4096
    bytes, there are [ceil(len / 4096)] of them (none for empty data), and
    put end to end they are the data. *)
Theorem _send_data_bursts :
  forall data st,
    spi_has_writebytes2 st = false ->
    exists bursts,
      _send_data data st =
        (Returned tt,
         with_log (log st ++ GpioOutput DC_PIN HIGH :: map SpiWritebytes bursts) st) /\
      concat bursts = data /\
      Forall (fun burst => (0 < length burst <= 4096)%nat) bursts /\
      len bursts = (len data + 4095) / 4096.
Proof.
  intros data st W. exists (chunks data).
  destruct (chunks_bounds data) as [B L].
  split; [|split; [apply chunks_concat | split; assumption]].
  rewrite (_send_data_appends data st). rewrite W. reflexivity.
Qed.

Lemma _send_data_bursts_witness :
  exists bursts,
    _send_data (repeat 7 (Z.to_nat 5000)) board_old_spidev =
      (Returned tt,
       with_log (log board_old_spidev
                 ++ GpioOutput DC_PIN HIGH :: map SpiWritebytes bursts)
                board_old_spidev) /\
    concat bursts = repeat 7 (Z.to_nat 5000) /\
    Forall (fun burst => (0 < length burst <= 4096)%nat) bursts /\
    len bursts = (len (repeat 7 (Z.to_nat 5000)) + 4095) / 4096.
Proof.
  apply (_send_data_bursts (repeat 7 (Z.to_nat 5000)) board_old_spidev). reflexivity.
Defined.

(* ------------------------------------------------------------------ *)
(** ** Lines *)

Lemma last_default {A} (l : list A) (q d d' : A) :
  last (q :: l) d = last (q :: l) d'.
Proof.
  revert q. induction l as [|u l IH]; intros q.
  - reflexivity.
  - change (last (q :: u :: l) d) with (last (u :: l) d).
    change (last (q :: u :: l) d') with (last (u :: l) d').
    apply IH.
Qed.

Lemma good_run_done (X0 Y0 x1 y1 : Z) (p : Z * Z) :
  p = (x1, y1) -> near_line X0 Y0 x1 y1 p -> in_box X0 Y0 x1 y1 p ->
  good_run X0 Y0 x1 y1 p 1 ([p], true).
Proof.
  intros E N B. unfold good_run. cbn [fst snd].
  split; [reflexivity|]. split; [reflexivity|]. split; [reflexivity|].
  split; [exact E|]. split; [constructor; [exact N | constructor]|].
  split; [constructor; [exact B | constructor] | exact I].
Qed.

Lemma good_run_cons (X0 Y0 x1 y1 : Z) (p q : Z * Z) (n : Z)
      (r : list (Z * Z) * bool) :
  good_run X0 Y0 x1 y1 q n r ->
  near_line X0 Y0 x1 y1 p -> in_box X0 Y0 x1 y1 p ->
  Z.abs (fst q - fst p) <= 1 -> Z.abs (snd q - snd p) <= 1 -> p <> q ->
  good_run X0 Y0 x1 y1 p (n + 1) (p :: fst r, snd r).
Proof.
  intros [F [L [H [E [N [B C]]]]]] Np Bp Dx Dy Ne.
  destruct r as [pts fin]. cbn [fst snd] in *.
  destruct pts as [|q' pts]; [discriminate H|].
  injection H as ->.
  unfold good_run. cbn [fst snd].
  split; [exact F|].
  split; [unfold len in *; cbn [length] in *; lia|].
  split; [reflexivity|].
  split.
  - change (last (p :: q :: pts) p) with (last (q :: pts) p).
    rewrite <- E. apply last_default.
  - split; [constructor; assumption|].
    split; [constructor; assumption|].
    cbn [connected]. split; [|exact C]. repeat split; assumption.
Qed.

Section Bresenham.

Variables X0 Y0 x1 y1 dx dy sx sy : Z.
Hypothesis Hdx : dx = Z.abs (x1 - X0).
Hypothesis Hdy : dy = Z.abs (y1 - Y0).
Hypothesis Hsx : sx = if X0 <? x1 then 1 else -1.
Hypothesis Hsy : sy = if Y0 <? y1 then 1 else -1.

Lemma line_ends : x1 = X0 + sx * dx /\ y1 = Y0 + sy * dy.
Proof.
  subst. split.
  - destruct (X0 <? x1) eqn:B; [apply Z.ltb_lt in B | apply Z.ltb_ge in B]; lia.
  - destruct (Y0 <? y1) eqn:B; [apply Z.ltb_lt in B | apply Z.ltb_ge in B]; lia.
Qed.

Lemma line_signs : (sx = 1 \/ sx = -1) /\ (sy = 1 \/ sy = -1).
Proof.
  subst sx sy. split.
  - destruct (X0 <? x1); [left | right]; reflexivity.
  - destruct (Y0 <? y1); [left | right]; reflexivity.
Qed.

Lemma on_track_near (a b x y err : Z) :
  on_track X0 Y0 dx dy sx sy a b x y err ->
  2 * Z.abs (b * dx - a * dy) <= Z.max dx dy ->
  near_line X0 Y0 x1 y1 (x, y).
Proof.
  intros [Ha [Hb [Hx [Hy He]]]] H.
  destruct line_ends as [Ex Ey]. destruct line_signs as [Sx Sy].
  unfold near_line. cbn [fst snd]. rewrite <- Hdx, <- Hdy.
  replace ((y - Y0) * (x1 - X0) - (x - X0) * (y1 - Y0))
    with (sx * sy * (b * dx - a * dy)) by (rewrite Ex, Ey, Hx, Hy; ring).
  destruct Sx as [-> | ->], Sy as [-> | ->]; lia.
Qed.

Lemma on_track_in_box (a b x y err : Z) :
  on_track X0 Y0 dx dy sx sy a b x y err -> in_box X0 Y0 x1 y1 (x, y).
Proof.
  intros [Ha [Hb [Hx [Hy He]]]].
  destruct line_ends as [Ex Ey]. destruct line_signs as [Sx Sy].
  unfold in_box. cbn [fst snd].
  destruct Sx as [Sx | Sx], Sy as [Sy | Sy]; rewrite Sx in *; rewrite Sy in *; lia.
Qed.

Lemma on_track_done (a b x y err : Z) :
  on_track X0 Y0 dx dy sx sy a b x y err ->
  ((x =? x1) && (y =? y1) = true <-> a = dx /\ b = dy).
Proof.
  intros [Ha [Hb [Hx [Hy He]]]].
  destruct line_ends as [Ex Ey].
  destruct line_signs as [Sx Sy].
  rewrite andb_true_iff, !Z.eqb_eq.
  destruct Sx as [Sx | Sx], Sy as [Sy | Sy]; rewrite Sx in *; rewrite Sy in *; lia.
Qed.

Lemma x_major_run :
  dy <= dx -> 0 < dx ->
  forall (fuel : nat) (a b x y err : Z),
    on_track X0 Y0 dx dy sx sy a b x y err ->
    x_major_inv dx dy a b ->
    (Z.to_nat (dx - a) < fuel)%nat ->
    good_run X0 Y0 x1 y1 (x, y) (dx - a + 1)
             (line_points fuel x y x1 y1 dx dy sx sy err).
Proof.
  intros Hle Hpos.
  destruct line_signs as [Sx Sy].
  induction fuel as [|fuel IH]; intros a b x y err T K F; [lia|].
  pose proof (on_track_done a b x y err T) as D.
  pose proof (on_track_in_box a b x y err T) as B.
  assert (N : near_line X0 Y0 x1 y1 (x, y)).
  { apply (on_track_near a b x y err T). destruct K as [_ K]. lia. }
  destruct T as [Ha [Hb [Hx [Hy He]]]]. destruct K as [K1 K2].
  cbn [line_points].
  destruct ((x =? x1) && (y =? y1)) eqn:Done.
  - destruct (proj1 D eq_refl) as [-> ->].
    replace (dx - dx + 1) with 1 by lia.
    apply good_run_done; [|exact N | exact B].
    apply andb_true_iff in Done. destruct Done as [E1 E2].
    apply Z.eqb_eq in E1, E2. congruence.
  - assert (Ha' : a < dx).
    { destruct (Z.eq_dec a dx) as [E|]; [|lia]. exfalso.
      assert (E' : b = dy).
      { destruct (Z.eq_dec b dy) as [|NE]; [assumption|].
        assert (dx * 1 <= dx * (dy - b)) by (apply Z.mul_le_mono_nonneg_l; lia).
        subst a. lia. }
      discriminate (proj2 D (conj E E')). }
    assert (Gx : (2 * err >? - dy) = true) by (apply Z.gtb_lt; lia).
    rewrite Gx.
    destruct (2 * err <? dx) eqn:Gy.
    + apply Z.ltb_lt in Gy.
      assert (Hb' : b < dy).
      { destruct (Z.eq_dec b dy) as [E|]; [|lia].
        assert (dy * 1 <= dy * (dx - a)) by (apply Z.mul_le_mono_nonneg_l; lia).
        subst b. lia. }
      replace (dx - a + 1) with (dx - (a + 1) + 1 + 1) by lia.
      apply (good_run_cons X0 Y0 x1 y1 (x, y) (x + sx, y + sy)); cbn [fst snd].
      * apply (IH (a + 1) (b + 1)).
        -- unfold on_track. repeat split; try lia; subst; ring.
        -- unfold x_major_inv. lia.
        -- lia.
      * exact N.
      * exact B.
      * destruct Sx as [-> | ->]; lia.
      * destruct Sy as [-> | ->]; lia.
      * intros E. injection E as E _. destruct Sx as [Sx | Sx]; rewrite Sx in E; lia.
    + apply Z.ltb_ge in Gy.
      replace (dx - a + 1) with (dx - (a + 1) + 1 + 1) by lia.
      apply (good_run_cons X0 Y0 x1 y1 (x, y) (x + sx, y)); cbn [fst snd].
      * apply (IH (a + 1) b).
        -- unfold on_track. repeat split; try lia; subst; ring.
        -- unfold x_major_inv. lia.
        -- lia.
      * exact N.
      * exact B.
      * destruct Sx as [-> | ->]; lia.
      * lia.
      * intros E. injection E as E. destruct Sx as [Sx | Sx]; rewrite Sx in E; lia.
Qed.

Lemma y_major_run :
  dx < dy ->
  forall (fuel : nat) (a b x y err : Z),
    on_track X0 Y0 dx dy sx sy a b x y err ->
    y_major_inv dx dy a b ->
    (Z.to_nat (dy - b) < fuel)%nat ->
    good_run X0 Y0 x1 y1 (x, y) (dy - b + 1)
             (line_points fuel x y x1 y1 dx dy sx sy err).
Proof.
  intros Hlt.
  assert (Hx0 : 0 <= dx) by lia.
  destruct line_signs as [Sx Sy].
  induction fuel as [|fuel IH]; intros a b x y err T K F; [lia|].
  pose proof (on_track_done a b x y err T) as D.
  pose proof (on_track_in_box a b x y err T) as B.
  assert (N : near_line X0 Y0 x1 y1 (x, y)).
  { apply (on_track_near a b x y err T). destruct K as [_ K]. lia. }
  destruct T as [Ha [Hb [Hx [Hy He]]]]. destruct K as [K1 K2].
  cbn [line_points].
  destruct ((x =? x1) && (y =? y1)) eqn:Done.
  - destruct (proj1 D eq_refl) as [-> ->].
    replace (dy - dy + 1) with 1 by lia.
    apply good_run_done; [|exact N | exact B].
    apply andb_true_iff in Done. destruct Done as [E1 E2].
    apply Z.eqb_eq in E1, E2. congruence.
  - assert (Hb' : b < dy).
    { destruct (Z.eq_dec b dy) as [E|]; [|lia]. exfalso.
      assert (E' : a = dx).
      { destruct (Z.eq_dec a dx) as [|NE]; [assumption|].
        assert (dy * 1 <= dy * (dx - a)) by (apply Z.mul_le_mono_nonneg_l; lia).
        subst b. lia. }
      discriminate (proj2 D (conj E' E)). }
    assert (Gy : (2 * err <? dx) = true) by (apply Z.ltb_lt; lia).
    rewrite Gy.
    destruct (2 * err >? - dy) eqn:Gx.
    + apply Z.gtb_lt in Gx.
      assert (Ha' : a < dx).
      { destruct (Z.eq_dec a dx) as [E|]; [|lia].
        assert (dx * 1 <= dx * (dy - b)) by (apply Z.mul_le_mono_nonneg_l; lia).
        subst a. lia. }
      replace (dy - b + 1) with (dy - (b + 1) + 1 + 1) by lia.
      apply (good_run_cons X0 Y0 x1 y1 (x, y) (x + sx, y + sy)); cbn [fst snd].
      * apply (IH (a + 1) (b + 1)).
        -- unfold on_track. repeat split; try lia; subst; ring.
        -- unfold y_major_inv. lia.
        -- lia.
      * exact N.
      * exact B.
      * destruct Sx as [-> | ->]; lia.
      * destruct Sy as [-> | ->]; lia.
      * intros E. injection E as E _. destruct Sx as [Sx | Sx]; rewrite Sx in E; lia.
    + assert (Gx' : ~ - dy < 2 * err).
      { intros C. apply Z.gtb_lt in C. congruence. }
      replace (dy - b + 1) with (dy - (b + 1) + 1 + 1) by lia.
      apply (good_run_cons X0 Y0 x1 y1 (x, y) (x, y + sy)); cbn [fst snd].
      * apply (IH a (b + 1)).
        -- unfold on_track. repeat split; try lia; subst; ring.
        -- unfold y_major_inv. lia.
        -- lia.
      * exact N.
      * exact B.
      * lia.
      * destruct Sy as [-> | ->]; lia.
      * intros E. injection E as E. destruct Sy as [Sy | Sy]; rewrite Sy in E; lia.
Qed.

(** The loop of [draw_line], started as [draw_line] starts it, ends and
    yields a good run of [max dx dy + 1] points. *)
Lemma line_points_good (fuel : nat) :
  (Z.to_nat (Z.max dx dy) < fuel)%nat ->
  good_run X0 Y0 x1 y1 (X0, Y0) (Z.max dx dy + 1)
           (line_points fuel X0 Y0 x1 y1 dx dy sx sy (dx - dy)).
Proof.
  intros F.
  assert (T : on_track X0 Y0 dx dy sx sy 0 0 X0 Y0 (dx - dy)).
  { unfold on_track. repeat split; lia. }
  destruct (Z_lt_le_dec dx dy) as [Hlt | Hle].
  - replace (Z.max dx dy + 1) with (dy - 0 + 1) by lia.
    apply (y_major_run Hlt fuel 0 0); [exact T | unfold y_major_inv; lia | ].
    replace (dy - 0) with (Z.max dx dy) by lia. exact F.
  - destruct (Z.eq_dec dx 0) as [Z0 | NZ].
    + assert (dy = 0) by lia.
      destruct fuel as [|fuel]; [lia|].
      cbn [line_points].
      destruct line_ends as [Ex Ey].
      assert (E1 : X0 = x1) by lia. assert (E2 : Y0 = y1) by lia.
      replace ((X0 =? x1) && (Y0 =? y1)) with true
        by (symmetry; apply andb_true_iff; split; apply Z.eqb_eq; assumption).
      replace (Z.max dx dy + 1) with 1 by lia.
      apply good_run_done.
      * congruence.
      * apply (on_track_near 0 0 X0 Y0 (dx - dy) T). lia.
      * apply (on_track_in_box 0 0 X0 Y0 (dx - dy) T).
    + replace (Z.max dx dy + 1) with (dx - 0 + 1) by lia.
      apply (x_major_run Hle ltac:(lia) fuel 0 0); [exact T | unfold x_major_inv; lia | ].
      replace (dx - 0) with (Z.max dx dy) by lia. exact F.
Qed.

End Bresenham.

Lemma draw_pixel_returns (x y color : Z) (st : board) :
  draw_pixel x y color st = (Returned tt, snd (draw_pixel x y color st)).
Proof.
  unfold draw_pixel.
  destruct ((x >=? LCD_WIDTH) || (y >=? LCD_HEIGHT)); [reflexivity|].
  rewrite (appends_bind _ _ _ _ (set_window_appends x y x y)
                        (_send_data_appends (color_bytes color)) st).
  reflexivity.
Qed.

Lemma draw_line_loop_points (x1 y1 dx dy sx sy color : Z) (fuel : nat) :
  forall (x0 y0 err : Z) (st : board),
    draw_line_loop fuel x0 y0 x1 y1 dx dy sx sy err color st =
    (Returned (snd (line_points fuel x0 y0 x1 y1 dx dy sx sy err)),
     draw_points color (fst (line_points fuel x0 y0 x1 y1 dx dy sx sy err)) st).
Proof.
  induction fuel as [|fuel IH]; intros x0 y0 err st; [reflexivity|].
  cbn [draw_line_loop line_points]. unfold bind at 1.
  rewrite draw_pixel_returns.
  destruct ((x0 =? x1) && (y0 =? y1)); [reflexivity|].
  rewrite IH. reflexivity.
Qed.

(** X8. [draw_line] always ends: for every pair of end points and every
    board, the [while True] loop of the Bresenham walk reaches its
    [break] after [max (|x1 - x0|) (|y1 - y0|) + 1] calls of [draw_pixel]
    and no exception.  The points handed to [draw_pixel] start at
    [(x0, y0)], end at [(x1, y1)], each is a neighbour of the one before
    (one step at most on each axis, never the same point twice in a
    row), all lie in the rectangle the end points span, and each lies
    within half a pixel of the ideal segment along the minor axis. *)
Theorem draw_line_walks_segment (x0 y0 x1 y1 color : Z) (st : board) (fuel : nat) :
  (Z.to_nat (Z.max (Z.abs (x1 - x0)) (Z.abs (y1 - y0))) < fuel)%nat ->
  exists points : list (Z * Z),
    draw_line fuel x0 y0 x1 y1 color st
    = (Returned true, draw_points color points st) /\
    len points = Z.max (Z.abs (x1 - x0)) (Z.abs (y1 - y0)) + 1 /\
    hd_error points = Some (x0, y0) /\
    last points (x0, y0) = (x1, y1) /\
    Forall (near_line x0 y0 x1 y1) points /\
    Forall (in_box x0 y0 x1 y1) points /\
    connected points.
Proof.
  intros F.
  pose proof (line_points_good x0 y0 x1 y1 _ _ _ _
                               eq_refl eq_refl eq_refl eq_refl fuel F)
    as [Fin [L [H [E [N [B C]]]]]].
  eexists. split; [|repeat split; eassumption].
  unfold draw_line. rewrite draw_line_loop_points, Fin. reflexivity.
Qed.

Lemma draw_line_walks_segment_witness :
  exists points : list (Z * Z),
    draw_line 6 0 0 5 2 0xF800 board_ready
    = (Returned true, draw_points 0xF800 points board_ready) /\
    len points = Z.max (Z.abs (5 - 0)) (Z.abs (2 - 0)) + 1 /\
    hd_error points = Some (0, 0) /\
    last points (0, 0) = (5, 2) /\
    Forall (near_line 0 0 5 2) points /\
    Forall (in_box 0 0 5 2) points /\
    connected points.
Proof.
  apply (draw_line_walks_segment 0 0 5 2 0xF800 board_ready 6).
  vm_compute. lia.
Defined.

(* ------------------------------------------------------------------ *)
(** ** RGB indicator: rejected values *)

Lemma PWM_ChangeDutyCycle_rejects (p : pwm) (dc : Q) (s : board) :
  valid_dutycycle dc = false ->
  PWM_ChangeDutyCycle p dc s = (Raised ValueError, s).
Proof.
  intros V. unfold PWM_ChangeDutyCycle. rewrite V. reflexivity.
Qed.

Lemma invalid_duty (v : Z) :
  ~ 0 <= v <= 255 -> valid_dutycycle (duty_formula v) = false.
Proof.
  intros H. destruct (valid_dutycycle (duty_formula v)) eqn:V; [|reflexivity].
  apply valid_formula_iff in V. contradiction.
Qed.

(** The write of a value outside 0..255 raises, at the division or at
    the PWM object, and changes nothing. *)
Lemma duty_write_rejected {A} (v : Z) (p : pwm) (k : pwm -> M board A)
      (s : board) :
  ~ 0 <= v <= 255 ->
  (dr <- lift (channel_duty v) ;;
   p' <- PWM_ChangeDutyCycle p dr ;;
   k p') s
  = (Raised match channel_duty v with
            | Raised e => e
            | Returned _ => ValueError
            end, s).
Proof.
  intros H. destruct (channel_duty_cases v) as [C | C].
  - unfold bind at 1. unfold lift at 1. rewrite C. reflexivity.
  - unfold bind at 1. unfold lift at 1. rewrite C.
    unfold bind at 1.
    rewrite (PWM_ChangeDutyCycle_rejects p (duty_formula v) _ (invalid_duty v H)).
    reflexivity.
Qed.

(** X9.  [set_rgb] never raises, and a value outside 0..255 is not
    rejected as a whole: the channels are written in the order red, green,
    blue, the first value out of range stops the call, the channels before
    it have already got their new duty cycle, and the stored colour is
    left as it was.  So after [set_rgb(10, 300, 0)] the red LED shows 10
    while [_current_r] still holds the old value. *)
Theorem set_rgb_rejected :
  forall r g b st rp gp bp,
    red_pwm st = Some rp -> green_pwm st = Some gp -> blue_pwm st = Some bp ->
    (~ 0 <= r <= 255 -> set_rgb r g b st = (Returned tt, st)) /\
    (0 <= r <= 255 -> ~ 0 <= g <= 255 ->
     set_rgb r g b st =
       (Returned tt,
        with_red_pwm (Some (set_dutycycle rp (duty r)))
          (with_log (log st ++ [PwmChangeDutyCycle (pwm_channel rp) (duty r)])
                    st))) /\
    (0 <= r <= 255 -> 0 <= g <= 255 -> ~ 0 <= b <= 255 ->
     set_rgb r g b st =
       (Returned tt,
        with_green_pwm (Some (set_dutycycle gp (duty g)))
          (with_red_pwm (Some (set_dutycycle rp (duty r)))
             (with_log (log st ++ [PwmChangeDutyCycle (pwm_channel rp) (duty r);
                                   PwmChangeDutyCycle (pwm_channel gp) (duty g)])
                       st)))) /\
    (~ (0 <= r <= 255 /\ 0 <= g <= 255 /\ 0 <= b <= 255) ->
     fst (set_rgb r g b st) = Returned tt /\
     stored (snd (set_rgb r g b st)) = stored st).
Proof.
  intros r g b st rp gp bp Hr Hg Hb.
  destruct st as [gi bm blp rp0 gp0 bp0 cr cg cb w2 granted l].
  board_simpl. subst rp0 gp0 bp0.
  assert (R : ~ 0 <= r <= 255 ->
              set_rgb r g b (mk_board gi bm blp (Some rp) (Some gp) (Some bp)
                                      cr cg cb w2 granted l)
              = (Returned tt,
                 mk_board gi bm blp (Some rp) (Some gp) (Some bp)
                          cr cg cb w2 granted l)).
  { intros Vr.
    unfold set_rgb. unfold bind at 1. unfold get. board_simpl.
    unfold try_except.
    rewrite (duty_write_rejected r rp _ _ Vr). reflexivity. }
  assert (G : 0 <= r <= 255 -> ~ 0 <= g <= 255 ->
              set_rgb r g b (mk_board gi bm blp (Some rp) (Some gp) (Some bp)
                                      cr cg cb w2 granted l)
              = (Returned tt,
                 mk_board gi bm blp (Some (set_dutycycle rp (duty r)))
                          (Some gp) (Some bp) cr cg cb w2 granted
                          (l ++ [PwmChangeDutyCycle (pwm_channel rp) (duty r)]))).
  { intros Rr Vg. pose proof (valid_duty_byte r Rr) as Vr.
    unfold set_rgb. unfold bind at 1. unfold get. board_simpl.
    unfold try_except.
    unfold bind at 1. unfold lift at 1. rewrite (channel_duty_duty r Rr).
    unfold bind at 1. rewrite (PWM_ChangeDutyCycle_accepts rp (duty r) _ Vr).
    board_simpl.
    unfold bind at 1. unfold modify at 1. board_simpl.
    rewrite (duty_write_rejected g gp _ _ Vg). reflexivity. }
  assert (B : 0 <= r <= 255 -> 0 <= g <= 255 -> ~ 0 <= b <= 255 ->
              set_rgb r g b (mk_board gi bm blp (Some rp) (Some gp) (Some bp)
                                      cr cg cb w2 granted l)
              = (Returned tt,
                 mk_board gi bm blp (Some (set_dutycycle rp (duty r)))
                          (Some (set_dutycycle gp (duty g))) (Some bp)
                          cr cg cb w2 granted
                          (l ++ [PwmChangeDutyCycle (pwm_channel rp) (duty r);
                                 PwmChangeDutyCycle (pwm_channel gp) (duty g)]))).
  { intros Rr Rg Vb.
    pose proof (valid_duty_byte r Rr) as Vr.
    pose proof (valid_duty_byte g Rg) as Vg.
    unfold set_rgb. unfold bind at 1. unfold get. board_simpl.
    unfold try_except.
    unfold bind at 1. unfold lift at 1. rewrite (channel_duty_duty r Rr).
    unfold bind at 1. rewrite (PWM_ChangeDutyCycle_accepts rp (duty r) _ Vr).
    board_simpl.
    unfold bind at 1. unfold modify at 1. board_simpl.
    unfold bind at 1. unfold lift at 1. rewrite (channel_duty_duty g Rg).
    unfold bind at 1. rewrite (PWM_ChangeDutyCycle_accepts gp (duty g) _ Vg).
    board_simpl.
    unfold bind at 1. unfold modify at 1. board_simpl.
    rewrite (duty_write_rejected b bp _ _ Vb). rewrite <- app_assoc. reflexivity. }
  split; [exact R|]. split; [exact G|]. split; [exact B|].
  intros N.
  destruct (Z_le_dec 0 r) as [r0|]; [destruct (Z_le_dec r 255) as [r1|]|];
    try (rewrite R by lia; split; reflexivity).
  destruct (Z_le_dec 0 g) as [g0|]; [destruct (Z_le_dec g 255) as [g1|]|];
    try (rewrite G by lia; split; reflexivity).
  rewrite B by lia. split; reflexivity.
Qed.

Lemma set_rgb_rejected_witness :
  set_rgb 10 300 0 board_ready =
    (Returned tt,
     with_red_pwm (Some (set_dutycycle (mk_pwm RED_PIN 100 0) (duty 10)))
       (with_log (log board_ready
                  ++ [PwmChangeDutyCycle (pwm_channel (mk_pwm RED_PIN 100 0)) (duty 10)])
                 board_ready)) /\
  stored (snd (set_rgb 10 300 0 board_ready)) = stored board_ready.
Proof.
  destruct (set_rgb_rejected 10 300 0 board_ready
              (mk_pwm RED_PIN 100 0) (mk_pwm GREEN_PIN 100 0) (mk_pwm BLUE_PIN 100 0)
              eq_refl eq_refl eq_refl) as [_ [G [_ S]]].
  split; [apply G; lia | apply S; lia].
Defined.

(* ------------------------------------------------------------------ *)
(** ** Backlight: the calls that change nothing, or less than asked *)

(** X10.  What [set_backlight] does outside the case of a brightness in
    0..100 on a working board; it never raises.
    - Without GPIO it does nothing.
    - In PWM mode, when the PWM object cannot be created, it does nothing.
    - In PWM mode a brightness outside 0..100 is dropped without a word;
      on the first call the PWM object is still created and started at
      duty cycle 100, which is the backlight switched off.
    - In switch mode every brightness but 0 switches the backlight on,
      negative ones and those above 100 as well. *)
Theorem set_backlight_fallbacks :
  forall brightness st,
    (_gpio_initialized st = false ->
     set_backlight brightness st = (Returned tt, st)) /\
    (_gpio_initialized st = true -> backlight_mode st = true ->
     backlight_pwm st = None -> gpio_pwm_granted st = false ->
     set_backlight brightness st = (Returned tt, st)) /\
    (_gpio_initialized st = true -> backlight_mode st = true ->
     ~ 0 <= brightness <= 100 ->
     (backlight_pwm st <> None ->
      set_backlight brightness st = (Returned tt, st)) /\
     (backlight_pwm st = None -> gpio_pwm_granted st = true ->
      set_backlight brightness st =
        (Returned tt,
         with_backlight_pwm (Some (mk_pwm LED_PIN 1000 100))
           (with_log (log st ++ [PwmStart LED_PIN 100]) st)))) /\
    (_gpio_initialized st = true -> backlight_mode st = false ->
     brightness <> 0 ->
     set_backlight brightness st =
       (Returned tt, with_log (log st ++ [GpioOutput LED_PIN BACKLIGHT_ON]) st)).
Proof.
  intros b st.
  destruct st as [gi bm bp rp gp blp cr cg cb w2 granted l].
  board_simpl.
  split; [|split; [|split]].
  - intros ->. reflexivity.
  - intros -> -> -> ->. reflexivity.
  - intros -> -> Hb.
    assert (Hrange : (0 <=? b) && (b <=? 100) = false).
    { apply andb_false_iff.
      destruct (Z_le_dec 0 b); [right; apply Z.leb_gt; lia | left; apply Z.leb_gt; lia]. }
    split.
    + intros Hp. destruct bp as [p0|]; [|congruence].
      unfold set_backlight, bind, get, ret.
      cbn -[Z.sub valid_dutycycle Z.leb].
      rewrite Hrange. reflexivity.
    + intros -> ->.
      unfold set_backlight, bind, get, try_except, ret, modify,
        GPIO_PWM, PWM_start, emit.
      cbn -[Z.sub valid_dutycycle Z.leb].
      change (valid_dutycycle 100) with true.
      cbn -[Z.sub valid_dutycycle Z.leb].
      rewrite Hrange. reflexivity.
  - intros -> -> Hb.
    unfold set_backlight, bind, get, try_except, GPIO_output, emit, modify.
    cbn -[Z.eqb].
    destruct (b =? 0) eqn:E; [apply Z.eqb_eq in E; contradiction | reflexivity].
Qed.

Lemma set_backlight_fallbacks_witness :
  set_backlight 150 board_ready
  = (Returned tt,
     with_backlight_pwm (Some (mk_pwm LED_PIN 1000 100))
       (with_log (log board_ready ++ [PwmStart LED_PIN 100]) board_ready)) /\
  set_backlight (-1) board_switch
  = (Returned tt,
     with_log (log board_switch ++ [GpioOutput LED_PIN BACKLIGHT_ON]) board_switch).
Proof.
  split.
  - destruct (set_backlight_fallbacks 150 board_ready) as [_ [_ [H _]]].
    apply H; [reflexivity | reflexivity | lia | reflexivity | reflexivity].
  - destruct (set_backlight_fallbacks (-1) board_switch) as [_ [_ [_ H]]].
    apply H; [reflexivity | reflexivity | lia].
Defined.

(* ------------------------------------------------------------------ *)
(** ** RGB indicator: the fades that raise *)

Lemma finite_quotient (n : Z) : finite_int n -> Z.abs n <= 2 ^ 1001.
Proof.
  unfold finite_int. change (2 ^ 1001) with (2 * 2 ^ 1000).
  generalize (2 ^ 1000). intros K H. lia.
Qed.

(** A division by 20 that raises raises OverflowError. *)
Lemma int_truediv_20_raises (a : Z) (e : exn) :
  PyFloat.int_truediv a 20 = Raised e -> e = OverflowError.
Proof.
  unfold PyFloat.int_truediv. change (20 =? 0) with false. cbv iota zeta.
  destruct (PyFloat.overflows _); congruence.
Qed.

(** X11.  [set_rgb_fade] reads [_current_r], [_current_g], [_current_b]
    before it looks at the PWM objects.  On a board where one of them was
    never assigned it raises and touches nothing, whatever the targets
    and the duration (integers the divisions by 20 take): it raises
    AttributeError, unless a stored value that is assigned and read
    before is so large that the division of its difference to the target
    raises OverflowError first.  [set_rgb] on a board without its PWM
    objects returns quietly. *)
Theorem set_rgb_fade_unassigned :
  forall r_target g_target b_target duration_ms st,
    finite_int r_target -> finite_int g_target -> finite_int b_target ->
    finite_int duration_ms ->
    stored st = None ->
    exists e,
      set_rgb_fade r_target g_target b_target duration_ms st = (Raised e, st) /\
      (e = AttributeError \/ e = OverflowError) /\
      (assigned_finite (_current_r st) -> assigned_finite (_current_g st) ->
       e = AttributeError).
Proof.
  intros rt gt bt d st Frt Fgt _ Fd H.
  unfold set_rgb_fade. cbv zeta.
  unfold bind at 1. unfold lift at 1.
  rewrite (int_truediv_returns d 20 eq_refl (finite_quotient d Fd)).
  unfold bind at 1. unfold get.
  unfold stored in H.
  unfold bind at 1.
  destruct (_current_r st) as [cr|];
    [|exists AttributeError; split; [reflexivity | split; [left|]; reflexivity]].
  unfold attr at 1. unfold ret at 1.
  unfold bind at 1. unfold lift at 1.
  destruct (PyFloat.int_truediv (rt - cr) 20) as [qr|er] eqn:Dr.
  2:{ exists er. split; [reflexivity|].
      split; [right; exact (int_truediv_20_raises _ _ Dr)|].
      intros Ar _. cbn [assigned_finite] in Ar.
      rewrite (int_truediv_returns (rt - cr) 20 eq_refl
                 (finite_difference _ _ Frt Ar)) in Dr.
      discriminate Dr. }
  unfold bind at 1.
  destruct (_current_g st) as [cg|];
    [|exists AttributeError; split; [reflexivity | split; [left|]; reflexivity]].
  unfold attr at 1. unfold ret at 1.
  unfold bind at 1. unfold lift at 1.
  destruct (PyFloat.int_truediv (gt - cg) 20) as [qg|eg] eqn:Dg.
  2:{ exists eg. split; [reflexivity|].
      split; [right; exact (int_truediv_20_raises _ _ Dg)|].
      intros _ Ag. cbn [assigned_finite] in Ag.
      rewrite (int_truediv_returns (gt - cg) 20 eq_refl
                 (finite_difference _ _ Fgt Ag)) in Dg.
      discriminate Dg. }
  unfold bind at 1.
  destruct (_current_b st) as [cb|]; [discriminate H|].
  exists AttributeError. split; [reflexivity | split; [left|]; reflexivity].
Qed.

Lemma set_rgb_fade_unassigned_witness :
  set_rgb_fade 255 0 0 100 board_no_rgb = (Raised AttributeError, board_no_rgb).
Proof.
  destruct (set_rgb_fade_unassigned 255 0 0 100 board_no_rgb
              ltac:(reflexivity) ltac:(reflexivity) ltac:(reflexivity)
              ltac:(reflexivity) eq_refl) as [e [Run [_ E]]].
  rewrite Run, (E I I). reflexivity.
Defined.

(** The other exception of an unassigned board: a stored red value beyond
    the floats, read before the unassigned green one. *)
Example set_rgb_fade_stored_overflow :
  set_rgb_fade 0 0 0 100 (with_current (Some (2 ^ 1100)) None None board_no_rgb)
  = (Raised OverflowError,
     with_current (Some (2 ^ 1100)) None None board_no_rgb).
Proof. vm_compute. reflexivity. Qed.

(** A negative duration gives a negative pause, which [time.sleep]
    refuses: with a ValueError above [- SLEEP_OVERFLOW_MS], with an
    OverflowError from there down. *)
Lemma fade_pause_negative (duration_ms : Z) :
  finite_int duration_ms -> duration_ms < 0 ->
  PyFloat.int_truediv duration_ms 20
  = Returned (PyFloat.rnd (inject_Z duration_ms / inject_Z 20)) /\
  PyFloat.truediv (PyFloat.rnd (inject_Z duration_ms / inject_Z 20))
                  (PyFloat.of_int 1000) = Returned (fade_pause duration_ms) /\
  (- SLEEP_OVERFLOW_MS < duration_ms ->
   sleep_overflows (fade_pause duration_ms) = false /\
   Qle_bool 0 (fade_pause duration_ms) = false) /\
  (duration_ms <= - SLEEP_OVERFLOW_MS ->
   sleep_overflows (fade_pause duration_ms) = true).
Proof.
  intros F H. split; [|split; [|split]].
  - apply int_truediv_returns; [lia | apply finite_quotient, F].
  - unfold PyFloat.truediv.
    assert (E : Qeq_bool (PyFloat.of_int 1000) 0 = false) by (vm_compute; reflexivity).
    rewrite E. reflexivity.
  - intros L.
    pose proof (fade_pause_mono (- SLEEP_OVERFLOW_MS + 1) duration_ms
                  ltac:(lia)) as Lo.
    pose proof (fade_pause_mono duration_ms (-1) ltac:(lia)) as Hi.
    split.
    + apply (sleep_fits (fade_pause (- SLEEP_OVERFLOW_MS + 1)) (fade_pause (-1)));
        [split; assumption | vm_compute; reflexivity | vm_compute; reflexivity].
    + destruct (Qle_bool 0 (fade_pause duration_ms)) eqn:B; [|reflexivity].
      exfalso. apply Qle_bool_iff in B.
      assert (C : (fade_pause (-1) < 0)%Q) by (vm_compute; reflexivity).
      lra.
  - intros L.
    apply (sleep_below _ (fade_pause (- SLEEP_OVERFLOW_MS)));
      [apply fade_pause_mono; exact L | vm_compute; reflexivity].
Qed.

(** The first pass of the loop of a fade with a negative duration: the
    stored colour is written, then [time.sleep] raises. *)
Lemma fade_first_sample_raises (rs gs bs : PyFloat.float) (secs : Q) (e : exn)
      (st : board) (rp gp bp : pwm) (cr cg cb : Z) :
  red_pwm st = Some rp -> green_pwm st = Some gp -> blue_pwm st = Some bp ->
  stored st = Some (cr, cg, cb) ->
  0 <= cr <= 255 -> 0 <= cg <= 255 -> 0 <= cb <= 255 ->
  forall delay,
    PyFloat.truediv delay (PyFloat.of_int 1000) = Returned secs ->
    time_sleep secs (rgb_applied cr cg cb rp gp bp st)
    = (Raised e, rgb_applied cr cg cb rp gp bp st) ->
    fade_iteration rs gs bs delay 0 st
    = (Raised e, rgb_applied cr cg cb rp gp bp st).
Proof.
  intros Hr Hg Hb Hcur Rr Rg Rb delay Hs Hsl.
  destruct (stored_fields _ _ _ _ Hcur) as [Cr [Cg Cb]].
  unfold fade_iteration, bind, get. rewrite Cr, Cg, Cb.
  unfold attr, ret.
  rewrite !interim_zero, !clamp255_id by assumption.
  rewrite (set_rgb_accepted _ _ _ st rp gp bp Hr Hg Hb Rr Rg Rb).
  unfold lift. rewrite Hs. exact Hsl.
Qed.

(** X12.  A negative [duration_ms] is not refused at the start.  The
    first sample, which is the stored colour itself, is written to the
    three PWM objects and stored; then [time.sleep] raises on the negative
    pause, and the exception leaves [set_rgb_fade]: no further sample, no
    pause, the target never reached.  The exception is a ValueError for
    the durations above [- SLEEP_OVERFLOW_MS]; from there down the pause
    no longer fits the 64-bit count of nanoseconds, which [time.sleep]
    checks first, and it is an OverflowError.  Targets and duration are
    integers the divisions by 20 take. *)
Theorem set_rgb_fade_negative_duration :
  forall r_target g_target b_target duration_ms st rp gp bp cr cg cb,
    finite_int r_target -> finite_int g_target -> finite_int b_target ->
    finite_int duration_ms ->
    red_pwm st = Some rp -> green_pwm st = Some gp -> blue_pwm st = Some bp ->
    stored st = Some (cr, cg, cb) ->
    0 <= cr <= 255 -> 0 <= cg <= 255 -> 0 <= cb <= 255 ->
    duration_ms < 0 ->
    set_rgb_fade r_target g_target b_target duration_ms st
    = (Raised (if duration_ms <=? - SLEEP_OVERFLOW_MS
               then OverflowError else ValueError),
       rgb_applied cr cg cb rp gp bp st).
Proof.
  intros rt gt bt d st rp gp bp cr cg cb Frt Fgt Fbt Fd Hr Hg Hb Hcur Rr Rg Rb Hd.
  destruct (stored_fields _ _ _ _ Hcur) as [Cr [Cg Cb]].
  destruct (fade_pause_negative d Fd Hd) as [Hdiv [Hs [Hin Hout]]].
  unfold set_rgb_fade. cbv zeta.
  unfold bind at 1. unfold lift at 1. rewrite Hdiv.
  unfold bind at 1. unfold get.
  unfold bind at 1. rewrite Cr. unfold attr at 1. unfold ret at 1.
  unfold bind at 1. unfold lift at 1.
  rewrite (int_truediv_returns (rt - cr) 20 eq_refl
             (finite_difference _ _ Frt (channel_finite _ Rr))).
  unfold bind at 1. rewrite Cg. unfold attr at 1. unfold ret at 1.
  unfold bind at 1. unfold lift at 1.
  rewrite (int_truediv_returns (gt - cg) 20 eq_refl
             (finite_difference _ _ Fgt (channel_finite _ Rg))).
  unfold bind at 1. rewrite Cb. unfold attr at 1. unfold ret at 1.
  unfold bind at 1. unfold lift at 1.
  rewrite (int_truediv_returns (bt - cb) 20 eq_refl
             (finite_difference _ _ Fbt (channel_finite _ Rb))).
  change (range (20 + 1)) with (0 :: map Z.succ (range 20)).
  cbn [for_each]. unfold bind at 1.
  rewrite (fade_first_sample_raises _ _ _ (fade_pause d)
             (if d <=? - SLEEP_OVERFLOW_MS then OverflowError else ValueError)
             st rp gp bp cr cg cb Hr Hg Hb Hcur Rr Rg Rb _ Hs).
  - reflexivity.
  - unfold time_sleep.
    destruct (d <=? - SLEEP_OVERFLOW_MS) eqn:B.
    + apply Z.leb_le in B. rewrite (Hout B). reflexivity.
    + apply Z.leb_gt in B. destruct (Hin B) as [Ho Hp].
      rewrite Ho, Hp. reflexivity.
Qed.

Lemma set_rgb_fade_negative_duration_witness :
  set_rgb_fade 255 255 255 (-100) board_ready
  = (Raised ValueError,
     rgb_applied 0 0 0 (mk_pwm RED_PIN 100 0) (mk_pwm GREEN_PIN 100 0)
                 (mk_pwm BLUE_PIN 100 0) board_ready) /\
  set_rgb_fade 255 255 255 (-184467440737095) board_ready
  = (Raised ValueError,
     rgb_applied 0 0 0 (mk_pwm RED_PIN 100 0) (mk_pwm GREEN_PIN 100 0)
                 (mk_pwm BLUE_PIN 100 0) board_ready) /\
  set_rgb_fade 255 255 255 (-184467440737096) board_ready
  = (Raised OverflowError,
     rgb_applied 0 0 0 (mk_pwm RED_PIN 100 0) (mk_pwm GREEN_PIN 100 0)
                 (mk_pwm BLUE_PIN 100 0) board_ready).
Proof.
  assert (F : forall n, (Z.abs n <? 2 ^ 1000) = true -> finite_int n)
    by (intros n; apply Z.ltb_lt).
  split; [|split].
  - apply (set_rgb_fade_negative_duration 255 255 255 (-100) board_ready
             (mk_pwm RED_PIN 100 0) (mk_pwm GREEN_PIN 100 0) (mk_pwm BLUE_PIN 100 0)
             0 0 0);
      try reflexivity; try lia; apply F; vm_compute; reflexivity.
  - apply (set_rgb_fade_negative_duration 255 255 255 (-184467440737095)
             board_ready
             (mk_pwm RED_PIN 100 0) (mk_pwm GREEN_PIN 100 0) (mk_pwm BLUE_PIN 100 0)
             0 0 0);
      try reflexivity; try lia; apply F; vm_compute; reflexivity.
  - apply (set_rgb_fade_negative_duration 255 255 255 (-184467440737096)
             board_ready
             (mk_pwm RED_PIN 100 0) (mk_pwm GREEN_PIN 100 0) (mk_pwm BLUE_PIN 100 0)
             0 0 0);
      try reflexivity; try lia; apply F; vm_compute; reflexivity.
Defined.

(* ------------------------------------------------------------------ *)
(** ** Hardware detection *)

Lemma lstrip_spaces (pad s : string) :
  forallb isspace (list_ascii_of_string pad) = true ->
  lstrip (pad ++ s) = lstrip s.
Proof.
  induction pad as [|c pad IH]; intros H; [reflexivity|].
  cbn [list_ascii_of_string forallb] in H. apply andb_true_iff in H.
  destruct H as [Hc Hp].
  cbn [append lstrip]. rewrite Hc. apply IH, Hp.
Qed.

Lemma rstrip_all_spaces (pad : string) :
  forallb isspace (list_ascii_of_string pad) = true -> rstrip pad = EmptyString.
Proof.
  induction pad as [|c pad IH]; intros H; [reflexivity|].
  cbn [list_ascii_of_string forallb] in H. apply andb_true_iff in H.
  destruct H as [Hc Hp].
  cbn [rstrip]. rewrite (IH Hp), Hc. reflexivity.
Qed.

Lemma rstrip_spaces (s pad : string) :
  forallb isspace (list_ascii_of_string pad) = true ->
  rstrip (s ++ pad) = rstrip s.
Proof.
  intros H. induction s as [|c s IH].
  - cbn [append]. rewrite (rstrip_all_spaces pad H). reflexivity.
  - cbn [append rstrip]. rewrite IH. reflexivity.
Qed.

Lemma rstrip_after (a b : string) :
  rstrip b <> EmptyString -> rstrip (a ++ b) = (a ++ rstrip b)%string.
Proof.
  intros H. induction a as [|c a IH]; [reflexivity|].
  cbn [append rstrip]. rewrite IH.
  destruct (a ++ rstrip b)%string eqn:E; [|reflexivity].
  exfalso. destruct a; [apply H, E | discriminate E].
Qed.

Lemma split_none (sep : ascii) (s : string) :
  forallb (fun c => negb (Ascii.eqb c sep)) (list_ascii_of_string s) = true ->
  split sep s = [s].
Proof.
  induction s as [|c s IH]; intros H; [reflexivity|].
  cbn [list_ascii_of_string forallb] in H. apply andb_true_iff in H.
  destruct H as [Hc Hs]. apply negb_true_iff in Hc.
  cbn [split]. rewrite Hc, (IH Hs). reflexivity.
Qed.

Lemma split_first (sep : ascii) (a b : string) :
  forallb (fun c => negb (Ascii.eqb c sep)) (list_ascii_of_string a) = true ->
  split sep (a ++ String sep b) = a :: split sep b.
Proof.
  induction a as [|c a IH]; intros H.
  - cbn [append split]. rewrite Ascii.eqb_refl. reflexivity.
  - cbn [list_ascii_of_string forallb] in H. apply andb_true_iff in H.
    destruct H as [Hc Ha]. apply negb_true_iff in Hc.
    cbn [append split]. rewrite Hc, (IH Ha). reflexivity.
Qed.

Lemma spaces_no_colon (pad : string) :
  forallb isspace (list_ascii_of_string pad) = true ->
  forallb (fun c => negb (Ascii.eqb c ":")) (list_ascii_of_string pad) = true.
Proof.
  intros H. rewrite forallb_forall in *. intros c Hc.
  specialize (H c Hc). apply negb_true_iff.
  destruct (Ascii.eqb c ":") eqn:E; [|reflexivity].
  apply Ascii.eqb_eq in E. subst c. discriminate H.
Qed.

Lemma forallb_append (f : ascii -> bool) (a b : string) :
  forallb f (list_ascii_of_string (a ++ b)) =
  forallb f (list_ascii_of_string a) && forallb f (list_ascii_of_string b).
Proof.
  induction a as [|c a IH]; [reflexivity|].
  cbn [append list_ascii_of_string forallb]. rewrite IH. apply andb_assoc.
Qed.

Lemma find_skips {A} (f : A -> bool) (before : list A) (x : A) (after : list A) :
  forallb (fun a => negb (f a)) before = true -> f x = true ->
  find f (before ++ x :: after) = Some x.
Proof.
  intros Hb Hx. induction before as [|a before IH].
  - cbn [app find]. rewrite Hx. reflexivity.
  - cbn [forallb] in Hb. apply andb_true_iff in Hb. destruct Hb as [Ha Hb].
    apply negb_true_iff in Ha.
    cbn [app find]. rewrite Ha. apply IH, Hb.
Qed.

Lemma find_none {A} (f : A -> bool) (l : list A) :
  forallb (fun a => negb (f a)) l = true -> find f l = None.
Proof.
  induction l as [|a l IH]; intros H; [reflexivity|].
  cbn [forallb] in H. apply andb_true_iff in H. destruct H as [Ha Hl].
  apply negb_true_iff in Ha. cbn [find]. rewrite Ha. apply IH, Hl.
Qed.

Lemma append_assoc3 (a b c : string) :
  ((a ++ b) ++ c)%string = (a ++ (b ++ c))%string.
Proof.
  induction a as [|x a IH]; [reflexivity|].
  cbn [append]. rewrite IH. reflexivity.
Qed.

Lemma strip_model_line (key pad name trail : string) :
  blank trail -> trimmed name ->
  strip (model_line key pad name trail)
  = (("Model" ++ key) ++ String ":" (pad ++ name))%string.
Proof.
  intros Ht [_ [Hr Hn]]. unfold strip, model_line.
  assert (L : forall x, lstrip ("Model" ++ x) = ("Model" ++ x)%string)
    by (intros x; reflexivity).
  rewrite L.
  assert (E : ("Model" ++ key ++ ":" ++ pad ++ name ++ trail)%string
              = ((("Model" ++ key) ++ String ":" pad) ++ (name ++ trail))%string).
  { rewrite !append_assoc3. reflexivity. }
  rewrite E, rstrip_after.
  - rewrite (rstrip_spaces name trail Ht), Hr.
    rewrite !append_assoc3. reflexivity.
  - rewrite (rstrip_spaces name trail Ht), Hr. exact Hn.
Qed.

Lemma model_field (key pad name : string) :
  no_colon key -> blank pad -> no_colon name -> trimmed name ->
  index (split ":" (("Model" ++ key) ++ String ":" (pad ++ name))) 1
  = Returned (pad ++ name)%string /\
  strip (pad ++ name) = name.
Proof.
  intros Hk Hp Hc [Hl [Hr _]]. split.
  - rewrite split_first.
    + rewrite split_none; [reflexivity|].
      rewrite forallb_append. apply andb_true_iff. split;
        [apply spaces_no_colon, Hp | exact Hc].
    + rewrite forallb_append. apply andb_true_iff. split; [reflexivity | exact Hk].
  - unfold strip. rewrite (lstrip_spaces pad name Hp), Hl. exact Hr.
Qed.

(** X13.  The backlight mode the constructor chooses.  When the first
    line of /proc/cpuinfo that starts with [Model] reads
    [Model<key>:<pad><name><trail>], with no colon in [key] and [name],
    white space for [pad] and [trail] and a non-empty [name] without
    white space at its ends, the backlight is a plain switch exactly when
    [name] contains [Zero] and no character [2] at all.  A revision
    number counts: a board named [Raspberry Pi Zero Rev 1.2] gets the PWM
    mode of the Zero 2. *)
Theorem detect_hardware_version_model :
  forall before key pad name trail after st,
    no_model_line before ->
    no_colon key -> blank pad -> blank trail ->
    no_colon name -> trimmed name ->
    _detect_hardware_version
      (Some (before ++ model_line key pad name trail :: after)) st
    = (Returned tt, with_backlight_mode (negb (is_zero_1 name)) st).
Proof.
  intros before key pad name trail after st Hb Hk Hp Ht Hc Hn.
  unfold _detect_hardware_version.
  rewrite (find_skips _ before (model_line key pad name trail) after Hb)
    by (unfold model_line; reflexivity).
  rewrite (strip_model_line key pad name trail Ht Hn).
  destruct (model_field key pad name Hk Hp Hc Hn) as [I S].
  unfold try_except, bind at 1. unfold bind at 1. unfold lift at 1.
  rewrite I, S. unfold ret at 1.
  destruct Hn as [_ [_ Hn]].
  destruct name as [|c name]; [contradiction|].
  cbn [truthy]. fold (is_zero_1 (String c name)).
  destruct (is_zero_1 (String c name)); reflexivity.
Qed.

Lemma detect_hardware_version_model_witness :
  _detect_hardware_version
    (Some (["processor" ++ String "009" ": 0" ++ String "010" ""]%string
           ++ model_line (String "009" (String "009" ""))
                         " " "Raspberry Pi Zero Rev 1.2" (String "010" "")
           :: [])) board_ready
  = (Returned tt,
     with_backlight_mode (negb (is_zero_1 "Raspberry Pi Zero Rev 1.2")) board_ready) /\
  is_zero_1 "Raspberry Pi Zero Rev 1.2" = false /\
  is_zero_1 "Raspberry Pi Zero W Rev 1.1" = true /\
  is_zero_1 "Raspberry Pi Zero 2 W Rev 1.0" = false.
Proof.
  split; [|repeat split].
  apply (detect_hardware_version_model
           ["processor" ++ String "009" ": 0" ++ String "010" ""]%string
           (String "009" (String "009" "")) " " "Raspberry Pi Zero Rev 1.2"
           (String "010" "") [] board_ready);
    try reflexivity.
  repeat split. discriminate.
Defined.

(** X14.  Whatever goes wrong, the detection settles on PWM mode and
    raises nothing: /proc/cpuinfo cannot be read; no line starts with
    [Model]; the first such line holds no colon, so that [split(":")[1]]
    raises IndexError; or nothing but white space follows the colon. *)
Theorem detect_hardware_version_defaults :
  forall st,
    _detect_hardware_version None st
    = (Returned tt, with_backlight_mode true st) /\
    (forall lines,
        no_model_line lines ->
        _detect_hardware_version (Some lines) st
        = (Returned tt, with_backlight_mode true st)) /\
    (forall before line after,
        no_model_line before -> startswith line "Model" = true ->
        no_colon (strip line) ->
        _detect_hardware_version (Some (before ++ line :: after)) st
        = (Returned tt, with_backlight_mode true st)) /\
    (forall before key pad after,
        no_model_line before -> no_colon key -> blank pad ->
        _detect_hardware_version
          (Some (before ++ ("Model" ++ key ++ ":" ++ pad)%string :: after)) st
        = (Returned tt, with_backlight_mode true st)).
Proof.
  intros st. split; [reflexivity|]. split; [|split].
  - intros lines H. unfold _detect_hardware_version.
    rewrite (find_none _ lines H). reflexivity.
  - intros before line after Hb Hl Hc. unfold _detect_hardware_version.
    rewrite (find_skips _ before line after Hb Hl).
    unfold try_except, bind at 1. unfold bind at 1. unfold lift at 1.
    rewrite (split_none ":" (strip line) Hc). reflexivity.
  - intros before key pad after Hb Hk Hp. unfold _detect_hardware_version.
    rewrite (find_skips _ before _ after Hb) by reflexivity.
    assert (S : strip ("Model" ++ key ++ ":" ++ pad)
                = (("Model" ++ key) ++ String ":" "")%string).
    { unfold strip.
      assert (L : forall x, lstrip ("Model" ++ x) = ("Model" ++ x)%string)
        by (intros x; reflexivity).
      rewrite L.
      assert (E : ("Model" ++ key ++ ":" ++ pad)%string
                  = ((("Model" ++ key) ++ ":") ++ pad)%string)
        by (rewrite !append_assoc3; reflexivity).
      rewrite E, (rstrip_spaces _ pad Hp).
      rewrite rstrip_after by (cbn; discriminate). reflexivity. }
    rewrite S.
    unfold try_except, bind at 1. unfold bind at 1. unfold lift at 1.
    rewrite split_first
      by (rewrite forallb_append; apply andb_true_iff; split; [reflexivity | exact Hk]).
    reflexivity.
Qed.

Lemma detect_hardware_version_defaults_witness :
  _detect_hardware_version (Some ["Model name missing"%string]) board_switch
  = (Returned tt, with_backlight_mode true board_switch).
Proof.
  destruct (detect_hardware_version_defaults board_switch) as [_ [_ [H _]]].
  apply (H [] "Model name missing"%string []); reflexivity.
Defined.

(* ------------------------------------------------------------------ *)
(** ** The constructor *)

Ltac board_simpl' :=
  cbn [with_log with_backlight_pwm with_red_pwm with_green_pwm with_blue_pwm
       with_current with_backlight_mode with_gpio_initialized
       _gpio_initialized backlight_mode backlight_pwm red_pwm
       green_pwm blue_pwm _current_r _current_g _current_b
       spi_has_writebytes2 gpio_pwm_granted log] in *.

Lemma bind_run {S A B} (m : M S A) (k : A -> M S B) (s s' : S) (a : A) :
  m s = (Returned a, s') -> bind m k s = k a s'.
Proof. intros H. unfold bind. rewrite H. reflexivity. Qed.

Lemma init_gpio_run (p : platform) (st : board) :
  init_gpio p st = (Returned tt, with_gpio_initialized (setmode_ok p) st).
Proof.
  unfold init_gpio, setmode_ok, GPIO_setmode, bind, try_except, modify, raise, ret.
  destruct (setmode_raises p) as [[]|]; reflexivity.
Qed.

Lemma init_lcd_pins_run (p : platform) (st : board) :
  init_lcd_pins p st =
    (Returned tt,
     if _gpio_initialized st then
       if lcd_setup_raises p then with_gpio_initialized false st
       else with_log (log st ++ [GpioOutput LED_PIN LOW]) st
     else st).
Proof.
  destruct st as [gi bm blp rp gp bp cr cg cb w2 granted l].
  unfold init_lcd_pins, GPIO_setup, GPIO_output, emit, bind, try_except,
    modify, raise, ret, get.
  board_simpl'.
  destruct gi; [|reflexivity].
  destruct (lcd_setup_raises p); reflexivity.
Qed.

Lemma init_rgb_led_run (p : platform) (st : board) :
  init_rgb_led p st =
    (Returned tt,
     if _gpio_initialized st && negb (rgb_setup_raises p) && gpio_pwm_granted st
     then
       mk_board (_gpio_initialized st) (backlight_mode st) (backlight_pwm st)
                (Some (mk_pwm RED_PIN 100 0)) (Some (mk_pwm GREEN_PIN 100 0))
                (Some (mk_pwm BLUE_PIN 100 0)) (Some 0) (Some 0) (Some 0)
                (spi_has_writebytes2 st) (gpio_pwm_granted st)
                (log st ++ [PwmStart RED_PIN 0; PwmStart GREEN_PIN 0;
                            PwmStart BLUE_PIN 0])
     else with_blue_pwm None (with_green_pwm None (with_red_pwm None st))).
Proof.
  destruct st as [gi bm blp rp gp bp cr cg cb w2 granted l].
  unfold init_rgb_led, GPIO_setup, GPIO_PWM, PWM_start, emit, bind, try_except,
    modify, raise, ret, get.
  board_simpl'.
  destruct gi; [|reflexivity].
  destruct (rgb_setup_raises p); [reflexivity|].
  destruct granted; [|reflexivity].
  change (valid_dutycycle 0) with true.
  cbn [pwm_channel pwm_frequency negb andb]. board_simpl'.
  rewrite <- !app_assoc. reflexivity.
Qed.

Lemma detect_run (c : option (list string)) (st : board) :
  _detect_hardware_version c st
  = (Returned tt, with_backlight_mode (detected_mode c) st).
Proof.
  unfold detected_mode, _detect_hardware_version.
  destruct c as [lines|]; [|reflexivity].
  unfold try_except, bind, lift, ret, index.
  destruct (find _ lines) as [line|]; [|reflexivity].
  destruct (nth_error _ 1) as [field|]; [|reflexivity].
  destruct (truthy (strip field)); [|reflexivity].
  destruct (contains "Zero" (strip field) && negb (contains "2" (strip field)));
    reflexivity.
Qed.

Lemma time_sleep_returns (q : Q) (s : board) :
  sleep_overflows q = false -> Qle_bool 0 q = true ->
  time_sleep q s = (Returned tt, with_log (log s ++ [Sleep q]) s).
Proof. intros O H. unfold time_sleep. rewrite O, H. reflexivity. Qed.

Lemma time_sleep_appends (q : Q) :
  sleep_overflows q = false /\ Qle_bool 0 q = true ->
  appends (time_sleep q) (fun _ => [Sleep q]).
Proof. intros [O H] s. apply time_sleep_returns; assumption. Qed.

Lemma pulse_appends (pin : Z) (v : level) (q : Q) (m : M board unit)
      (evs : bool -> list event) :
  sleep_overflows q = false /\ Qle_bool 0 q = true -> appends m evs ->
  appends (GPIO_output pin v ;;; time_sleep q ;;; m)
          (fun w => GpioOutput pin v :: Sleep q :: evs w).
Proof.
  intros [O H] A s. unfold time_sleep. rewrite O, H.
  unfold bind, GPIO_output, emit, modify.
  rewrite A. destruct s. board_simpl'. rewrite <- !app_assoc. reflexivity.
Qed.

Lemma pulse_appends_last (pin : Z) (v : level) (q : Q) :
  sleep_overflows q = false /\ Qle_bool 0 q = true ->
  appends (GPIO_output pin v ;;; time_sleep q)
          (fun w => [GpioOutput pin v; Sleep q]).
Proof.
  intros [O H] s. unfold time_sleep. rewrite O, H.
  unfold bind, GPIO_output, emit, modify.
  destruct s. board_simpl'. rewrite <- !app_assoc. reflexivity.
Qed.

Lemma pause_100ms :
  sleep_overflows (PyFloat.rnd (1 # 10)) = false /\
  Qle_bool 0 (PyFloat.rnd (1 # 10)) = true.
Proof. split; vm_compute; reflexivity. Qed.

Lemma pause_120ms :
  sleep_overflows (PyFloat.rnd (12 # 100)) = false /\
  Qle_bool 0 (PyFloat.rnd (12 # 100)) = true.
Proof. split; vm_compute; reflexivity. Qed.

Lemma _reset_lcd_run (st : board) :
  _gpio_initialized st = true ->
  _reset_lcd st = (Returned tt, with_log (log st ++ reset_events) st).
Proof.
  intros H. unfold _reset_lcd. unfold bind at 1. unfold get. rewrite H.
  cbn [negb]. unfold try_except.
  rewrite (pulse_appends RST_PIN HIGH (PyFloat.rnd (1 # 10)) _ _ pause_100ms
             (pulse_appends RST_PIN LOW (PyFloat.rnd (1 # 10)) _ _ pause_100ms
                (pulse_appends_last RST_PIN HIGH (PyFloat.rnd (12 # 100))
                                    pause_120ms)) st).
  reflexivity.
Qed.

Lemma fill_screen_appends (color : Z) :
  appends (fill_screen color) (fun w => fill_events w color).
Proof.
  unfold fill_screen, fill_events. cbv zeta.
  rewrite fold_left_extend. cbn [app].
  apply (appends_bind _ _ _ _
           (set_window_appends 0 0 (LCD_WIDTH - 1) (LCD_HEIGHT - 1))
           (_send_data_appends _)).
Qed.

Lemma _init_display_appends : appends _init_display init_display_events.
Proof.
  assert (E : exists evs, appends _init_display evs).
  { eexists. unfold _init_display. cbv zeta.
    apply appends_bind; [apply _send_command_appends|].
    apply appends_bind; [apply time_sleep_appends, pause_120ms|].
    do 13 (apply appends_bind; [apply _send_command_appends|]).
    apply _send_command_appends. }
  destruct E as [evs A].
  apply (appends_ext _ evs); [exact A|].
  intros w. unfold init_display_events. rewrite A. reflexivity.
Qed.

Lemma set_backlight_off_run (bm blp_granted w2 : bool) (rp gp bp : option pwm)
      (cr cg cb : option Z) (l : list event) :
  set_backlight 0 (mk_board true bm None rp gp bp cr cg cb w2 blp_granted l)
  = (Returned tt,
     mk_board true bm
              (if bm && blp_granted then Some (mk_pwm LED_PIN 1000 100) else None)
              rp gp bp cr cg cb w2 blp_granted
              (l ++ backlight_off_events bm blp_granted)).
Proof.
  destruct bm, blp_granted.
  - unfold set_backlight, bind, get, try_except, attr, ret, modify,
      GPIO_PWM, PWM_start, PWM_ChangeDutyCycle, emit.
    cbn -[Z.sub valid_dutycycle Z.leb].
    change (valid_dutycycle 100) with true.
    cbn -[Z.sub valid_dutycycle Z.leb].
    change ((0 <=? 0) && (0 <=? 100)) with true.
    cbn -[Z.sub valid_dutycycle Z.leb].
    change (valid_dutycycle (inject_Z (100 - 0))) with true.
    cbn -[Z.sub]. rewrite <- app_assoc. reflexivity.
  - unfold set_backlight, bind, get, try_except, attr, ret, modify, raise,
      GPIO_PWM.
    cbn -[Z.sub valid_dutycycle Z.leb]. rewrite app_nil_r. reflexivity.
  - reflexivity.
  - reflexivity.
Qed.

Lemma init_panel_run (bm granted w2 : bool) (rp gp bp : option pwm)
      (cr cg cb : option Z) (l : list event) :
  init_panel (mk_board true bm None rp gp bp cr cg cb w2 granted l)
  = (Returned tt,
     mk_board true bm
              (if bm && granted then Some (mk_pwm LED_PIN 1000 100) else None)
              rp gp bp cr cg cb w2 granted
              (l ++ backlight_off_events bm granted ++ panel_events w2)).
Proof.
  unfold init_panel. unfold bind at 1. unfold get. cbn [_gpio_initialized].
  unfold try_except.
  unfold bind at 1. rewrite set_backlight_off_run.
  unfold bind at 1. rewrite _reset_lcd_run by reflexivity.
  rewrite (appends_bind _ _ _ _ _init_display_appends (fill_screen_appends 0)).
  board_simpl'. unfold panel_events.
  rewrite <- !app_assoc. reflexivity.
Qed.

(** The constructor returns on every platform, with this board. *)
Lemma init_run (p : platform) (w g : bool) :
  __init__ p (unassigned w g) = (Returned tt, constructed p w g).
Proof.
  unfold __init__.
  rewrite (bind_run _ _ _ _ _ (init_gpio_run p _)).
  rewrite (bind_run _ _ _ _ _ (init_lcd_pins_run p _)).
  rewrite (bind_run _ _ _ _ _ (init_rgb_led_run p _)).
  unfold bind at 1. unfold modify at 1.
  rewrite (bind_run _ _ _ _ _ (detect_run (cpuinfo p) _)).
  unfold constructed, rgb_ok, gpio_ok.
  generalize (detected_mode (cpuinfo p)). intros mode.
  destruct (setmode_ok p), (lcd_setup_raises p), (rgb_setup_raises p), g;
    cbv [with_log with_backlight_pwm with_red_pwm with_green_pwm with_blue_pwm
         with_current with_backlight_mode with_gpio_initialized
         _gpio_initialized backlight_mode backlight_pwm red_pwm
         green_pwm blue_pwm _current_r _current_g _current_b
         spi_has_writebytes2 gpio_pwm_granted log unassigned];
    cbn [andb negb app];
    try reflexivity;
    rewrite init_panel_run; destruct mode; reflexivity.
Qed.

Lemma set_backlight_half_run (gi bm granted w2 : bool) (rp gp bp : option pwm)
      (cr cg cb : option Z) (l : list event) :
  set_backlight 50
    (mk_board gi bm (if gi && bm && granted
                     then Some (mk_pwm LED_PIN 1000 100) else None)
              rp gp bp cr cg cb w2 granted l)
  = (Returned tt,
     mk_board gi bm (if gi && bm && granted
                     then Some (mk_pwm LED_PIN 1000 50) else None)
              rp gp bp cr cg cb w2 granted
              (l ++ backlight_half_events gi bm granted)).
Proof.
  destruct gi, bm, granted; cbn [andb].
  - unfold set_backlight, bind, get, try_except, attr, ret, modify,
      PWM_ChangeDutyCycle, emit.
    cbn -[Z.sub valid_dutycycle Z.leb].
    change ((0 <=? 50) && (50 <=? 100)) with true.
    cbn -[Z.sub valid_dutycycle Z.leb].
    change (valid_dutycycle (inject_Z (100 - 50))) with true.
    cbn -[Z.sub]. reflexivity.
  - unfold set_backlight, bind, get, try_except, attr, ret, modify, raise,
      GPIO_PWM.
    cbn -[Z.sub valid_dutycycle Z.leb]. rewrite app_nil_r. reflexivity.
  - reflexivity.
  - reflexivity.
  - cbn. rewrite app_nil_r. reflexivity.
  - cbn. rewrite app_nil_r. reflexivity.
  - cbn. rewrite app_nil_r. reflexivity.
  - cbn. rewrite app_nil_r. reflexivity.
Qed.

(** [initialize] returns on every platform, with this board. *)
Lemma initialize_run (p : platform) (w g : bool) :
  initialize p (unassigned w g) = (Returned tt, initialized p w g).
Proof.
  unfold initialize.
  rewrite (bind_run _ _ _ _ _ (init_run p w g)).
  unfold initialized, constructed.
  generalize (detected_mode (cpuinfo p)). intros mode.
  unfold rgb_ok.
  generalize (gpio_ok p). intros gi.
  generalize (rgb_setup_raises p). intros rr.
  cbv zeta. cbn [log].
  set (l := if gi then _ else []). clearbody l.
  destruct (gi && negb rr && g) eqn:R; cbv iota.
  - erewrite bind_run
      by (apply set_rgb_accepted; first [reflexivity | lia]).
    unfold rgb_applied, set_dutycycle. board_simpl'.
    cbn [pwm_channel pwm_frequency].
    rewrite set_backlight_half_run.
    unfold rgb_dark_events. rewrite <- !app_assoc. reflexivity.
  - erewrite bind_run by (apply set_rgb_absent; left; reflexivity).
    rewrite set_backlight_half_run. reflexivity.
Qed.

Lemma set_rgb_fade_no_red (r_target g_target b_target duration_ms : Z)
      (st : board) :
  finite_int duration_ms -> _current_r st = None ->
  set_rgb_fade r_target g_target b_target duration_ms st
  = (Raised AttributeError, st).
Proof.
  intros F H.
  unfold set_rgb_fade. cbv zeta.
  unfold bind at 1. unfold lift at 1.
  rewrite (int_truediv_returns duration_ms 20 eq_refl (finite_quotient _ F)).
  unfold bind at 1. unfold get.
  unfold bind at 1. rewrite H. reflexivity.
Qed.

(** X15.  The constructor returns on every platform, and what it leaves
    of the RGB indicator is all or nothing: either the three PWM objects
    on their pins with the stored colour (0, 0, 0), or no PWM object and
    no stored colour at all.  The second case is that of a GPIO that
    could not be set up, of RGB pins that could not, or of a PWM that was
    refused; there [set_rgb] does nothing, but [set_rgb_fade] raises
    AttributeError.  In the first case a fade of a duration from 0 to
    [MAX_DURATION_MS] returns.  Targets and durations are integers the
    divisions by 20 take.  Without GPIO nothing is written to the
    hardware. *)
Theorem constructor_rgb_all_or_nothing :
  forall p w g,
    exists st,
      __init__ p (unassigned w g) = (Returned tt, st) /\
      _gpio_initialized st = gpio_ok p /\
      backlight_mode st = detected_mode (cpuinfo p) /\
      (gpio_ok p = false -> log st = [] /\ backlight_pwm st = None) /\
      (rgb_ok p g = true ->
       rgb_ready st /\ stored st = Some (0, 0, 0) /\
       forall r_target g_target b_target duration_ms,
         finite_int r_target -> finite_int g_target -> finite_int b_target ->
         0 <= duration_ms <= MAX_DURATION_MS ->
         fst (set_rgb_fade r_target g_target b_target duration_ms st)
         = Returned tt) /\
      (rgb_ok p g = false ->
       red_pwm st = None /\ green_pwm st = None /\ blue_pwm st = None /\
       stored st = None /\
       forall r_target g_target b_target duration_ms,
         finite_int r_target -> finite_int g_target -> finite_int b_target ->
         finite_int duration_ms ->
         set_rgb r_target g_target b_target st = (Returned tt, st) /\
         set_rgb_fade r_target g_target b_target duration_ms st
         = (Raised AttributeError, st)).
Proof.
  intros p w g. exists (constructed p w g).
  split; [apply init_run|].
  split; [reflexivity|]. split; [reflexivity|].
  split; [|split].
  - intros H. unfold constructed. cbn [log backlight_pwm]. rewrite H.
    split; reflexivity.
  - intros H.
    assert (Ready : rgb_ready (constructed p w g)).
    { unfold rgb_ready, constructed. cbn [red_pwm green_pwm blue_pwm].
      rewrite H. repeat split; eexists; reflexivity. }
    assert (Cur : stored (constructed p w g) = Some (0, 0, 0)).
    { unfold stored, constructed. cbn [_current_r _current_g _current_b].
      rewrite H. reflexivity. }
    split; [exact Ready|]. split; [exact Cur|].
    intros rt gt bt d Frt Fgt Fbt Hd.
    assert (F0 : finite_int 0) by (apply channel_finite; lia).
    destruct (set_rgb_fade_run rt gt bt d _ 0 0 0 Ready Cur F0 F0 F0
                               Frt Fgt Fbt Hd)
      as [st' [Run _]].
    rewrite Run. reflexivity.
  - intros H.
    assert (Cur : stored (constructed p w g) = None).
    { unfold stored, constructed. cbn [_current_r _current_g _current_b].
      rewrite H. reflexivity. }
    assert (Red : red_pwm (constructed p w g) = None).
    { unfold constructed. cbn [red_pwm]. rewrite H. reflexivity. }
    split; [exact Red|].
    split; [unfold constructed; cbn [green_pwm]; rewrite H; reflexivity|].
    split; [unfold constructed; cbn [blue_pwm]; rewrite H; reflexivity|].
    split; [exact Cur|].
    intros rt gt bt d _ _ _ Fd. split.
    + apply set_rgb_absent. left. exact Red.
    + apply set_rgb_fade_no_red; [exact Fd|].
      unfold constructed. cbn [_current_r]. rewrite H. reflexivity.
Qed.

Lemma constructor_rgb_all_or_nothing_witness :
  let p := mk_platform None false true None in
  exists st,
    __init__ p (unassigned true true) = (Returned tt, st) /\
    set_rgb 255 0 0 st = (Returned tt, st) /\
    set_rgb_fade 255 0 0 100 st = (Raised AttributeError, st).
Proof.
  intros p.
  destruct (constructor_rgb_all_or_nothing p true true)
    as [st [Run [_ [_ [_ [_ No]]]]]].
  exists st. split; [exact Run|].
  apply No; [reflexivity | | | | ];
    unfold finite_int; cbn [Z.abs]; apply Z.ltb_lt; vm_compute; reflexivity.
Defined.

(* ------------------------------------------------------------------ *)
(** ** [initialize]: what reaches the panel and the backlight *)

Lemma commands_app (a b : list event) :
  commands (a ++ b) = commands a ++ commands b.
Proof. apply flat_map_app. Qed.

Lemma commands_bursts (l : list (list Z)) : commands (map SpiWritebytes l) = [].
Proof. induction l as [|d l IH]; [reflexivity | exact IH]. Qed.

Lemma commands_send_data (w : bool) (data : list Z) :
  commands (send_data_events w data) = [].
Proof.
  unfold send_data_events. destruct w; [reflexivity|].
  change (commands (GpioOutput DC_PIN HIGH :: map SpiWritebytes (chunks data)))
    with (commands (map SpiWritebytes (chunks data))).
  apply commands_bursts.
Qed.

Lemma commands_send_command (w : bool) (cmd : Z) (args : list Z) :
  commands (send_command_events w cmd args) = [cmd].
Proof.
  unfold send_command_events. destruct args as [|a args]; [reflexivity|].
  change (commands (GpioOutput DC_PIN LOW :: SpiXfer2 [cmd]
                    :: GpioOutput DC_PIN HIGH
                    :: send_data_events w (a :: args)))
    with (cmd :: commands (send_data_events w (a :: args))).
  rewrite commands_send_data. reflexivity.
Qed.

Lemma commands_panel (w : bool) :
  commands (panel_events w) = bring_up_commands.
Proof.
  unfold panel_events, fill_events, window_events.
  rewrite !commands_app, !commands_send_command, commands_send_data.
  destruct w; vm_compute; reflexivity.
Qed.

Lemma backlight_app (a b : list event) :
  filter is_backlight (a ++ b) = filter is_backlight a ++ filter is_backlight b.
Proof. apply filter_app. Qed.

Lemma backlight_bursts (l : list (list Z)) :
  filter is_backlight (map SpiWritebytes l) = [].
Proof. induction l as [|d l IH]; [reflexivity | exact IH]. Qed.

Lemma backlight_send_data (w : bool) (data : list Z) :
  filter is_backlight (send_data_events w data) = [].
Proof.
  unfold send_data_events. destruct w; [reflexivity|].
  change (filter is_backlight
            (GpioOutput DC_PIN HIGH :: map SpiWritebytes (chunks data)))
    with (filter is_backlight (map SpiWritebytes (chunks data))).
  apply backlight_bursts.
Qed.

Lemma backlight_send_command (w : bool) (cmd : Z) (args : list Z) :
  filter is_backlight (send_command_events w cmd args) = [].
Proof.
  unfold send_command_events. destruct args as [|a args]; [reflexivity|].
  change (filter is_backlight
            (GpioOutput DC_PIN LOW :: SpiXfer2 [cmd]
             :: GpioOutput DC_PIN HIGH :: send_data_events w (a :: args)))
    with (filter is_backlight (send_data_events w (a :: args))).
  apply backlight_send_data.
Qed.

Lemma backlight_panel (w : bool) : filter is_backlight (panel_events w) = [].
Proof.
  unfold panel_events, fill_events, window_events.
  rewrite !backlight_app, !backlight_send_command, backlight_send_data.
  destruct w; vm_compute; reflexivity.
Qed.

(** X16.  [initialize] returns on every platform.  Without GPIO
    nothing at all is written.  With GPIO the panel gets the 15 commands
    of its configuration, display-on last, then one write of the whole
    window; the log ends with that black frame, the three channels of
    the indicator set to dark when it could be set up, and the backlight
    at half brightness.  The backlight line is switched on when the
    constructor starts, switched off before the panel is reset, and comes
    back only after the black frame; where the PWM is refused in PWM
    mode it simply stays on. *)
Theorem initialize_brings_up :
  forall p w g,
    exists st,
      initialize p (unassigned w g) = (Returned tt, st) /\
      (gpio_ok p = false -> log st = []) /\
      (gpio_ok p = true ->
       commands (log st) = bring_up_commands /\
       (exists before,
           log st = before ++ fill_events w 0
                    ++ (if rgb_ok p g then rgb_dark_events else [])
                    ++ backlight_half_events true (detected_mode (cpuinfo p)) g) /\
       filter is_backlight (log st) =
         GpioOutput LED_PIN BACKLIGHT_ON ::
         (if detected_mode (cpuinfo p) then
            if g then [PwmStart LED_PIN 100; PwmChangeDutyCycle LED_PIN 100;
                       PwmChangeDutyCycle LED_PIN 50]
            else []
          else [GpioOutput LED_PIN BACKLIGHT_OFF;
                GpioOutput LED_PIN BACKLIGHT_ON]) /\
       (rgb_ok p g = true -> stored st = Some (0, 0, 0)) /\
       (detected_mode (cpuinfo p) = true -> g = true ->
        backlight_pwm st = Some (mk_pwm LED_PIN 1000 50))).
Proof.
  intros p w g. exists (initialized p w g).
  split; [apply initialize_run|].
  unfold initialized, constructed. cbv zeta. cbn [log backlight_pwm].
  generalize (detected_mode (cpuinfo p)). intros mode.
  unfold stored. cbn [_current_r _current_g _current_b].
  split.
  - intros H. unfold rgb_ok. rewrite H. reflexivity.
  - generalize (rgb_ok p g). intros rgb.
    intros ->. cbn [andb].
    split; [|split; [|split; [|split]]].
    + change (GpioOutput LED_PIN LOW
              :: (if rgb then [PwmStart RED_PIN 0; PwmStart GREEN_PIN 0;
                               PwmStart BLUE_PIN 0] else [])
                 ++ backlight_off_events mode g ++ panel_events w)
        with ([GpioOutput LED_PIN LOW]
              ++ (if rgb then [PwmStart RED_PIN 0; PwmStart GREEN_PIN 0;
                               PwmStart BLUE_PIN 0] else [])
              ++ backlight_off_events mode g ++ panel_events w).
      rewrite !commands_app, commands_panel.
      destruct rgb, mode, g; reflexivity.
    + exists (GpioOutput LED_PIN LOW
              :: (if rgb then [PwmStart RED_PIN 0; PwmStart GREEN_PIN 0;
                               PwmStart BLUE_PIN 0] else [])
                 ++ backlight_off_events mode g
                 ++ reset_events ++ init_display_events w).
      unfold panel_events.
      rewrite !app_comm_cons, <- !app_assoc. reflexivity.
    + change (GpioOutput LED_PIN LOW
              :: (if rgb then [PwmStart RED_PIN 0; PwmStart GREEN_PIN 0;
                               PwmStart BLUE_PIN 0] else [])
                 ++ backlight_off_events mode g ++ panel_events w)
        with ([GpioOutput LED_PIN LOW]
              ++ (if rgb then [PwmStart RED_PIN 0; PwmStart GREEN_PIN 0;
                               PwmStart BLUE_PIN 0] else [])
              ++ backlight_off_events mode g ++ panel_events w).
      rewrite !backlight_app, backlight_panel.
      destruct rgb, mode, g; reflexivity.
    + intros ->. reflexivity.
    + intros -> ->. reflexivity.
Qed.

Lemma initialize_brings_up_witness :
  let p := mk_platform None false false None in
  exists st,
    initialize p (unassigned true true) = (Returned tt, st) /\
    commands (log st) = bring_up_commands /\
    stored st = Some (0, 0, 0) /\
    backlight_pwm st = Some (mk_pwm LED_PIN 1000 50).
Proof.
  intros p.
  destruct (initialize_brings_up p true true) as [st [Run [_ H]]].
  destruct (H eq_refl) as [C [_ [_ [S B]]]].
  exists st. split; [exact Run|]. split; [exact C|].
  split; [apply S; reflexivity | apply B; reflexivity].
Defined.

(* ------------------------------------------------------------------ *)
(** ** Backlight mode and release of the hardware *)

Lemma skipn_all_app {A} (l l' : list A) : skipn (length l) (l ++ l') = l'.
Proof. induction l as [|a l IH]; [reflexivity | exact IH]. Qed.

Lemma skipn_length {A} (l : list A) : skipn (length l) l = [].
Proof. induction l as [|a l IH]; [reflexivity | exact IH]. Qed.

Lemma on_board_get (s : session) : on_board get s = (Returned (self_board s), s).
Proof.
  unfold on_board, get. rewrite skipn_length. cbn [map].
  rewrite app_nil_r. destruct s. reflexivity.
Qed.

Lemma on_board_modify (f : board -> board) (s : session) :
  log (f (self_board s)) = log (self_board s) ->
  on_board (modify f) s = (Returned tt, mk_session (f (self_board s)) (calls s)).
Proof.
  intros H. unfold on_board, modify. rewrite H, skipn_length. cbn [map].
  rewrite app_nil_r. reflexivity.
Qed.

Lemma on_board_emit (e : event) (s : session) :
  on_board (emit e) s =
    (Returned tt,
     mk_session (with_log (log (self_board s) ++ [e]) (self_board s))
                (calls s ++ [Hw e])).
Proof.
  unfold on_board, emit, modify. cbn [log with_log].
  rewrite skipn_all_app. reflexivity.
Qed.

Lemma on_board_GPIO_PWM (pin frequency : Z) (s : session) :
  on_board (GPIO_PWM pin frequency) s =
    (if gpio_pwm_granted (self_board s)
     then Returned (mk_pwm pin frequency 0) else Raised RuntimeError, s).
Proof.
  unfold on_board, GPIO_PWM, bind, get, ret, raise.
  destruct (gpio_pwm_granted (self_board s));
    rewrite skipn_length; cbn [map]; rewrite app_nil_r; destruct s; reflexivity.
Qed.

Lemma on_board_PWM_start (p : pwm) (dc : Q) (s : session) :
  valid_dutycycle dc = true ->
  on_board (PWM_start p dc) s =
    (Returned (mk_pwm (pwm_channel p) (pwm_frequency p) dc),
     mk_session (with_log (log (self_board s) ++ [PwmStart (pwm_channel p) dc])
                          (self_board s))
                (calls s ++ [Hw (PwmStart (pwm_channel p) dc)])).
Proof.
  intros V. unfold on_board, PWM_start. rewrite V.
  unfold bind, emit, modify, ret. cbn [log with_log].
  rewrite skipn_all_app. reflexivity.
Qed.

(** X17.  After every call of [set_backlight_mode] that changes the mode
    the backlight is dark, in both directions.  Towards PWM the new PWM
    object is started at duty cycle 100; if [GPIO.PWM] is refused the
    RuntimeError leaves the method and the mode stays as it was.  Towards
    the switch the PWM object, if there is one, is stopped and dropped,
    and the line is driven HIGH: the level [set_backlight(0)] uses to
    switch the backlight off, though the comment on that line says that
    it makes sure the backlight is on.  A call with the current mode does
    nothing. *)
Theorem set_backlight_mode_goes_dark :
  forall mode s,
    (mode = backlight_mode (self_board s) ->
     set_backlight_mode mode s = (Returned tt, s)) /\
    (mode = true -> backlight_mode (self_board s) = false ->
     (gpio_pwm_granted (self_board s) = true ->
      set_backlight_mode mode s =
        (Returned tt,
         mk_session
           (with_backlight_mode true
              (with_backlight_pwm (Some (mk_pwm LED_PIN 1000 100))
                 (with_log (log (self_board s) ++ [PwmStart LED_PIN 100])
                           (self_board s))))
           (calls s ++ [Hw (PwmStart LED_PIN 100)]))) /\
     (gpio_pwm_granted (self_board s) = false ->
      set_backlight_mode mode s = (Raised RuntimeError, s))) /\
    (mode = false -> backlight_mode (self_board s) = true ->
     set_backlight_mode mode s =
       (Returned tt,
        mk_session
          (with_backlight_mode false
             (with_backlight_pwm None
                (with_log (log (self_board s)
                           ++ [GpioOutput LED_PIN BACKLIGHT_OFF])
                          (self_board s))))
          (calls s
           ++ match backlight_pwm (self_board s) with
              | Some p => [PwmStop (pwm_channel p)]
              | None => []
              end
           ++ [Hw (GpioOutput LED_PIN BACKLIGHT_OFF)]))).
Proof.
  intros mode [b cs].
  destruct b as [gi bm blp rp gp bp cr cg cb w2 granted l].
  cbn [self_board calls backlight_mode gpio_pwm_granted backlight_pwm log].
  split; [|split].
  - intros ->. unfold set_backlight_mode.
    rewrite (bind_run _ _ _ _ _ (on_board_get _)).
    cbn [self_board backlight_mode].
    rewrite Bool.eqb_reflx. reflexivity.
  - intros -> ->. split.
    + intros ->. unfold set_backlight_mode.
      rewrite (bind_run _ _ _ _ _ (on_board_get _)).
      cbn [self_board backlight_mode Bool.eqb].
      unfold bind at 1. unfold bind at 1.
      rewrite on_board_GPIO_PWM. cbn [self_board gpio_pwm_granted].
      unfold bind at 1.
      rewrite on_board_modify by reflexivity.
      rewrite (bind_run _ _ _ _ _ (on_board_PWM_start _ 100 _ eq_refl)).
      rewrite on_board_modify by reflexivity.
      rewrite on_board_modify by reflexivity.
      reflexivity.
    + intros ->. unfold set_backlight_mode.
      rewrite (bind_run _ _ _ _ _ (on_board_get _)).
      cbn [self_board backlight_mode Bool.eqb].
      unfold bind at 1. unfold bind at 1.
      rewrite on_board_GPIO_PWM. reflexivity.
  - intros -> ->.
    unfold set_backlight_mode.
    rewrite (bind_run _ _ _ _ _ (on_board_get _)).
    cbn [self_board backlight_mode Bool.eqb backlight_pwm].
    unfold GPIO_output.
    destruct blp as [p0|].
    + unfold bind at 1. unfold bind at 1. unfold bind at 1.
      unfold PWM_stop, emit_call. cbn [self_board calls].
      rewrite on_board_modify by reflexivity.
      rewrite on_board_emit.
      rewrite on_board_modify by reflexivity.
      cbn [self_board calls]. rewrite <- !app_assoc. reflexivity.
    + unfold bind at 1. unfold bind at 1. unfold ret at 1.
      rewrite on_board_emit.
      rewrite on_board_modify by reflexivity.
      reflexivity.
Qed.

Lemma set_backlight_mode_goes_dark_witness :
  set_backlight_mode false (session_of board_ready) =
    (Returned tt,
     mk_session
       (with_backlight_mode false
          (with_backlight_pwm None
             (with_log (log board_ready ++ [GpioOutput LED_PIN BACKLIGHT_OFF])
                       board_ready)))
       [Hw (GpioOutput LED_PIN BACKLIGHT_OFF)]) /\
  set_backlight_mode true (session_of board_switch) =
    (Returned tt,
     mk_session
       (with_backlight_mode true
          (with_backlight_pwm (Some (mk_pwm LED_PIN 1000 100))
             (with_log (log board_switch ++ [PwmStart LED_PIN 100]) board_switch)))
       [Hw (PwmStart LED_PIN 100)]).
Proof.
  split.
  - destruct (set_backlight_mode_goes_dark false (session_of board_ready))
      as [_ [_ H]].
    apply H; reflexivity.
  - destruct (set_backlight_mode_goes_dark true (session_of board_switch))
      as [_ [H _]].
    apply H; reflexivity.
Defined.

(** X18.  [cleanup] ends well only on a board that has its three RGB PWM
    objects.  It stops the backlight PWM if there is one, closes the SPI
    device, stops the red, green and blue PWM objects and, last, calls
    [GPIO.cleanup()]; where [red_pwm] is [None] the call
    [self.red_pwm.stop()] raises AttributeError, after the SPI device was
    closed and before [GPIO.cleanup()] is reached.  That is the board the
    constructor leaves whenever the RGB indicator could not be set up.
    The board itself is never changed: no attribute is reset. *)
Theorem cleanup_needs_rgb :
  forall s,
    let stop_backlight :=
      match backlight_pwm (self_board s) with
      | Some p => [PwmStop (pwm_channel p)]
      | None => []
      end in
    (forall rp gp bp,
        red_pwm (self_board s) = Some rp ->
        green_pwm (self_board s) = Some gp ->
        blue_pwm (self_board s) = Some bp ->
        cleanup s =
          (Returned tt,
           mk_session (self_board s)
                      (calls s ++ stop_backlight
                       ++ [SpiClose; PwmStop (pwm_channel rp);
                           PwmStop (pwm_channel gp); PwmStop (pwm_channel bp);
                           GpioCleanup]))) /\
    (red_pwm (self_board s) = None ->
     cleanup s =
       (Raised AttributeError,
        mk_session (self_board s) (calls s ++ stop_backlight ++ [SpiClose]))) /\
    (forall p w g,
        self_board s = constructed p w g ->
        (fst (cleanup s) = Returned tt <-> rgb_ok p g = true)).
Proof.
  intros [b cs].
  destruct b as [gi bm blp rp0 gp0 bp0 cr cg cb w2 granted l].
  cbn [self_board calls backlight_pwm red_pwm green_pwm blue_pwm].
  assert (Stop : forall (o : option pwm) (s : session),
             (match o with
              | Some p => PWM_stop (Some p)
              | None => ret tt
              end) s
             = (Returned tt,
                mk_session (self_board s)
                           (calls s ++ match o with
                                       | Some p => [PwmStop (pwm_channel p)]
                                       | None => []
                                       end))).
  { intros [p0|] [b0 c0]; unfold PWM_stop, emit_call, ret; cbn [self_board calls];
      [reflexivity | rewrite app_nil_r; reflexivity]. }
  assert (Ok : forall rp gp bp,
             cleanup (mk_session (mk_board gi bm blp (Some rp) (Some gp) (Some bp)
                                           cr cg cb w2 granted l) cs)
             = (Returned tt,
                mk_session (mk_board gi bm blp (Some rp) (Some gp) (Some bp)
                                     cr cg cb w2 granted l)
                           (cs ++ match blp with
                                  | Some p => [PwmStop (pwm_channel p)]
                                  | None => []
                                  end
                            ++ [SpiClose; PwmStop (pwm_channel rp);
                                PwmStop (pwm_channel gp); PwmStop (pwm_channel bp);
                                GpioCleanup]))).
  { intros rp gp bp. unfold cleanup.
    rewrite (bind_run _ _ _ _ _ (on_board_get _)).
    cbn [self_board backlight_pwm].
    rewrite (bind_run _ _ _ _ _ (Stop blp _)).
    unfold bind at 1. unfold emit_call at 1. cbn [self_board calls].
    rewrite (bind_run _ _ _ _ _ (on_board_get _)).
    cbn [self_board red_pwm].
    unfold bind at 1. unfold PWM_stop at 1. unfold emit_call at 1.
    cbn [self_board calls].
    rewrite (bind_run _ _ _ _ _ (on_board_get _)).
    cbn [self_board green_pwm].
    unfold bind at 1. unfold PWM_stop at 1. unfold emit_call at 1.
    cbn [self_board calls].
    rewrite (bind_run _ _ _ _ _ (on_board_get _)).
    cbn [self_board blue_pwm].
    unfold bind at 1. unfold PWM_stop at 1. unfold emit_call at 1.
    cbn [self_board calls].
    unfold emit_call. cbn [self_board calls].
    rewrite <- !app_assoc. reflexivity. }
  assert (No : cleanup (mk_session (mk_board gi bm blp None gp0 bp0
                                             cr cg cb w2 granted l) cs)
               = (Raised AttributeError,
                  mk_session (mk_board gi bm blp None gp0 bp0
                                       cr cg cb w2 granted l)
                             (cs ++ match blp with
                                    | Some p => [PwmStop (pwm_channel p)]
                                    | None => []
                                    end
                              ++ [SpiClose]))).
  { unfold cleanup.
    rewrite (bind_run _ _ _ _ _ (on_board_get _)).
    cbn [self_board backlight_pwm].
    rewrite (bind_run _ _ _ _ _ (Stop blp _)).
    unfold bind at 1. unfold emit_call at 1. cbn [self_board calls].
    rewrite (bind_run _ _ _ _ _ (on_board_get _)).
    cbn [self_board red_pwm].
    unfold bind at 1. unfold PWM_stop at 1. unfold raise.
    rewrite <- !app_assoc. reflexivity. }
  split; [|split].
  - intros rp gp bp -> -> ->. apply Ok.
  - intros ->. exact No.
  - intros p w g E. unfold constructed in E. cbv zeta in E.
    injection E as _ _ _ Er Eg Eb _ _ _ _ _ _.
    destruct (rgb_ok p g).
    + subst rp0 gp0 bp0. rewrite Ok. split; reflexivity.
    + subst rp0. rewrite No. split; discriminate.
Qed.

Lemma cleanup_needs_rgb_witness :
  cleanup (session_of board_no_rgb) =
    (Raised AttributeError, mk_session board_no_rgb [SpiClose]) /\
  cleanup (session_of board_ready) =
    (Returned tt,
     mk_session board_ready
                [SpiClose; PwmStop RED_PIN; PwmStop GREEN_PIN; PwmStop BLUE_PIN;
                 GpioCleanup]).
Proof.
  split.
  - destruct (cleanup_needs_rgb (session_of board_no_rgb)) as [_ [H _]].
    apply H. reflexivity.
  - destruct (cleanup_needs_rgb (session_of board_ready)) as [H _].
    apply (H (mk_pwm RED_PIN 100 0) (mk_pwm GREEN_PIN 100 0)
             (mk_pwm BLUE_PIN 100 0)); reflexivity.
Defined.

(* ------------------------------------------------------------------ *)
(** ** RGB indicator: the direction of a fade *)

Lemma last_cons {A} (a d : A) (l : list A) : last (a :: l) d = last l a.
Proof.
  destruct l as [|b l]; [reflexivity|].
  change (last (a :: b :: l) d) with (last (b :: l) d).
  apply last_default.
Qed.

Lemma rnd_byte (c : Z) : 0 <= c <= 255 -> PyFloat.rnd (inject_Z c) = inject_Z c.
Proof.
  intros H.
  pose proof (range_forallb 256
                (fun c => (Qnum (PyFloat.rnd (inject_Z c)) =? c)
                          && Pos.eqb (Qden (PyFloat.rnd (inject_Z c))) 1)
                ltac:(vm_compute; reflexivity) c ltac:(lia)) as B.
  cbv beta in B. apply andb_true_iff in B. destruct B as [N D].
  apply Z.eqb_eq in N. apply Pos.eqb_eq in D.
  destruct (PyFloat.rnd (inject_Z c)) as [n d]. cbn [Qnum Qden] in N, D.
  subst. reflexivity.
Qed.

Lemma to_int_le (x : Q) (n : Z) :
  0 <= n -> (x <= inject_Z n)%Q -> PyFloat.to_int x <= n.
Proof.
  intros Hn H. destruct x as [a b]. unfold PyFloat.to_int. cbn [Qnum Qden].
  unfold Qle in H. cbn [Qnum Qden inject_Z] in H.
  destruct (Z_lt_le_dec a 0) as [Neg | Pos].
  - assert (Q0 : Z.quot a (Z.pos b) <= 0).
    { replace a with (- (- a)) by lia. rewrite Z.quot_opp_l by lia.
      pose proof (Z.quot_pos (- a) (Z.pos b) ltac:(lia) ltac:(lia)). lia. }
    lia.
  - rewrite Z.quot_div_nonneg by lia.
    apply Z.div_le_upper_bound; lia.
Qed.

Lemma product_nonneg (i : Z) (step : Q) :
  0 <= i -> (0 <= step)%Q ->
  (0 <= PyFloat.rnd (PyFloat.of_int i * step))%Q.
Proof.
  intros Hi Hs. apply PyFloatFacts.rnd_nonneg.
  apply Qmult_le_0_compat; [|exact Hs].
  apply PyFloatFacts.rnd_nonneg.
  change 0%Q with (inject_Z 0). rewrite <- Zle_Qle. exact Hi.
Qed.

Lemma product_nonpos (i : Z) (step : Q) :
  0 <= i -> (step <= 0)%Q ->
  (PyFloat.rnd (PyFloat.of_int i * step) <= 0)%Q.
Proof.
  intros Hi Hs.
  assert (P : (0 <= PyFloat.of_int i)%Q).
  { apply PyFloatFacts.rnd_nonneg.
    change 0%Q with (inject_Z 0). rewrite <- Zle_Qle. exact Hi. }
  assert (N : (PyFloat.of_int i * step <= 0)%Q) by nra.
  apply PyFloatFacts.rnd_mono in N.
  rewrite (PyFloatFacts.rnd_zero 0) in N by reflexivity. exact N.
Qed.

(** A sum that is at least an integer in 0..255 truncates to at least
    that integer, and likewise from above. *)
Lemma interim_lower (prev i bound : Z) (step : Q) :
  0 <= prev <= 255 -> 0 <= bound <= 255 ->
  (inject_Z bound <= inject_Z prev + PyFloat.rnd (PyFloat.of_int i * step))%Q ->
  bound <= interim prev i step.
Proof.
  intros Hp Hb H. unfold interim, PyFloat.add, PyFloat.mul, PyFloat.of_int at 1.
  rewrite (rnd_byte prev Hp).
  apply to_int_ge; [lia|].
  rewrite <- (rnd_byte bound Hb). apply PyFloatFacts.rnd_mono. exact H.
Qed.

Lemma interim_upper (prev i bound : Z) (step : Q) :
  0 <= prev <= 255 -> 0 <= bound <= 255 ->
  (inject_Z prev + PyFloat.rnd (PyFloat.of_int i * step) <= inject_Z bound)%Q ->
  interim prev i step <= bound.
Proof.
  intros Hp Hb H. unfold interim, PyFloat.add, PyFloat.mul, PyFloat.of_int at 1.
  rewrite (rnd_byte prev Hp).
  apply to_int_le; [lia|].
  rewrite <- (rnd_byte bound Hb). apply PyFloatFacts.rnd_mono. exact H.
Qed.

Lemma sample_up (prev i : Z) (step : Q) :
  0 <= prev <= 255 -> 0 <= i -> (0 <= step)%Q ->
  prev <= clamp255 (interim prev i step).
Proof.
  intros Hp Hi Hs.
  assert (prev <= interim prev i step).
  { apply interim_lower; try assumption.
    pose proof (product_nonneg i step Hi Hs). lra. }
  unfold clamp255. lia.
Qed.

Lemma sample_down (prev i : Z) (step : Q) :
  0 <= prev <= 255 -> 0 <= i -> (step <= 0)%Q ->
  clamp255 (interim prev i step) <= prev.
Proof.
  intros Hp Hi Hs.
  assert (interim prev i step <= prev).
  { apply interim_upper; try assumption.
    pose proof (product_nonpos i step Hi Hs). lra. }
  unfold clamp255. lia.
Qed.

Lemma channel_samples_up (step : Q) (indices : list Z) :
  (0 <= step)%Q -> Forall (fun i => 0 <= i) indices ->
  forall cur, 0 <= cur <= 255 ->
    nondecreasing (cur :: channel_samples step cur indices) /\
    cur <= last (channel_samples step cur indices) cur <= 255.
Proof.
  intros Hs. induction 1 as [|i rest Hi _ IH]; intros cur Hc.
  - cbn. split; [exact I | lia].
  - cbn [channel_samples]. cbv zeta.
    set (s := clamp255 (interim cur i step)).
    assert (Hs' : 0 <= s <= 255) by apply clamp255_range.
    assert (Up : cur <= s) by (apply sample_up; assumption).
    destruct (IH s Hs') as [N L]. split.
    + split; [exact Up | exact N].
    + rewrite last_cons. lia.
Qed.

Lemma channel_samples_down (step : Q) (indices : list Z) :
  (step <= 0)%Q -> Forall (fun i => 0 <= i) indices ->
  forall cur, 0 <= cur <= 255 ->
    nonincreasing (cur :: channel_samples step cur indices) /\
    0 <= last (channel_samples step cur indices) cur <= cur.
Proof.
  intros Hs. induction 1 as [|i rest Hi _ IH]; intros cur Hc.
  - cbn. split; [exact I | lia].
  - cbn [channel_samples]. cbv zeta.
    set (s := clamp255 (interim cur i step)).
    assert (Hs' : 0 <= s <= 255) by apply clamp255_range.
    assert (Dn : s <= cur) by (apply sample_down; assumption).
    destruct (IH s Hs') as [N L]. split.
    + split; [exact Dn | exact N].
    + rewrite last_cons. lia.
Qed.

Lemma channel_samples_app (step : Q) (l1 l2 : list Z) :
  forall cur,
    channel_samples step cur (l1 ++ l2) =
    channel_samples step cur l1
    ++ channel_samples step (last (channel_samples step cur l1) cur) l2.
Proof.
  induction l1 as [|i l1 IH]; intros cur; [reflexivity|].
  cbn [app channel_samples]. cbv zeta.
  set (s := clamp255 (interim cur i step)).
  rewrite IH, last_cons. reflexivity.
Qed.

(** Twenty steps are at least the whole way. *)
Lemma twenty_steps_up (d : Z) :
  0 <= d <= 255 ->
  (inject_Z d <= PyFloat.rnd (PyFloat.of_int 20
                              * PyFloat.rnd (inject_Z d / inject_Z 20)))%Q.
Proof.
  intros H. apply Qle_bool_iff.
  apply (range_forallb 256
           (fun d => Qle_bool (inject_Z d)
                       (PyFloat.rnd (PyFloat.of_int 20
                                     * PyFloat.rnd (inject_Z d / inject_Z 20)))));
    [vm_compute; reflexivity | lia].
Qed.

Lemma twenty_steps_down (d : Z) :
  0 <= d <= 255 ->
  (PyFloat.rnd (PyFloat.of_int 20
                * PyFloat.rnd (inject_Z (- d) / inject_Z 20)) <= inject_Z (- d))%Q.
Proof.
  intros H. apply Qle_bool_iff.
  apply (range_forallb 256
           (fun d => Qle_bool
                       (PyFloat.rnd (PyFloat.of_int 20
                                     * PyFloat.rnd (inject_Z (- d) / inject_Z 20)))
                       (inject_Z (- d))));
    [vm_compute; reflexivity | lia].
Qed.

Lemma range_21 : range 21 = range 20 ++ [20].
Proof. reflexivity. Qed.

Lemma range_nonneg (n : Z) : Forall (fun i => 0 <= i) (range n).
Proof.
  apply Forall_forall. intros i Hi. apply In_range in Hi. lia.
Qed.

(** One channel of a fade between channel values. *)
Lemma channel_fades_towards (cur target : Z) :
  0 <= cur <= 255 -> 0 <= target <= 255 ->
  fades_towards cur target
    (channel_samples (fade_step target cur) cur (range 21))
    (last (channel_samples (fade_step target cur) cur (range 21)) cur).
Proof.
  intros Hc Ht. unfold fades_towards.
  set (step := fade_step target cur).
  assert (Last : last (channel_samples step cur (range 21)) cur
                 = clamp255 (interim (last (channel_samples step cur (range 20)) cur)
                                     20 step)).
  { rewrite range_21, channel_samples_app. cbn [channel_samples]. cbv zeta.
    rewrite last_last. reflexivity. }
  split.
  - intros Up.
    assert (Hs : (0 <= step)%Q).
    { unfold step, fade_step. apply PyFloatFacts.rnd_nonneg.
      apply Qle_shift_div_l; [reflexivity|]. rewrite Qmult_0_l.
      change 0%Q with (inject_Z 0). rewrite <- Zle_Qle. lia. }
    destruct (channel_samples_up step (range 21) Hs (range_nonneg 21) cur Hc)
      as [N _].
    split; [exact N|].
    destruct (channel_samples_up step (range 20) Hs (range_nonneg 20) cur Hc)
      as [_ L].
    rewrite Last.
    set (s19 := last (channel_samples step cur (range 20)) cur) in *.
    assert (target <= interim s19 20 step).
    { apply interim_lower; [lia | lia |].
      pose proof (twenty_steps_up (target - cur) ltac:(lia)) as T.
      fold (fade_step target cur) in T. fold step in T.
      assert (A : (inject_Z target <= inject_Z s19 + inject_Z (target - cur))%Q).
      { rewrite <- inject_Z_plus, <- Zle_Qle. lia. }
      lra. }
    unfold clamp255. lia.
  - intros Dn.
    assert (Hs : (step <= 0)%Q).
    { unfold step, fade_step.
      assert (A : (inject_Z (target - cur) / inject_Z 20 <= 0)%Q).
      { apply Qle_shift_div_r; [reflexivity|]. rewrite Qmult_0_l.
        change 0%Q with (inject_Z 0). rewrite <- Zle_Qle. lia. }
      apply PyFloatFacts.rnd_mono in A.
      rewrite (PyFloatFacts.rnd_zero 0) in A by reflexivity. exact A. }
    destruct (channel_samples_down step (range 21) Hs (range_nonneg 21) cur Hc)
      as [N _].
    split; [exact N|].
    destruct (channel_samples_down step (range 20) Hs (range_nonneg 20) cur Hc)
      as [_ L].
    rewrite Last.
    set (s19 := last (channel_samples step cur (range 20)) cur) in *.
    assert (interim s19 20 step <= target).
    { apply interim_upper; [lia | lia |].
      pose proof (twenty_steps_down (cur - target) ltac:(lia)) as T.
      replace (- (cur - target)) with (target - cur) in T by lia.
      fold (fade_step target cur) in T. fold step in T.
      assert (A : (inject_Z s19 + inject_Z (target - cur) <= inject_Z target)%Q).
      { rewrite <- inject_Z_plus, <- Zle_Qle. lia. }
      lra. }
    unfold clamp255. lia.
Qed.

Lemma running_samples_channels (rs gs bs : PyFloat.float) (indices : list Z) :
  forall cr cg cb,
    map red (running_samples (rs, gs, bs) (cr, cg, cb) indices)
    = channel_samples rs cr indices /\
    map green (running_samples (rs, gs, bs) (cr, cg, cb) indices)
    = channel_samples gs cg indices /\
    map blue (running_samples (rs, gs, bs) (cr, cg, cb) indices)
    = channel_samples bs cb indices /\
    last (running_samples (rs, gs, bs) (cr, cg, cb) indices) (cr, cg, cb)
    = (last (channel_samples rs cr indices) cr,
       last (channel_samples gs cg indices) cg,
       last (channel_samples bs cb indices) cb).
Proof.
  induction indices as [|i rest IH]; intros cr cg cb.
  - repeat split.
  - cbn [running_samples channel_samples map]. cbv zeta.
    set (r := clamp255 (interim cr i rs)).
    set (g := clamp255 (interim cg i gs)).
    set (b := clamp255 (interim cb i bs)).
    destruct (IH r g b) as [R [G [B L]]].
    rewrite R, G, B.
    split; [reflexivity|]. split; [reflexivity|]. split; [reflexivity|].
    rewrite !last_cons, L. reflexivity.
Qed.

(** X19.  The direction of every fade between channel values.  The
    samples of [set_rgb_fade] accumulate, so they do not follow the
    straight line to the target; but on each channel they never move
    away from the target, and the fade never stops short of it: a channel
    that goes up is nondecreasing and ends at or above the target, a
    channel that goes down is nonincreasing and ends at or below it.
    The stored colour at the end is the last sample.  The duration is
    from 0 to [MAX_DURATION_MS], whose pauses [time.sleep] takes. *)
Theorem set_rgb_fade_direction :
  forall r_target g_target b_target duration_ms st cr cg cb,
    rgb_ready st -> stored st = Some (cr, cg, cb) ->
    channel_value cr -> channel_value cg -> channel_value cb ->
    channel_value r_target -> channel_value g_target -> channel_value b_target ->
    0 <= duration_ms <= MAX_DURATION_MS ->
    exists st' samples fr fg fb,
      set_rgb_fade r_target g_target b_target duration_ms st = (Returned tt, st') /\
      log st' = log st ++ flat_map (sample_events (fade_pause duration_ms)) samples /\
      length samples = 21%nat /\
      stored st' = Some (fr, fg, fb) /\
      fades_towards cr r_target (map red samples) fr /\
      fades_towards cg g_target (map green samples) fg /\
      fades_towards cb b_target (map blue samples) fb.
Proof.
  intros rt gt bt d st cr cg cb Hready Hcur Hr Hg Hb Hrt Hgt Hbt Hd.
  destruct (set_rgb_fade_run rt gt bt d st cr cg cb Hready Hcur
              (channel_finite _ Hr) (channel_finite _ Hg) (channel_finite _ Hb)
              (channel_finite _ Hrt) (channel_finite _ Hgt)
              (channel_finite _ Hbt) Hd)
    as [st' [Run [_ [Hst Hlog]]]].
  cbv zeta in Hst, Hlog.
  destruct (running_samples_channels (fade_step rt cr) (fade_step gt cg)
              (fade_step bt cb) (range 21) cr cg cb) as [R [G [B L]]].
  exists st', (running_samples (fade_step rt cr, fade_step gt cg, fade_step bt cb)
                               (cr, cg, cb) (range 21)).
  exists (last (channel_samples (fade_step rt cr) cr (range 21)) cr),
         (last (channel_samples (fade_step gt cg) cg (range 21)) cg),
         (last (channel_samples (fade_step bt cb) cb (range 21)) cb).
  split; [exact Run|]. split; [exact Hlog|].
  split.
  { transitivity (length (channel_samples (fade_step rt cr) cr (range 21)));
      [rewrite <- R; symmetry; apply length_map | reflexivity]. }
  split; [rewrite Hst, L; reflexivity|].
  rewrite R, G, B.
  split; [|split]; apply channel_fades_towards; assumption.
Qed.

Lemma set_rgb_fade_direction_witness :
  exists st' samples fr fg fb,
    set_rgb_fade 100 200 0 100
      (with_current (Some 0) (Some 250) (Some 30) board_ready) = (Returned tt, st') /\
    log st' = log (with_current (Some 0) (Some 250) (Some 30) board_ready)
              ++ flat_map (sample_events (fade_pause 100)) samples /\
    length samples = 21%nat /\
    stored st' = Some (fr, fg, fb) /\
    fades_towards 0 100 (map red samples) fr /\
    fades_towards 250 200 (map green samples) fg /\
    fades_towards 30 0 (map blue samples) fb.
Proof.
  apply (set_rgb_fade_direction 100 200 0 100
           (with_current (Some 0) (Some 250) (Some 30) board_ready) 0 250 30);
    try reflexivity; unfold channel_value; try lia;
    try exact short_duration.
  unfold rgb_ready. repeat split; eexists; reflexivity.
Defined.
